(** * JobFinder: the crawl-and-orchestrate pipeline

    A shallow embedding of [crawler/workday.py] (URL resolution, the
    retrying HTTP client, listing pagination, detail enrichment, the
    employer crawl) and of the scan orchestrator of [app.py]
    ([_scan_one_company], [_run_scanner]) together with the part of
    [database.py] they write to.

    Conventions.
    - Python [str] values are modelled as [string] (8-bit characters); the
      URLs and labels the program handles are ASCII.
    - JSON numbers are the integers ([Z]); the counts the platform returns
      ([total]) are integers.
    - A Python function that may raise returns a [result]; code that
      performs requests, sleeps or callbacks threads a [world].
    - Library functions ([urllib.parse.urlparse], [datetime.fromisoformat],
      BeautifulSoup's [get_text]) and the clock are not part of the
      repository: they are section variables. *)

From Stdlib Require Import ZArith QArith List String Ascii Bool Lia.
From stdpp Require Import base strings gmap list.

Local Open Scope Z_scope.

(** ** Python values, exceptions, results *)

Module Py.

(** A decoded JSON document ([resp.json()]); [JNull] is Python's [None],
    [JObj] a [dict] in insertion order with unique keys. *)
#[warnings="-register-all"]
Inductive json : Type :=
| JNull
| JBool (b : bool)
| JNum (n : Z)
| JStr (s : string)
| JArr (items : list json)
| JObj (fields : list (string * json)).

Abbreviation dict := (list (string * json)).

(** The exception classes the program distinguishes. [HTTPError] is the
    subclass of [RequestException] raised by [raise_for_status]; the
    constructor [RequestException] stands for every other member of the
    [requests] hierarchy (timeouts, connection errors). *)
Inductive exn : Type :=
| HTTPError (status : Z) (msg : string)
| RequestException (msg : string)
| KeyError (key : string)
| TypeError (msg : string)
| AttributeError (msg : string)
| ValueError (msg : string)
| OtherError (msg : string).

(** [str(e)] *)
Definition exn_str (e : exn) : string :=
  match e with
  | HTTPError _ m
  | RequestException m | TypeError m | AttributeError m
  | ValueError m | OtherError m => m
  | KeyError k => "'" +:+ k +:+ "'"
  end.

Inductive result (A : Type) : Type :=
| Ok (a : A)
| Raise (e : exn).
Arguments Ok {A} a.
Arguments Raise {A} e.

Definition rbind {A B} (r : result A) (k : A -> result B) : result B :=
  match r with
  | Ok a => k a
  | Raise e => Raise e
  end.

#[export] Instance result_ret : MRet result := @Ok.
#[export] Instance result_bind : MBind result := fun A B k r => rbind r k.

(** Truthiness: [bool(v)]. *)
Definition truthy (v : json) : bool :=
  match v with
  | JNull => false
  | JBool b => b
  | JNum n => negb (n =? 0)
  | JStr s => negb (String.eqb s "")
  | JArr l => match l with [] => false | _ => true end
  | JObj kv => match kv with [] => false | _ => true end
  end.

(** [d.get(k)] on a dict: [None] when the key is missing. *)
Fixpoint lookup_key (k : string) (d : dict) : option json :=
  match d with
  | [] => None
  | (k', v) :: d' => if String.eqb k k' then Some v else lookup_key k d'
  end.

(** [d.get(k, default)] *)
Definition get_default (d : dict) (k : string) (default : json) : json :=
  match lookup_key k d with
  | Some v => v
  | None => default
  end.

(** [d.get(k)] with the default [None]. *)
Definition get (d : dict) (k : string) : json := get_default d k JNull.

(** [d[k]]: raises [KeyError] when the key is missing. *)
Definition getitem (d : dict) (k : string) : result json :=
  match lookup_key k d with
  | Some v => Ok v
  | None => Raise (KeyError k)
  end.

(** [d[k] = v]: replaces in place, or appends a new key. *)
Fixpoint setitem (d : dict) (k : string) (v : json) : dict :=
  match d with
  | [] => [(k, v)]
  | (k', v') :: d' =>
      if String.eqb k k' then (k, v) :: d' else (k', v') :: setitem d' k v
  end.

(** [x == s] for a string literal [s]. *)
Definition eq_str (v : json) (s : string) : bool :=
  match v with
  | JStr s' => String.eqb s' s
  | _ => false
  end.

(** [needle in hay] on strings. *)
Fixpoint contains (needle hay : string) : bool :=
  String.prefix needle hay ||
  match hay with
  | EmptyString => false
  | String _ hay' => contains needle hay'
  end.

(** [k in data] for a string [k]: key membership on a dict, element
    membership on a list, substring on a string; other types are not
    iterable. *)
Definition py_in (k : string) (data : json) : result bool :=
  match data with
  | JObj kv => Ok (match lookup_key k kv with Some _ => true | None => false end)
  | JArr l => Ok (existsb (fun x => eq_str x k) l)
  | JStr s => Ok (contains k s)
  | _ => Raise (TypeError "argument is not iterable")
  end.

(** [s[:n]] *)
Definition take_str (n : nat) (s : string) : string := String.substring 0 n s.

End Py.
Import Py.

(** ** crawler/workday.py *)

Module Workday.

(** *** Strings *)

Definition is_lower (c : ascii) : bool := ("a" <=? c)%char && (c <=? "z")%char.
Definition is_upper (c : ascii) : bool := ("A" <=? c)%char && (c <=? "Z")%char.
Definition is_digit (c : ascii) : bool := ("0" <=? c)%char && (c <=? "9")%char.
Definition is_dot (c : ascii) : bool := (c =? ".")%char.
Definition is_slash (c : ascii) : bool := (c =? "/")%char.

(** Line feed, and the characters [str.strip()] removes (ASCII range). *)
Definition LF : ascii := ascii_of_nat 10.
Definition is_space (c : ascii) : bool :=
  let n := nat_of_ascii c in
  ((9 <=? n) && (n <=? 13) || (28 <=? n) && (n <=? 32))%nat.

(** The longest prefix of [s] whose characters satisfy [p], and the rest. *)
Fixpoint span (p : ascii -> bool) (s : string) : string * string :=
  match s with
  | EmptyString => (EmptyString, EmptyString)
  | String c s' =>
      if p c then let (a, b) := span p s' in (String c a, b)
      else (EmptyString, s)
  end.

Fixpoint drop_while (p : ascii -> bool) (s : string) : string :=
  match s with
  | EmptyString => EmptyString
  | String c s' => if p c then drop_while p s' else s
  end.

Fixpoint forall_chars (p : ascii -> bool) (s : string) : bool :=
  match s with
  | EmptyString => true
  | String c s' => p c && forall_chars p s'
  end.

(** Removes the trailing characters satisfying [p]. *)
Fixpoint drop_while_end (p : ascii -> bool) (s : string) : string :=
  match s with
  | EmptyString => EmptyString
  | String c s' =>
      match drop_while_end p s' with
      | EmptyString => if p c then EmptyString else String c EmptyString
      | r => String c r
      end
  end.

(** [s.strip(chars)] for the characters satisfying [p]. *)
Definition strip (p : ascii -> bool) (s : string) : string :=
  drop_while_end p (drop_while p s).

(** [s.split(sep)] for a one-character separator. *)
Fixpoint split (sep : ascii) (s : string) : list string :=
  match s with
  | EmptyString => [EmptyString]
  | String c s' =>
      if (c =? sep)%char then EmptyString :: split sep s'
      else match split sep s' with
           | [] => [String c EmptyString]
           | p :: ps => String c p :: ps
           end
  end.

(** [rest] when [s = pre ++ rest]. *)
Fixpoint strip_prefix (pre s : string) : option string :=
  match pre with
  | EmptyString => Some s
  | String c pre' =>
      match s with
      | EmptyString => None
      | String d s' => if (c =? d)%char then strip_prefix pre' s' else None
      end
  end.

(** The regex anchor [$] of [re.match] (no MULTILINE): the end of the
    string, or just before a line feed that ends the string. *)
Definition at_dollar (s : string) : bool :=
  match s with
  | EmptyString => true
  | String c EmptyString => (c =? LF)%char
  | _ => false
  end.

(** *** URL parsing *)

(** What [parse_workday_url] reads from [urlparse]'s result. *)
Record url_parts : Type := { hostname : option string; path : string }.

Record site_coordinates : Type :=
  { host : string; tenant : string; site : string }.

(** [re.match(r"^([^.]+)\.wd\d+\.myworkdayjobs\.com$", host)], returning
    group 1.  The character classes exclude the literal that follows them,
    so the greedy split is the only one. *)
Definition tenant_match (h : string) : option string :=
  let (t, r1) := span (fun c => negb (is_dot c)) h in
  if String.eqb t "" then None else
  match strip_prefix ".wd" r1 with
  | None => None
  | Some r2 =>
      let (ds, r3) := span is_digit r2 in
      if String.eqb ds "" then None else
      match strip_prefix ".myworkdayjobs.com" r3 with
      | None => None
      | Some r4 => if at_dollar r4 then Some t else None
      end
  end.

(** [re.match(r"^[a-z]{2}-[A-Z]{2}$", p)] *)
Definition is_locale (p : string) : bool :=
  match p with
  | String a (String b (String h (String c (String d r)))) =>
      is_lower a && is_lower b && (h =? "-")%char
      && is_upper c && is_upper d && at_dollar r
  | _ => false
  end.

(** [[p for p in path.strip("/").split("/") if p]] *)
Definition path_segments (pth : string) : list string :=
  List.filter (fun p => negb (String.eqb p "")) (split "/" (strip is_slash pth)).

Section Resolver.

(** [urllib.parse.urlparse]; it raises [ValueError] on some inputs. *)
Variable urlparse : string -> result url_parts.

Definition parse_workday_url (url : string) : result (option site_coordinates) :=
  match urlparse (strip is_space url) with
  | Raise e => Raise e
  | Ok parsed =>
      match hostname parsed with
      | None => Ok None
      | Some h =>
          if String.eqb h "" || negb (contains "myworkdayjobs.com" h) then Ok None
          else
            match tenant_match h with
            | None => Ok None
            | Some t =>
                let path_parts := path_segments (path parsed) in
                let path_parts :=
                  List.filter (fun p => negb (is_locale p)) path_parts in
                match path_parts with
                | [] => Ok None
                | s :: _ => Ok (Some {| host := h; tenant := t; site := s |})
                end
            end
      end
  end.

End Resolver.

(** A reference instance of [urlparse] for URLs of the shape
    [scheme://authority/path?query#fragment] (no user info, no brackets):
    the host name is the authority up to the port, in lower case. *)
Definition lower_char (c : ascii) : ascii :=
  if is_upper c then ascii_of_nat (nat_of_ascii c + 32) else c.

Fixpoint lower (s : string) : string :=
  match s with
  | EmptyString => EmptyString
  | String c s' => String (lower_char c) (lower s')
  end.

(** The part of [s] after the first occurrence of [sep]. *)
Fixpoint after (sep s : string) : option string :=
  match strip_prefix sep s with
  | Some r => Some r
  | None => match s with
            | EmptyString => None
            | String _ s' => after sep s'
            end
  end.

Definition urlparse_simple (url : string) : result url_parts :=
  match after "://" url with
  | None => Ok {| hostname := None; path := fst (span (fun c => negb ((c =? "?")%char || (c =? "#")%char)) url) |}
  | Some r =>
      let (authority, r') :=
        span (fun c => negb ((c =? "/")%char || (c =? "?")%char || (c =? "#")%char)) r in
      let h := lower (fst (span (fun c => negb (c =? ":")%char) authority)) in
      Ok {| hostname := if String.eqb h "" then None else Some h;
            path := fst (span (fun c => negb ((c =? "?")%char || (c =? "#")%char)) r') |}
  end.

(** *** The resolver's contract, in the words of its specification *)

Definition no_lf (s : string) : Prop :=
  forall_chars (fun c => negb (c =? LF)%char) s = true.

(** The host name contains the platform's domain. *)
Definition on_platform_domain (h : option string) : Prop :=
  exists s a b, h = Some s /\ s = a +:+ "myworkdayjobs.com" +:+ b.

(** [h] is [<tenant>.wd<digits>.myworkdayjobs.com] followed by [e]: a
    non-empty tenant without dots, one or more digits. *)
Definition tenant_pattern_end (h t e : string) : Prop :=
  exists ds, h = t +:+ ".wd" +:+ ds +:+ ".myworkdayjobs.com" +:+ e
    /\ t <> "" /\ forall_chars (fun c => negb (is_dot c)) t = true
    /\ ds <> "" /\ forall_chars is_digit ds = true.

Definition tenant_pattern (h t : string) : Prop := tenant_pattern_end h t "".

Definition matches_tenant_pattern (h : option string) : Prop :=
  exists s t, h = Some s /\ tenant_pattern s t.

(** Two lowercase letters, a hyphen, two uppercase letters. *)
Definition locale_segment (p : string) : Prop :=
  exists a b c d,
    p = String a (String b (String "-" (String c (String d ""))))
    /\ is_lower a = true /\ is_lower b = true
    /\ is_upper c = true /\ is_upper d = true.

(** *** The network, the world and the retrying client *)

(** What one call of [requests.request] and the reading of its response
    bring back: a response with its status code, the text
    [raise_for_status] puts in its error, and the decoded body
    ([resp.json()]); or a transport-level failure (timeout, connection
    error: a [RequestException] that is not an [HTTPError]). *)
Inductive wire : Type :=
| Answer (status_code : Z) (reason : string) (body : json)
| TransportFailure (msg : string).

Record request : Type :=
  { method : string;
    url : string;
    payload : option json;
    timeout : Z;
    headers : list (string * string) }.

(** What the program does to the outside: requests, sleeps (in seconds)
    and progress callbacks. *)
Inductive event : Type :=
| Sent (r : request)
| Slept (seconds : Q)
| Progress (done : Z) (total : json) (phase : string).

(** The [n]-th request of a run is answered by [net n]. *)
Record world : Type :=
  { net : nat -> wire;
    sent : nat;
    trace : list event }.

Definition M (A : Type) : Type := world -> result A * world.

Definition ret {A} (a : A) : M A := fun w => (Ok a, w).
Definition raise {A} (e : exn) : M A := fun w => (Raise e, w).
Definition bind {A B} (k : A -> M B) (m : M A) : M B :=
  fun w => match m w with
           | (Ok a, w') => k a w'
           | (Raise e, w') => (Raise e, w')
           end.
Definition lift {A} (r : result A) : M A := fun w => (r, w).

#[export] Instance M_ret : MRet M := @ret.
#[export] Instance M_bind : MBind M := @bind.

Definition emit (e : event) : M unit :=
  fun w => (Ok tt, {| net := net w; sent := sent w; trace := trace w ++ [e] |}).

(** [time.sleep(seconds)] *)
Definition sleep (seconds : Q) : M unit := emit (Slept seconds).

(** [requests.request(method, url, **kwargs)] *)
Definition requests_request (r : request) : world -> wire * world :=
  fun w => (net w (sent w),
            {| net := net w; sent := S (sent w); trace := trace w ++ [Sent r] |}).

Definition DEFAULT_HEADERS : list (string * string) :=
  [("Content-Type", "application/json");
   ("Accept", "application/json");
   ("User-Agent",
    "Mozilla/5.0 (Macintosh; Intel Mac OS X 10_15_7) AppleWebKit/537.36")].

Definition REQUEST_TIMEOUT : Z := 30.
Definition RATE_LIMIT_DELAY : Q := 3 # 10.
Definition MAX_RETRIES : nat := 3.
Definition DETAIL_WORKERS : nat := 5.

(** [resp.raise_for_status()] *)
Definition raise_for_status (status : Z) (reason : string) : result unit :=
  if (400 <=? status) && (status <? 600) then Raise (HTTPError status reason)
  else Ok tt.

(** [wait = (2 ** attempt) * 2] *)
Definition backoff (attempt : nat) : Q := inject_Z (2 ^ Z.of_nat attempt * 2).

(** The body of [for attempt in range(MAX_RETRIES)], over the attempts that
    remain; falling out of the loop is [return None]. *)
Fixpoint retry_attempts (req : request) (attempts : list nat) : M json :=
  match attempts with
  | [] => ret JNull
  | attempt :: rest =>
      fun w =>
        let (resp, w1) := requests_request req w in
        (* except requests.exceptions.RequestException *)
        let on_request_exception (e : exn) :=
          (sleep (backoff attempt);;
           if (attempt =? MAX_RETRIES - 1)%nat then raise e
           else retry_attempts req rest) w1 in
        match resp with
        | TransportFailure msg => on_request_exception (RequestException msg)
        | Answer status reason body =>
            match raise_for_status status reason;; Ok body with
            | Ok j => (Ok j, w1)
            | Raise (HTTPError s m) =>
                (* except requests.exceptions.HTTPError *)
                if (status =? 429) || (500 <=? status)
                then (sleep (backoff attempt);; retry_attempts req rest) w1
                else (Raise (HTTPError s m), w1)
            | Raise (RequestException m) => on_request_exception (RequestException m)
            | Raise e => (Raise e, w1)
            end
        end
  end.

Definition _request_with_retry (method url : string) (payload : option json) : M json :=
  retry_attempts
    {| method := method; url := url; payload := payload;
       timeout := REQUEST_TIMEOUT; headers := DEFAULT_HEADERS |}
    (seq 0 MAX_RETRIES).

(** *** Listing pagination *)

(** [v[k]] for a string key. *)
Definition subscript (v : json) (k : string) : result json :=
  match v with
  | JObj d => getitem d k
  | JArr _ | JStr _ => Raise (TypeError "indices must be integers")
  | _ => Raise (TypeError "object is not subscriptable")
  end.

(** [v.get(k, default)]: only a dict has the method. *)
Definition dot_get (v : json) (k : string) (default : json) : result json :=
  match v with
  | JObj d => Ok (get_default d k default)
  | _ => Raise (AttributeError "object has no attribute 'get'")
  end.

(** [for x in v]: the items of a list, the keys of a dict, the characters
    of a string. *)
Definition iterate (v : json) : result (list json) :=
  match v with
  | JArr l => Ok l
  | JObj d => Ok (map (fun kv => JStr (fst kv)) d)
  | JStr s => Ok (map (fun c => JStr (String c "")) (list_ascii_of_string s))
  | _ => Raise (TypeError "object is not iterable")
  end.

(** [a >= b] for an integer [a]. *)
Definition int_ge (a : Z) (b : json) : result bool :=
  match b with
  | JNum n => Ok (n <=? a)
  | JBool t => Ok ((if t then 1 else 0) <=? a)
  | _ => Raise (TypeError "'>=' not supported")
  end.

Definition fetch_listings (host tenant site search_text : string)
    (limit offset : Z) : M json :=
  let url := "https://" +:+ host +:+ "/wday/cxs/" +:+ tenant +:+ "/" +:+ site +:+ "/jobs" in
  let payload :=
    JObj [("appliedFacets", JObj []); ("limit", JNum limit);
          ("offset", JNum offset); ("searchText", JStr search_text)] in
  _request_with_retry "POST" url (Some payload).

(** [j.get("postedOn") == "Posted Today"] *)
Definition posted_today (job : json) : bool :=
  match job with
  | JObj d => eq_str (get d "postedOn") "Posted Today"
  | _ => false
  end.

(** The [for job in postings] loop: the today-labelled jobs are appended
    to [today_jobs], the others counted. *)
Fixpoint sort_postings (postings : list json) (today_jobs : list json)
    (seen_non_today : nat) : result (list json * nat) :=
  match postings with
  | [] => Ok (today_jobs, seen_non_today)
  | job :: rest =>
      match dot_get job "postedOn" (JStr "") with
      | Raise e => Raise e
      | Ok posted =>
          if eq_str posted "Posted Today"
          then sort_postings rest (today_jobs ++ [job]) seen_non_today
          else sort_postings rest today_jobs (S seen_non_today)
      end
  end.

(** The local variables of [fetch_all_listings]; [total] is [JNull] while
    it [is None]. *)
Record pager : Type :=
  { today_jobs : list json;
    offset : Z;
    total : json;
    seen_non_today : nat }.

Definition pager_start : pager :=
  {| today_jobs := []; offset := 0; total := JNull; seen_non_today := 0 |}.

(** [if total is None: total = data["total"]] *)
Definition learn_total (total data : json) : result json :=
  match total with
  | JNull => subscript data "total"
  | t => Ok t
  end.

Section Pager.

Variables (host tenant site search_text : string).
Variable page_size : Z.
(** Whether a [progress_callback] was passed. *)
Variable progress_callback : bool.

(** The [while True] loop, one iteration per unit of fuel; [None] when
    the fuel runs out before the loop ends. *)
Fixpoint pager_loop (fuel : nat) (st : pager) (w : world)
    : option (result (list json) * world) :=
  match fuel with
  | O => None
  | S fuel' =>
      match fetch_listings host tenant site search_text page_size (offset st) w with
      | (Raise e, w1) => Some (Raise e, w1)
      | (Ok data, w1) =>
          if negb (truthy data) then Some (Ok (today_jobs st), w1) else
          match py_in "jobPostings" data with
          | Raise e => Some (Raise e, w1)
          | Ok false => Some (Ok (today_jobs st), w1)
          | Ok true =>
              match
                tot ← learn_total (total st) data;
                postings ← subscript data "jobPostings";
                Ok (tot, postings)
              with
              | Raise e => Some (Raise e, w1)
              | Ok (tot, postings) =>
                  if negb (truthy postings) then Some (Ok (today_jobs st), w1) else
                  match
                    items ← iterate postings;
                    r ← sort_postings items (today_jobs st) (seen_non_today st);
                    Ok (items, r)
                  with
                  | Raise e => Some (Raise e, w1)
                  | Ok (items, (today_jobs', seen')) =>
                      let w2 :=
                        if progress_callback
                        then snd (emit (Progress (offset st + Z.of_nat (length items))
                                                 tot "listings") w1)
                        else w1 in
                      let offset' := offset st + page_size in
                      let page_today_count := length (List.filter posted_today items) in
                      if (page_today_count =? 0)%nat && (page_size <? offset')
                      then Some (Ok today_jobs', w2)
                      else
                        match int_ge offset' tot with
                        | Raise e => Some (Raise e, w2)
                        | Ok true => Some (Ok today_jobs', w2)
                        | Ok false =>
                            pager_loop fuel'
                              {| today_jobs := today_jobs'; offset := offset';
                                 total := tot; seen_non_today := seen' |}
                              (snd (sleep RATE_LIMIT_DELAY w2))
                        end
                  end
              end
          end
      end
  end.

Definition fetch_all_listings (fuel : nat) : world -> option (result (list json) * world) :=
  pager_loop fuel pager_start.

End Pager.

(** *** Detail enrichment and the employer crawl *)

(** A calendar date ([datetime.date]). *)
Record date : Type := { year : Z; month : Z; day : Z }.

Definition date_eqb (a b : date) : bool :=
  (year a =? year b) && (month a =? month b) && (day a =? day b).

Section Enricher.

(** [BeautifulSoup(raw, "html.parser").get_text(separator="\n", strip=True)] *)
Variable soup_get_text : json -> result string.
(** [datetime.fromisoformat(s).date()] on a string; [None] is its
    [ValueError]. *)
Variable fromisoformat : string -> option date.

(** [s.lstrip("/")]: only a string has the method. *)
Definition lstrip_slash (v : json) : result string :=
  match v with
  | JStr s => Ok (drop_while is_slash s)
  | _ => Raise (AttributeError "object has no attribute 'lstrip'")
  end.

(** Returns the [jobPostingInfo] dict with [jd_plain_text] added, or
    [None]. *)
Definition fetch_job_detail (host tenant site : string) (external_path : json)
    : M (option dict) :=
  path ← lift (lstrip_slash external_path);
  let url := "https://" +:+ host +:+ "/wday/cxs/" +:+ tenant +:+ "/" +:+ site
             +:+ "/" +:+ path in
  data ← _request_with_retry "GET" url None;
  if negb (truthy data) then mret None else
  has ← lift (py_in "jobPostingInfo" data);
  if negb has then mret None else
  info ← lift (subscript data "jobPostingInfo");
  raw_desc ← lift (dot_get info "jobDescription" (JStr ""));
  text ← (if truthy raw_desc then lift (soup_get_text raw_desc) else mret "");
  match info with
  | JObj d => mret (Some (setitem d "jd_plain_text" (JStr text)))
  | _ => raise (TypeError "object does not support item assignment")
  end.

(** [datetime.fromisoformat(v)]: a [TypeError] unless [v] is a string. *)
Definition parse_iso (v : json) : result date :=
  match v with
  | JStr s =>
      match fromisoformat s with
      | Some d => Ok d
      | None => Raise (ValueError "Invalid isoformat string")
      end
  | _ => Raise (TypeError "fromisoformat: argument must be str")
  end.

(** The secondary date validation: [true] when the record is to be
    skipped.  [ValueError] and [TypeError] are swallowed; nothing else
    is raised by [parse_iso]. *)
Definition start_date_is_stale (start_date_str : json) (today : date) : bool :=
  if truthy start_date_str then
    match parse_iso start_date_str with
    | Ok start_dt => negb (date_eqb start_dt today)
    | Raise _ => false
    end
  else false.

(** The dict built from one detail response.  ([listing["externalPath"]]
    is read after the [try] block has read it: the key is present.) *)
Definition job_record (listing detail : dict) : dict :=
  [("title", get_default detail "title" (get_default listing "title" (JStr "")));
   ("external_path", get listing "externalPath");
   ("locations_text",
    get_default detail "location" (get_default listing "locationsText" (JStr "")));
   ("additional_locations", get_default detail "additionalLocations" (JArr []));
   ("posted_label",
    get_default detail "postedOn" (get_default listing "postedOn" (JStr "")));
   ("start_date", get detail "startDate");
   ("country", get_default detail "country" (JObj []));
   ("job_requisition_location", get_default detail "jobRequisitionLocation" (JObj []));
   ("job_req_id", get_default detail "jobReqId" (JStr ""));
   ("job_posting_id", get_default detail "jobPostingId" (JStr ""));
   ("jd_text", get_default detail "jd_plain_text" (JStr ""));
   ("job_url", get_default detail "externalUrl" (JStr ""));
   ("time_type", get_default detail "timeType" (JStr ""))].

(** The [try] block of [_fetch_one_detail]. *)
Definition fetch_one_detail_try (host tenant site : string) (listing : json)
    (today : date) : M (option dict) :=
  external_path ← lift (subscript listing "externalPath");
  detail ← fetch_job_detail host tenant site external_path;
  match detail with
  | None => mret None
  | Some detail =>
      if negb (truthy (JObj detail)) then mret None else
      let start_date_str := get detail "startDate" in
      if start_date_is_stale start_date_str today then mret None
      else
        match listing with
        | JObj l => mret (Some (job_record l detail))
        | _ => raise (AttributeError "object has no attribute 'get'")
        end
  end.

(** [_fetch_one_detail]: the pacing sleep, the [try] block, and the
    handler [except Exception], whose log line reads
    [listing['externalPath']] once more before [return None]. *)
Definition _fetch_one_detail (host tenant site : string) (listing : json)
    (today : date) : M (option dict) :=
  fun w =>
    let w0 := snd (sleep RATE_LIMIT_DELAY w) in
    match fetch_one_detail_try host tenant site listing today w0 with
    | (Ok r, w1) => (Ok r, w1)
    | (Raise e, w1) =>
        match subscript listing "externalPath" with
        | Ok _ => (Ok None, w1)
        | Raise e' => (Raise e', w1)
        end
    end.

(** The environment of one employer's crawl: the answers to the listing
    requests, the answers to the requests of the worker of each stub (by
    the stub's index), the order in which the workers complete, and
    [date.today()]. *)
Record crawl_env : Type :=
  { listing_net : nat -> wire;
    detail_net : nat -> nat -> wire;
    completion : list nat;
    today : date }.

(** The outcome of the worker submitted for the [i]-th listing. *)
Definition worker (env : crawl_env) (host tenant site : string)
    (i : nat) (listing : json) : result (option dict) :=
  fst (_fetch_one_detail host tenant site listing (today env)
         {| net := detail_net env i; sent := 0; trace := [] |}).

(** [for future in as_completed(...)]: [future.result()] re-raises the
    worker's exception; a record that is not [None] is appended; the
    callback is told after each completion. *)
Fixpoint collect (progress_callback : bool) (futures : list (result (option dict)))
    (order : list nat) (total : nat) (enriched : list dict) (done_count : nat)
    : M (list dict) :=
  match order with
  | [] => mret enriched
  | i :: order' =>
      match futures !! i with
      | None => collect progress_callback futures order' total enriched done_count
      | Some (Raise e) => raise e
      | Some (Ok r) =>
          let enriched' := match r with
                           | Some rec => enriched ++ [rec]
                           | None => enriched
                           end in
          let done_count' := S done_count in
          (if progress_callback
           then emit (Progress (Z.of_nat done_count') (JNum (Z.of_nat total)) "details")
           else mret tt);;
          collect progress_callback futures order' total enriched' done_count'
      end
  end.

(** [crawl_company]; [None] when the pagination runs out of fuel. *)
Definition crawl_company (fuel : nat) (env : crawl_env) (host tenant site : string)
    (progress_callback : bool) : option (result (list dict) * list event) :=
  match fetch_all_listings host tenant site "" 20 progress_callback fuel
          {| net := listing_net env; sent := 0; trace := [] |} with
  | None => None
  | Some (Raise e, w) => Some (Raise e, trace w)
  | Some (Ok listings, w) =>
      let futures := imap (worker env host tenant site) listings in
      let (r, w') :=
        collect progress_callback futures (completion env) (length listings) [] 0 w in
      Some (r, trace w')
  end.

End Enricher.

(** *** Words of the specification *)

(** The failures that call for another attempt: an HTTP error status that
    is 429 or at least 500, or a transport-level failure. *)
Definition retryable (r : wire) : bool :=
  match r with
  | TransportFailure _ => true
  | Answer s _ _ => (400 <=? s) && (s <? 600) && ((s =? 429) || (500 <=? s))
  end.

(** The request the client sends. *)
Definition request_of (m u : string) (p : option json) : request :=
  {| method := m; url := u; payload := p;
     timeout := REQUEST_TIMEOUT; headers := DEFAULT_HEADERS |}.

(** The events of the attempts [0 .. n-1]: each one is sent, and the
    retryable ones are followed by their backoff sleep. *)
Definition attempts_trace (req : request) (answers : nat -> wire) (n : nat) : list event :=
  concat (map (fun k => Sent req ::
                        (if retryable (answers k) then [Slept (backoff k)] else []))
              (seq 0 n)).

(** What an attempt that is not retried yields. *)
Definition settled (r : wire) : result json :=
  match r with
  | Answer s reason body =>
      if (400 <=? s) && (s <? 600) then Raise (HTTPError s reason) else Ok body
  | TransportFailure msg => Raise (RequestException msg)
  end.

(** What the call yields when its last attempt fails again. *)
Definition exhausted (r : wire) : result json :=
  match r with
  | Answer _ _ _ => Ok JNull
  | TransportFailure msg => Raise (RequestException msg)
  end.

(** The world after [n] attempts of the request. *)
Definition after_attempts (req : request) (w : world) (n : nat) : world :=
  {| net := net w; sent := sent w + n;
     trace := trace w ++ attempts_trace req (fun k => net w (sent w + k)%nat) n |}.

(** A listing response: [{"total": total, "jobPostings": items}]. *)
Definition page_body (total : Z) (items : list json) : json :=
  JObj [("total", JNum total); ("jobPostings", JArr items)].

(** A platform that answers the [k]-th listing request with the [k]-th
    page of [pages] (an empty page beyond the last). *)
Definition serve (total : Z) (pages : list (list json)) : nat -> wire :=
  fun k => Answer 200 "OK" (page_body total (nth k pages [])).

Definition is_dict (j : json) : bool :=
  match j with JObj _ => true | _ => false end.

(** The stop conditions at the [k]-th page (from 0): (a) the page is empty,
    (b) a page after the first holds no item labelled as posted today,
    (c) the offset has reached the total. *)
Definition stops_at (page_size total : Z) (k : nat) (items : list json) : bool :=
  match items with [] => true | _ => false end
  || ((0 <? k)%nat && forallb (fun j => negb (posted_today j)) items)
  || (total <=? (Z.of_nat k + 1) * page_size).

(** The today-labelled items of the pages [0 .. n-1]. *)
Definition todays_of (pages : list (list json)) (n : nat) : list json :=
  concat (map (fun j => List.filter posted_today (nth j pages [])) (seq 0 n)).

(** Every item of every page is a JSON object (a listing stub). *)
Definition stubs_only (pages : list (list json)) : Prop :=
  forall k, forallb is_dict (nth k pages []) = true.

(** The world at the start of a pagination against [answers]. *)
Definition fresh (answers : nat -> wire) : world :=
  {| net := answers; sent := 0; trace := [] |}.

(** Sample data: a stub labelled today, the same stub without its
    [externalPath], and a detail response without [startDate]. *)
Definition one_stub_fields : dict :=
  [("title", JStr "ML Engineer"); ("externalPath", JStr "/job/R1");
   ("postedOn", JStr "Posted Today")].

Definition one_stub : json := JObj one_stub_fields.

Definition pathless_stub : json :=
  JObj [("title", JStr "Data Scientist"); ("postedOn", JStr "Posted Today")].

Definition one_detail : json :=
  JObj [("jobPostingInfo",
         JObj [("title", JStr "ML Engineer"); ("postedOn", JStr "Posted Today");
               ("jobReqId", JStr "R1")])].

(** A reference instance of [fromisoformat(...).date()] for strings that
    start with [YYYY-MM-DD]. *)
Definition digit_value (c : ascii) : option Z :=
  if is_digit c then Some (Z.of_nat (nat_of_ascii c) - 48) else None.

Definition isodate_simple (s : string) : option date :=
  match s with
  | String y1 (String y2 (String y3 (String y4 (String h1
      (String m1 (String m2 (String h2 (String d1 (String d2 _))))))))) =>
      if (h1 =? "-")%char && (h2 =? "-")%char then
        match digit_value y1, digit_value y2, digit_value y3, digit_value y4,
              digit_value m1, digit_value m2, digit_value d1, digit_value d2 with
        | Some a, Some b, Some c, Some d, Some e, Some f, Some g, Some i =>
            Some {| year := 1000 * a + 100 * b + 10 * c + d;
                    month := 10 * e + f; day := 10 * g + i |}
        | _, _, _, _, _, _, _, _ => None
        end
      else None
  | _ => None
  end.

(** A reference instance of the HTML-to-text conversion: the markup is
    kept as it is. *)
Definition text_simple (v : json) : result string :=
  match v with
  | JStr s => Ok s
  | _ => Raise (TypeError "markup must be a string")
  end.

(** An employer whose listing page holds [one_stub] and [pathless_stub],
    and whose detail requests are all answered by [one_detail]; the
    workers complete in the given order. *)
Definition two_stub_env (order : list nat) : crawl_env :=
  {| listing_net := fun _ => Answer 200 "OK" (page_body 2 [one_stub; pathless_stub]);
     detail_net := fun _ _ => Answer 200 "OK" one_detail;
     completion := order;
     today := {| year := 2024; month := 5; day := 17 |} |}.

(** A detail response dated the day before [today] of [two_stub_env]. *)
Definition stale_detail : json :=
  JObj [("jobPostingInfo",
         JObj [("title", JStr "ML Engineer"); ("postedOn", JStr "Posted Today");
               ("startDate", JStr "2024-05-16")])].

Definition sample_url : string :=
  "https://acme.wd5.myworkdayjobs.com/en-US/external_site?q=1".

Definition unavailable : nat -> wire :=
  fun _ => Answer 503 "Service Unavailable" JNull.

(** An employer with the single stub [one_stub]. *)
Definition one_stub_env : crawl_env :=
  {| listing_net := fun _ => Answer 200 "OK" (page_body 1 [one_stub]);
     detail_net := fun _ _ => Answer 200 "OK" one_detail;
     completion := [0%nat];
     today := {| year := 2024; month := 5; day := 17 |} |}.

(** The same employer, whose only job is a "Chaos Engineer". *)
Definition chaos_env : crawl_env :=
  {| listing_net := fun _ => Answer 200 "OK" (page_body 1 [one_stub]);
     detail_net := fun _ _ =>
       Answer 200 "OK"
         (JObj [("jobPostingInfo",
                 JObj [("title", JStr "Chaos Engineer");
                       ("postedOn", JStr "Posted Today")])]);
     completion := [0%nat];
     today := {| year := 2024; month := 5; day := 17 |} |}.

(** The [(done, total, phase)] calls of the callback in a trace. *)
Definition progress_calls (evs : list event) : list (Z * json * string) :=
  omap (fun e => match e with
                 | Progress done total ph => Some (done, total, ph)
                 | _ => None
                 end) evs.


(** *** Further words: the requests of a pagination, well-formed stubs *)

(** The request for the page at [offset]. *)
Definition listing_request (h t s q : string) (limit offset : Z) : request :=
  request_of "POST"
    ("https://" +:+ h +:+ "/wday/cxs/" +:+ t +:+ "/" +:+ s +:+ "/jobs")
    (Some (JObj [("appliedFacets", JObj []); ("limit", JNum limit);
                 ("offset", JNum offset); ("searchText", JStr q)])).

(** What the pagination does for the [i]-th page of [pages]: the request,
    and the callback when the page holds items. *)
Definition page_events (h t s q : string) (ps total : Z) (cb : bool)
    (pages : list (list json)) (i : nat) : list event :=
  Sent (listing_request h t s q ps (Z.of_nat i * ps))
  :: match nth i pages [] with
     | [] => []
     | items =>
         if cb
         then [Progress (Z.of_nat i * ps + Z.of_nat (length items)) (JNum total)
                        "listings"]
         else []
     end.

(** The events of a pagination that ends at the page [k]: a pause after
    every page but the last. *)
Definition pagination_trace (h t s q : string) (ps total : Z) (cb : bool)
    (pages : list (list json)) (k : nat) : list event :=
  concat (map (fun i => page_events h t s q ps total cb pages i
                        ++ [Slept RATE_LIMIT_DELAY]) (seq 0 k))
  ++ page_events h t s q ps total cb pages k.

(** The stub is a JSON object that has the key [externalPath]. *)
Definition has_external_path (listing : json) : bool :=
  match listing with
  | JObj d => match lookup_key "externalPath" d with Some _ => true | None => false end
  | _ => false
  end.

(** The record of the future [i], when its worker returned one. *)
Definition record_of (futures : list (result (option dict))) (i : nat) : option dict :=
  match futures !! i with
  | Some (Ok (Some rec)) => Some rec
  | _ => None
  end.

(** The calls [(1, n, "details")], ..., [(m, n, "details")] of the
    callback. *)
Definition details_calls (m n : nat) : list (Z * json * string) :=
  map (fun k => (Z.of_nat k, JNum (Z.of_nat n), "details")) (seq 1 m).

(** The URL of a detail request. *)
Definition detail_url (h t s path : string) : string :=
  "https://" +:+ h +:+ "/wday/cxs/" +:+ t +:+ "/" +:+ s +:+ "/" +:+ path.

(** A detail response whose [jobPostingInfo] carries an HTML description. *)
Definition described_detail : json :=
  JObj [("jobPostingInfo",
         JObj [("title", JStr "ML Engineer");
               ("jobDescription", JStr "<p>Build models</p>")])].
End Workday.

(** ** database.py

    The tables are values; a statement whose parameters bind succeeds.
    Failures of the store itself (I/O, locking) are outside the model. *)

Module Database.

(** A row of [companies]. *)
Record company : Type :=
  { company_id : string;
    company_name : string;
    workday_url : string;
    last_run_status : option string;
    last_run_time : option string }.

(** A row of [runs]. *)
Record run_row : Type :=
  { started_at : string;
    finished_at : option string;
    status : string;
    total_companies : nat;
    total_jobs_found : nat;
    total_jobs_returned : nat;
    error_log : option string }.

(** The keyword arguments of [update_run]: the columns to set. *)
Record run_update : Type :=
  { set_status : option string;
    set_finished_at : option string;
    set_total_companies : option nat;
    set_total_jobs_found : option nat;
    set_total_jobs_returned : option nat;
    set_error_log : option (option string) }.

(** The dict [_scan_one_company] builds for one job. *)
Record job_record : Type :=
  { job_key : string;
    job_company_id : string;
    title : json;
    locations_text : string;
    country_guess : json;
    posted_label : json;
    job_url : json;
    jd_text : json;
    match_score : json;
    matched_keywords : json;
    job_run_id : string }.

(** A row of [jobs]. *)
Record job_row : Type :=
  { row : job_record; first_seen : string; last_seen : string }.

Record resume_row : Type :=
  { resume_text : string; skills_list : json }.

(** The tables; [companies] in the order of [ORDER BY company_name]. *)
Record db : Type :=
  { companies : list company;
    jobs : gmap string job_row;
    runs : gmap string run_row;
    resume : option resume_row;
    settings : gmap string string }.

Definition get_all_companies (d : db) : list company := companies d.
Definition get_resume (d : db) : option resume_row := resume d.
Definition get_setting (key : string) (d : db) : option string := settings d !! key.

(** [UPDATE companies SET last_run_status=?, last_run_time=? WHERE company_id=?] *)
Definition update_company_run_status (cid status now : string) (d : db) : db :=
  {| companies :=
       map (fun c =>
              if String.eqb (company_id c) cid
              then {| company_id := company_id c; company_name := company_name c;
                      workday_url := workday_url c;
                      last_run_status := Some status; last_run_time := Some now |}
              else c)
           (companies d);
     jobs := jobs d; runs := runs d; resume := resume d; settings := settings d |}.

Definition apply_update (u : run_update) (r : run_row) : run_row :=
  {| started_at := started_at r;
     finished_at := match set_finished_at u with Some t => Some t | None => finished_at r end;
     status := default (status r) (set_status u);
     total_companies := default (total_companies r) (set_total_companies u);
     total_jobs_found := default (total_jobs_found r) (set_total_jobs_found u);
     total_jobs_returned := default (total_jobs_returned r) (set_total_jobs_returned u);
     error_log := default (error_log r) (set_error_log u) |}.

(** [UPDATE runs SET ... WHERE run_id=?] *)
Definition update_run (run_id : string) (u : run_update) (d : db) : db :=
  {| companies := companies d; jobs := jobs d;
     runs := alter (apply_update u) run_id (runs d);
     resume := resume d; settings := settings d |}.

(** SQLite binds [None], numbers and strings; a list or a dict is an
    error. *)
Definition bindable (v : json) : bool :=
  match v with
  | JArr _ | JObj _ => false
  | _ => true
  end.

(** One iteration of the loop of [upsert_jobs_batch]: an [UPDATE] of the
    volatile columns when the key exists, an [INSERT] otherwise ([title] is
    [NOT NULL]). *)
Definition upsert_one (now : string) (job : job_record) (tbl : gmap string job_row)
    : result (gmap string job_row) :=
  match tbl !! job_key job with
  | Some old =>
      if bindable (posted_label job) && bindable (match_score job)
         && bindable (matched_keywords job)
      then
        let r := row old in
        Ok (<[job_key job :=
              {| row := {| job_key := job_key r; job_company_id := job_company_id r;
                           title := title r; locations_text := locations_text r;
                           country_guess := country_guess r;
                           posted_label := posted_label job;
                           job_url := job_url r; jd_text := jd_text r;
                           match_score := match_score job;
                           matched_keywords := matched_keywords job;
                           job_run_id := job_run_id job |};
                 first_seen := first_seen old; last_seen := now |}]> tbl)
      else Raise (OtherError "Error binding parameter")
  | None =>
      if bindable (title job) && bindable (country_guess job)
         && bindable (posted_label job) && bindable (job_url job)
         && bindable (jd_text job) && bindable (match_score job)
         && bindable (matched_keywords job)
      then
        match title job with
        | JNull => Raise (OtherError "NOT NULL constraint failed: jobs.title")
        | _ => Ok (<[job_key job := {| row := job; first_seen := now; last_seen := now |}]> tbl)
        end
      else Raise (OtherError "Error binding parameter")
  end.

Fixpoint upsert_all (now : string) (batch : list job_record) (tbl : gmap string job_row)
    : result (gmap string job_row) :=
  match batch with
  | [] => Ok tbl
  | job :: rest =>
      match upsert_one now job tbl with
      | Ok tbl' => upsert_all now rest tbl'
      | Raise e => Raise e
      end
  end.

(** The whole batch in one transaction: rolled back when a statement
    fails. *)
Definition upsert_jobs_batch (now : string) (batch : list job_record) (d : db) : result db :=
  match batch with
  | [] => Ok d
  | _ =>
      match upsert_all now batch (jobs d) with
      | Ok tbl => Ok {| companies := companies d; jobs := tbl; runs := runs d;
                        resume := resume d; settings := settings d |}
      | Raise e => Raise e
      end
  end.

(** [INSERT INTO settings ... ON CONFLICT(key) DO UPDATE SET value=...].
    The table is kept as the value of each key; its column [updated_at] is
    written and never read. *)
Definition save_setting (key value : string) (d : db) : db :=
  {| companies := companies d; jobs := jobs d; runs := runs d;
     resume := resume d; settings := <[key := value]> (settings d) |}.

(** *** Words about the table of jobs *)

(** The columns an [UPDATE] of [upsert_jobs_batch] leaves alone. *)
Definition same_history (old new : job_row) : Prop :=
  first_seen new = first_seen old
  /\ job_key (row new) = job_key (row old)
  /\ job_company_id (row new) = job_company_id (row old)
  /\ title (row new) = title (row old)
  /\ locations_text (row new) = locations_text (row old)
  /\ country_guess (row new) = country_guess (row old)
  /\ job_url (row new) = job_url (row old)
  /\ jd_text (row new) = jd_text (row old).

(** The columns an [UPDATE] refreshes, taken from [job]. *)
Definition refreshed_from (job : job_record) (new : job_row) : Prop :=
  posted_label (row new) = posted_label job
  /\ match_score (row new) = match_score job
  /\ matched_keywords (row new) = matched_keywords job
  /\ job_run_id (row new) = job_run_id job.

(** A job record with the given key, title and score. *)
Definition sample_job (key title : string) (score : Z) : job_record :=
  {| job_key := key; job_company_id := "c1"; title := JStr title;
     locations_text := "Austin, TX"; country_guess := JStr "US";
     posted_label := JStr "Posted Today"; job_url := JStr "";
     jd_text := JStr ""; match_score := JNum score;
     matched_keywords := JStr "semantic similarity only"; job_run_id := "run1" |}.

Definition empty_db : db :=
  {| companies := []; jobs := ∅; runs := ∅; resume := None; settings := ∅ |}.

End Database.

(** ** app.py: the scan orchestrator *)

Module App.

(** The [phase] string of the progress dict, by the f-string that builds
    it. *)
Inductive phase_text : Type :=
| PhaseStarting
| PhaseScanning (company_name : string)
| PhaseProgress (company_name phase : string) (done : Z) (total : json)
| PhaseFiltering (company_name : string) (found : nat)
| PhaseScoring (company_name : string) (n : nat)
| PhaseComplete
| PhaseText (s : string).

(** The progress dict [_active_runs[run_id]]. *)
Record run_state : Type :=
  { status : string;
    current_company : string;
    companies_done : nat;
    total_companies : nat;
    jobs_found : nat;
    jobs_returned : nat;
    errors : list string;
    phase : phase_text }.

Definition initial_run : run_state :=
  {| status := "running"; current_company := ""; companies_done := 0;
     total_companies := 0; jobs_found := 0; jobs_returned := 0;
     errors := []; phase := PhaseStarting |}.

Definition with_status (s : string) (r : run_state) : run_state :=
  {| status := s; current_company := current_company r;
     companies_done := companies_done r; total_companies := total_companies r;
     jobs_found := jobs_found r; jobs_returned := jobs_returned r;
     errors := errors r; phase := phase r |}.

Definition with_current_company (c : string) (r : run_state) : run_state :=
  {| status := status r; current_company := c;
     companies_done := companies_done r; total_companies := total_companies r;
     jobs_found := jobs_found r; jobs_returned := jobs_returned r;
     errors := errors r; phase := phase r |}.

Definition with_companies_done (n : nat) (r : run_state) : run_state :=
  {| status := status r; current_company := current_company r;
     companies_done := n; total_companies := total_companies r;
     jobs_found := jobs_found r; jobs_returned := jobs_returned r;
     errors := errors r; phase := phase r |}.

Definition with_total_companies (n : nat) (r : run_state) : run_state :=
  {| status := status r; current_company := current_company r;
     companies_done := companies_done r; total_companies := n;
     jobs_found := jobs_found r; jobs_returned := jobs_returned r;
     errors := errors r; phase := phase r |}.

(** [_active_runs[run_id]["jobs_found"] += n] *)
Definition add_jobs_found (n : nat) (r : run_state) : run_state :=
  {| status := status r; current_company := current_company r;
     companies_done := companies_done r; total_companies := total_companies r;
     jobs_found := jobs_found r + n; jobs_returned := jobs_returned r;
     errors := errors r; phase := phase r |}.

(** [_active_runs[run_id]["jobs_returned"] += n] *)
Definition add_jobs_returned (n : nat) (r : run_state) : run_state :=
  {| status := status r; current_company := current_company r;
     companies_done := companies_done r; total_companies := total_companies r;
     jobs_found := jobs_found r; jobs_returned := jobs_returned r + n;
     errors := errors r; phase := phase r |}.

(** [_active_runs[run_id]["errors"].append(msg)] *)
Definition append_error (msg : string) (r : run_state) : run_state :=
  {| status := status r; current_company := current_company r;
     companies_done := companies_done r; total_companies := total_companies r;
     jobs_found := jobs_found r; jobs_returned := jobs_returned r;
     errors := errors r ++ [msg]; phase := phase r |}.

Definition with_phase (p : phase_text) (r : run_state) : run_state :=
  {| status := status r; current_company := current_company r;
     companies_done := companies_done r; total_companies := total_companies r;
     jobs_found := jobs_found r; jobs_returned := jobs_returned r;
     errors := errors r; phase := p |}.

(** The calls into the collaborators, in order. *)
Inductive call : Type :=
| Crawled (host tenant site : string)
| Scored (batch : nat)
| JobsWritten (batch : nat)
| CompanyStatusWritten (company_id status : string)
| RunWritten (run_id : string) (u : Database.run_update).

(** [filters/keywords.py] *)
Definition DEFAULT_JOB_TITLES : json :=
  JArr (map JStr
    ["Machine Learning Engineer"; "AI Engineer"; "Applied Machine Learning Engineer";
     "Data Scientist"; "Applied Data Scientist";
     "Research Scientist in Machine Learning"; "AI Research Scientist";
     "Machine Learning Researcher"; "Computer Vision Engineer"; "NLP Engineer";
     "Generative AI Engineer"; "LLM Engineer"; "Deep Learning Engineer";
     "AI Research Engineer"; "MLOps Engineer"]).

Definition JOB_TITLES_SETTING_KEY : string := "job_titles".

(** [a or b] *)
Definition py_or (a b : json) : json := if truthy a then a else b.

(** [", ".join(parts)]: every part must be a string. *)
Fixpoint join_strings (parts : list json) : result string :=
  match parts with
  | [] => Ok ""
  | JStr s :: rest =>
      match rest with
      | [] => Ok s
      | _ => r ← join_strings rest; Ok (s +:+ ", " +:+ r)
      end
  | _ :: _ => Raise (TypeError "sequence item: expected str instance")
  end.

Fixpoint map_result {X Y} (f : X -> result Y) (l : list X) : result (list Y) :=
  match l with
  | [] => Ok []
  | x :: l' => y ← f x; ys ← map_result f l'; Ok (y :: ys)
  end.

Section Orchestrator.

(** The state of what lies outside the program (the platform, the
    clock). *)
Context {E : Type}.

Variable urlparse : string -> result Workday.url_parts.
(** [crawl_company(host, tenant, site, progress_callback=progress_cb)]:
    its outcome and the [(done, total, phase)] calls of the callback. *)
Variable crawl_company :
  string -> string -> string -> E -> (result (list dict) * list (Z * json * string)) * E.
(** The filters of [filters/] and the scorer of [matcher/scorer.py]. *)
Variable is_posted_today : dict -> result bool.
Variable is_relevant_job : dict -> json -> result bool.
Variable is_usa_job : dict -> result (bool * json).
Variable score_jobs_batch : list dict -> string -> json -> result (list json).
(** [datetime.utcnow().isoformat()], [json.loads], [json.dumps], and
    the text an f-string gives a value. *)
Variable utcnow : E -> string.
Variable json_loads : string -> result json.
Variable json_dumps : list string -> string.
Variable format_value : json -> string.

Record world : Type :=
  { active_runs : gmap string run_state;
    database : Database.db;
    outside : E;
    calls : list call }.

Definition A (X : Type) : Type := world -> result X * world.

#[export] Instance A_ret : MRet A := fun X x w => (Ok x, w).
#[export] Instance A_bind : MBind A :=
  fun X Y k m w => match m w with
                   | (Ok x, w') => k x w'
                   | (Raise e, w') => (Raise e, w')
                   end.

Definition lift {X} (r : result X) : A X := fun w => (r, w).

(** [try: m  except Exception as e: handler e] *)
Definition try_except {X} (m : A X) (handler : exn -> A X) : A X :=
  fun w => match m w with
           | (Ok x, w') => (Ok x, w')
           | (Raise e, w') => handler e w'
           end.

(** The state at this point of the run. *)
Definition get_world : A world := fun w => (Ok w, w).

Definition log (c : call) (w : world) : world :=
  {| active_runs := active_runs w; database := database w;
     outside := outside w; calls := calls w ++ [c] |}.

(** [_active_runs[run_id]] and [_active_runs[run_id] = r] *)
Definition live (run_id : string) (w : world) : option run_state :=
  active_runs w !! run_id.

Definition put_live (run_id : string) (r : run_state) (w : world) : world :=
  {| active_runs := <[run_id := r]> (active_runs w);
     database := database w; outside := outside w; calls := calls w |}.

(** Reading [_active_runs[run_id]]: a [KeyError] when the run is not
    registered. *)
Definition read_run (run_id : string) : A run_state :=
  fun w => match live run_id w with
           | Some r => (Ok r, w)
           | None => (Raise (KeyError run_id), w)
           end.

Definition write_run (run_id : string) (r : run_state) : A unit :=
  fun w => (Ok (), put_live run_id r w).

(** [_active_runs[run_id][key] = ...] *)
Definition modify_run (run_id : string) (f : run_state -> run_state) : A unit :=
  r ← read_run run_id;
  write_run run_id (f r).

(** [db.update_company_run_status(company_id, status)] *)
Definition db_update_company_run_status (cid st : string) : A unit :=
  fun w => (Ok (),
            log (CompanyStatusWritten cid st)
              {| active_runs := active_runs w;
                 database := Database.update_company_run_status cid st
                               (utcnow (outside w)) (database w);
                 outside := outside w; calls := calls w |}).

(** [db.update_run(run_id, **kwargs)] *)
Definition db_update_run (run_id : string) (u : Database.run_update) : A unit :=
  fun w => (Ok (),
            log (RunWritten run_id u)
              {| active_runs := active_runs w;
                 database := Database.update_run run_id u (database w);
                 outside := outside w; calls := calls w |}).

(** [db.upsert_jobs_batch(job_records)] *)
Definition db_upsert_jobs_batch (batch : list Database.job_record) : A unit :=
  fun w =>
    let w1 := log (JobsWritten (length batch)) w in
    match Database.upsert_jobs_batch (utcnow (outside w)) batch (database w) with
    | Ok d => (Ok (), {| active_runs := active_runs w1; database := d;
                         outside := outside w1; calls := calls w1 |})
    | Raise e => (Raise e, w1)
    end.

(** [progress_cb(done, total, phase)], for each call the crawl makes. *)
Fixpoint progress_cb (run_id company_name : string) (ps : list (Z * json * string))
    : A unit :=
  match ps with
  | [] => mret ()
  | (done, total, ph) :: ps' =>
      modify_run run_id (with_phase (PhaseProgress company_name ph done total));;
      progress_cb run_id company_name ps'
  end.

(** The call of [crawl_company]. *)
Definition do_crawl (run_id company_name host tenant site : string) : A (list dict) :=
  w ← get_world;
  let '((r, progress), o) := crawl_company host tenant site (outside w) in
  (fun w => (Ok (), log (Crawled host tenant site)
                      {| active_runs := active_runs w; database := database w;
                         outside := o; calls := calls w |}));;
  progress_cb run_id company_name progress;;
  lift r.

(** The filter loop: the date, title and location predicates in turn;
    a job that passes gets its [_country_guess]. *)
Fixpoint filter_jobs (jobs : list dict) (target_titles : json) : result (list dict) :=
  match jobs with
  | [] => Ok []
  | job :: rest =>
      today ← is_posted_today job;
      if negb today then filter_jobs rest target_titles else
      relevant ← is_relevant_job job target_titles;
      if negb relevant then filter_jobs rest target_titles else
      '(usa, country_guess) ← is_usa_job job;
      if negb usa then filter_jobs rest target_titles else
      kept ← filter_jobs rest target_titles;
      Ok (setitem job "_country_guess" country_guess :: kept)
  end.

(** [{"title": j["title"], "jd_text": j.get("jd_text", "")}] *)
Definition score_input (j : dict) : result dict :=
  title ← getitem j "title";
  Ok [("title", title); ("jd_text", get_default j "jd_text" (JStr ""))].

(** The job record of one filtered job and its score. *)
Definition build_record (company : Database.company) (run_id : string)
    (jr : dict * json) : result Database.job_record :=
  let (job, res) := jr in
  let req_id := py_or (get_default job "job_req_id" (JStr ""))
                      (get_default job "job_posting_id" (JStr "")) in
  let job_key := Database.company_id company +:+ "_" +:+ format_value req_id in
  let additional := get_default job "additional_locations" (JArr []) in
  more ← (if truthy additional then Workday.iterate additional else Ok []);
  let locs := get_default job "locations_text" (JStr "") :: more in
  locations_str ← join_strings (List.filter truthy locs);
  title ← getitem job "title";
  country_guess ← getitem job "_country_guess";
  score ← Workday.subscript res "score";
  why ← Workday.subscript res "why";
  Ok {| Database.job_key := job_key;
        Database.job_company_id := Database.company_id company;
        Database.title := title;
        Database.locations_text := locations_str;
        Database.country_guess := country_guess;
        Database.posted_label := get_default job "posted_label" (JStr "Posted Today");
        Database.job_url := get_default job "job_url" (JStr "");
        Database.jd_text := get_default job "jd_text" (JStr "");
        Database.match_score := score;
        Database.matched_keywords := why;
        Database.job_run_id := run_id |}.

(** The [try] block of [_scan_one_company]. *)
Definition scan_try (company : Database.company) (run_id : string)
    (target_titles : json) (resume_text : string) (resume_skills : json)
    : A (nat * nat) :=
  let company_name := Database.company_name company in
  let url := Database.workday_url company in
  parsed ← lift (Workday.parse_workday_url urlparse url);
  match parsed with
  | None =>
      let error_msg := company_name +:+ ": Invalid Workday URL: " +:+ url in
      modify_run run_id (append_error error_msg);;
      db_update_company_run_status (Database.company_id company) "invalid_url";;
      mret (0, 0)%nat
  | Some c =>
      jobs ← do_crawl run_id company_name
               (Workday.host c) (Workday.tenant c) (Workday.site c);
      let found := length jobs in
      modify_run run_id (add_jobs_found found);;
      modify_run run_id (with_phase (PhaseFiltering company_name found));;
      filtered_jobs ← lift (filter_jobs jobs target_titles);
      match filtered_jobs with
      | [] =>
          db_update_company_run_status (Database.company_id company) "success";;
          mret (found, 0)%nat
      | _ =>
          modify_run run_id
            (with_phase (PhaseScoring company_name (length filtered_jobs)));;
          score_inputs ← lift (map_result score_input filtered_jobs);
          score_results ←
            (fun w => (score_jobs_batch score_inputs resume_text resume_skills,
                       log (Scored (length score_inputs)) w));
          job_records ←
            lift (map_result (build_record company run_id)
                             (zip filtered_jobs score_results));
          db_upsert_jobs_batch job_records;;
          let returned := length job_records in
          modify_run run_id (add_jobs_returned returned);;
          db_update_company_run_status (Database.company_id company) "success";;
          mret (found, returned)
      end
  end.

(** [_scan_one_company]: returns [(found, returned)]. *)
Definition _scan_one_company (company : Database.company) (run_id : string)
    (target_titles : json) (resume_text : string) (resume_skills : json)
    : A (nat * nat) :=
  let company_name := Database.company_name company in
  modify_run run_id (with_phase (PhaseScanning company_name));;
  try_except
    (scan_try company run_id target_titles resume_text resume_skills)
    (fun e =>
       let error_msg := company_name +:+ ": " +:+ exn_str e in
       modify_run run_id (append_error error_msg);;
       db_update_company_run_status (Database.company_id company)
         ("error: " +:+ take_str 100 (exn_str e));;
       mret (0, 0)%nat).

(** The loop [for ci, company in enumerate(companies)]. *)
Fixpoint scan_companies (companies : list Database.company) (ci : nat)
    (run_id : string) (target_titles : json) (resume_text : string)
    (resume_skills : json) (total_found total_returned : nat) : A (nat * nat) :=
  match companies with
  | [] => mret (total_found, total_returned)
  | company :: rest =>
      modify_run run_id (with_current_company (Database.company_name company));;
      '(found, returned) ←
        _scan_one_company company run_id target_titles resume_text resume_skills;
      modify_run run_id (with_companies_done (ci + 1));;
      scan_companies rest (S ci) run_id target_titles resume_text resume_skills
        (total_found + found) (total_returned + returned)
  end.

Definition abort_update (msg now : string) : Database.run_update :=
  {| Database.set_status := Some "error";
     Database.set_finished_at := Some now;
     Database.set_total_companies := None;
     Database.set_total_jobs_found := None;
     Database.set_total_jobs_returned := None;
     Database.set_error_log := Some (Some msg) |}.

Definition done_update (now : string) (total_companies total_found total_returned : nat)
    (errs : list string) : Database.run_update :=
  {| Database.set_status := Some "done";
     Database.set_finished_at := Some now;
     Database.set_total_companies := Some total_companies;
     Database.set_total_jobs_found := Some total_found;
     Database.set_total_jobs_returned := Some total_returned;
     Database.set_error_log :=
       Some (match errs with
             | [] => None
             | _ => Some (json_dumps errs)
             end) |}.

(** [json.loads(raw_titles)], or the default titles. *)
Definition load_titles (d : Database.db) : json :=
  match Database.get_setting JOB_TITLES_SETTING_KEY d with
  | Some raw_titles =>
      if negb (String.eqb raw_titles "") then
        match json_loads raw_titles with
        | Ok v => v
        | Raise _ => DEFAULT_JOB_TITLES
        end
      else DEFAULT_JOB_TITLES
  | None => DEFAULT_JOB_TITLES
  end.

(** A precondition failed: the run ends in [error]. *)
Definition abort_run (run_id msg : string) : A unit :=
  modify_run run_id (with_status "error");;
  modify_run run_id (with_phase (PhaseText msg));;
  w ← get_world;
  db_update_run run_id (abort_update msg (utcnow (outside w))).

(** The [try] block of [_run_scanner]. *)
Definition run_try (run_id : string) : A unit :=
  w ← get_world;
  let companies := Database.get_all_companies (database w) in
  let resume := Database.get_resume (database w) in
  match companies with
  | [] => abort_run run_id "No companies loaded"
  | _ =>
      match resume with
      | None => abort_run run_id "No resume uploaded"
      | Some resume =>
          let target_titles := load_titles (database w) in
          let resume_text := Database.resume_text resume in
          let resume_skills := Database.skills_list resume in
          let total_companies := length companies in
          modify_run run_id (with_total_companies total_companies);;
          '(total_found, total_returned) ←
            scan_companies companies 0 run_id target_titles resume_text
              resume_skills 0 0;
          modify_run run_id (with_status "done");;
          modify_run run_id (with_phase PhaseComplete);;
          w' ← get_world;
          r ← read_run run_id;
          db_update_run run_id
            (done_update (utcnow (outside w')) total_companies total_found
               total_returned (errors r))
      end
  end.

(** [_active_runs[run_id] = {...}] *)
Definition register_run (run_id : string) : A unit :=
  write_run run_id initial_run.

(** [_run_scanner]: the body of the background thread. *)
Definition _run_scanner (run_id : string) : A unit :=
  register_run run_id;;
  try_except (run_try run_id) (fun e => abort_run run_id (exn_str e)).

(** *** Words of the specification *)

(** The live counters of the run, 0 when it is not registered. *)
Definition live_jobs_found (run_id : string) (w : world) : nat :=
  default 0%nat (jobs_found <$> live run_id w).

(** The employers of a run, each with the world in which its scan
    starts. *)
Fixpoint scan_points (companies : list Database.company) (ci : nat)
    (run_id : string) (target_titles : json) (resume_text : string)
    (resume_skills : json) (w : world) : list (Database.company * world) :=
  match companies with
  | [] => []
  | company :: rest =>
      let w1 := snd (modify_run run_id
                       (with_current_company (Database.company_name company)) w) in
      let w2 := snd (_scan_one_company company run_id target_titles resume_text
                       resume_skills w1) in
      let w3 := snd (modify_run run_id (with_companies_done (ci + 1)) w2) in
      (company, w1)
        :: scan_points rest (S ci) run_id target_titles resume_text resume_skills w3
  end.

(** The [(found, returned)] pair the scan of an employer returns. *)
Definition scan_value (run_id : string) (target_titles : json) (resume_text : string)
    (resume_skills : json) (p : Database.company * world) : nat * nat :=
  match fst (_scan_one_company (fst p) run_id target_titles resume_text resume_skills
               (snd p)) with
  | Ok v => v
  | Raise _ => (0, 0)%nat
  end.

(** What the scan of an employer adds to the live [jobs_found]. *)
Definition live_delta (run_id : string) (target_titles : json) (resume_text : string)
    (resume_skills : json) (p : Database.company * world) : nat :=
  live_jobs_found run_id
    (snd (_scan_one_company (fst p) run_id target_titles resume_text resume_skills
            (snd p)))
  - live_jobs_found run_id (snd p).

(** The world in which the [try] block of an employer's scan starts. *)
Definition try_world (run_id : string) (company : Database.company) (w : world) : world :=
  snd (modify_run run_id (with_phase (PhaseScanning (Database.company_name company))) w).

(** The employer's URL resolves, its crawl returns jobs, and a later stage
    of its scan raises. *)
Definition raised_after_crawl (run_id : string) (target_titles : json)
    (resume_text : string) (resume_skills : json) (p : Database.company * world) : Prop :=
  exists e c jobs,
    fst (scan_try (fst p) run_id target_titles resume_text resume_skills
           (try_world run_id (fst p) (snd p))) = Raise e
    /\ Workday.parse_workday_url urlparse (Database.workday_url (fst p)) = Ok (Some c)
    /\ fst (fst (crawl_company (Workday.host c) (Workday.tenant c) (Workday.site c)
                   (outside (snd p)))) = Ok jobs.

(** How the scan of one employer is accounted for: what it returns as
    found is at most what it adds to the live [jobs_found]; a scan whose
    [try] block raises returns [(0, 0)]; and when it raises after its crawl
    returned jobs, their number has been added to the live [jobs_found]. *)
Definition scan_accounting (run_id : string) (target_titles : json)
    (resume_text : string) (resume_skills : json) (p : Database.company * world) : Prop :=
  (fst (scan_value run_id target_titles resume_text resume_skills p)
   <= live_delta run_id target_titles resume_text resume_skills p)%nat
  /\ (forall e,
        fst (scan_try (fst p) run_id target_titles resume_text resume_skills
               (try_world run_id (fst p) (snd p))) = Raise e ->
        scan_value run_id target_titles resume_text resume_skills p = (0, 0)%nat
        /\ forall c jobs,
             Workday.parse_workday_url urlparse (Database.workday_url (fst p))
             = Ok (Some c) ->
             fst (fst (crawl_company (Workday.host c) (Workday.tenant c)
                         (Workday.site c) (outside (snd p)))) = Ok jobs ->
             live_delta run_id target_titles resume_text resume_skills p = length jobs
             /\ jobs <> []).

(** The world in which the employers of [_run_scanner] are scanned. *)
Definition scan_start (run_id : string) (w : world) : world :=
  put_live run_id
    (with_total_companies (length (Database.companies (database w))) initial_run)
    (put_live run_id initial_run w).

(** The status column of the rows of [companies]. *)
Definition statuses (w : world) : list (option string) :=
  map Database.last_run_status (Database.companies (database w)).

End Orchestrator.

(** *** A sample installation *)

(** The crawl of the employers [acme] and [initech] finds one job; the
    listing of [globex] holds a stub without [externalPath]; the one job of
    [hooli] makes the scorer fail. *)
Definition sample_env (tenant : string) : Workday.crawl_env :=
  if String.eqb tenant "globex" then Workday.two_stub_env [0; 1]%nat
  else if String.eqb tenant "hooli" then Workday.chaos_env
  else Workday.one_stub_env.

Definition sample_crawl (host tenant site : string) (o : unit)
    : (result (list dict) * list (Z * json * string)) * unit :=
  match Workday.crawl_company Workday.text_simple Workday.isodate_simple 5
          (sample_env tenant) host tenant site true with
  | Some (r, evs) => ((r, Workday.progress_calls evs), tt)
  | None => ((Raise (OtherError "the pagination did not end"), []), tt)
  end.

Definition sample_is_posted_today (job : dict) : result bool :=
  Ok (eq_str (py_or (get_default job "posted_label" (JStr ""))
                    (get_default job "postedOn" (JStr ""))) "Posted Today").

Definition sample_is_relevant_job (job : dict) (target_titles : json) : result bool :=
  Ok true.

Definition sample_is_usa_job (job : dict) : result (bool * json) :=
  Ok (true, JStr "US").

Definition sample_score_jobs_batch (inputs : list dict) (resume_text : string)
    (resume_skills : json) : result (list json) :=
  if existsb (fun j => eq_str (get j "title") "Chaos Engineer") inputs
  then Raise (OtherError "the scoring model failed")
  else Ok (map (fun _ => JObj [("score", JNum 80); ("why", JStr "title match")]) inputs).

Definition sample_utcnow (o : unit) : string := "2024-05-17T09:00:00".
Definition sample_json_loads (s : string) : result json := Raise (ValueError "not JSON").
Definition sample_json_dumps (l : list string) : string := String.concat "; " l.
Definition sample_format_value (v : json) : string :=
  match v with JStr s => s | _ => "" end.

Definition sample_company (cid name tenant : string) : Database.company :=
  {| Database.company_id := cid; Database.company_name := name;
     Database.workday_url :=
       "https://" +:+ tenant +:+ ".wd5.myworkdayjobs.com/en-US/jobs";
     Database.last_run_status := None; Database.last_run_time := None |}.

Definition sample_world (companies : list Database.company) : @world unit :=
  {| active_runs := ∅;
     database :=
       {| Database.companies := companies;
          Database.jobs := ∅;
          Database.runs :=
            {["run1" := {| Database.started_at := "2024-05-17T08:59:59";
                           Database.finished_at := None;
                           Database.status := "running";
                           Database.total_companies := length companies;
                           Database.total_jobs_found := 0;
                           Database.total_jobs_returned := 0;
                           Database.error_log := None |}]};
          Database.resume :=
            Some {| Database.resume_text := "Machine learning engineer";
                    Database.skills_list := JArr [JStr "python"] |};
          Database.settings := ∅ |};
     outside := tt;
     calls := [] |}.

Definition three_employers : list Database.company :=
  [sample_company "c1" "Acme" "acme"; sample_company "c2" "Globex" "globex";
   sample_company "c3" "Initech" "initech"].

Definition two_employers : list Database.company :=
  [sample_company "c1" "Acme" "acme"; sample_company "c4" "Hooli" "hooli"].

(** [_run_scanner] of the sample installation. *)
Definition sample_run (companies : list Database.company) : result unit * @world unit :=
  _run_scanner Workday.urlparse_simple sample_crawl sample_is_posted_today
    sample_is_relevant_job sample_is_usa_job sample_score_jobs_batch sample_utcnow
    sample_json_loads sample_json_dumps sample_format_value "run1"
    (sample_world companies).

End App.


(** ** filters/posted_today.py

    The texts the filters and the matcher read (titles, locations, labels,
    headers) are taken to be ASCII, as everywhere in this development:
    [lower], [upper], [split] and the regex classes follow Python's on that
    range. *)

Module PostedToday.

Section Filter.

(** [datetime.fromisoformat(s).date()] on a string, and [date.today()]. *)
Variable fromisoformat : string -> option Workday.date.
Variable today : Workday.date.

Definition is_posted_today (job : dict) : result bool :=
  let posted_label := App.py_or (get_default job "posted_label" (JStr ""))
                                (get_default job "postedOn" (JStr "")) in
  if eq_str posted_label "Posted Today" then Ok true else
  if truthy posted_label then Ok false else
  let start_date := App.py_or (get job "start_date") (get job "startDate") in
  if truthy start_date then
    match Workday.parse_iso fromisoformat start_date with
    | Ok posted_dt => Ok (Workday.date_eqb posted_dt today)
    | Raise (ValueError _) | Raise (TypeError _) => Ok false
    | Raise e => Raise e
    end
  else Ok false.

End Filter.

End PostedToday.

(** ** filters/keywords.py *)

Module Keywords.

Definition DEFAULT_JOB_TITLES : list string :=
  ["Machine Learning Engineer"; "AI Engineer"; "Applied Machine Learning Engineer";
   "Data Scientist"; "Applied Data Scientist";
   "Research Scientist in Machine Learning"; "AI Research Scientist";
   "Machine Learning Researcher"; "Computer Vision Engineer"; "NLP Engineer";
   "Generative AI Engineer"; "LLM Engineer"; "Deep Learning Engineer";
   "AI Research Engineer"; "MLOps Engineer"].

(** A set of strings as the list of its elements: the code only asks
    whether a word is in it, whether it is empty, and whether it is included
    in another. *)
Definition _STOP_WORDS : list string :=
  ["in"; "of"; "and"; "the"; "a"; "an"; "or"; "for"; "to"; "at"; "by";
   "with"; "from"; "on"; "is"; "as"; "sr"; "jr"; "senior"; "junior";
   "staff"; "principal"; "lead"; "manager"; "director"; "head"; "vp";
   "i"; "ii"; "iii"; "iv"; "v"; "1"; "2"; "3"; "4"; "5"].

(** [w in words] *)
Definition mem (w : string) (words : list string) : bool :=
  existsb (String.eqb w) words.

(** The pieces of [s] between the characters that satisfy [p]. *)
Fixpoint split_on (p : ascii -> bool) (s : string) : list string :=
  match s with
  | EmptyString => [EmptyString]
  | String c s' =>
      if p c then EmptyString :: split_on p s'
      else match split_on p s' with
           | [] => [String c EmptyString]
           | w :: ws => String c w :: ws
           end
  end.

(** [s.split()]: the maximal runs of characters that are not whitespace. *)
Definition split_whitespace (s : string) : list string :=
  List.filter (fun w => negb (String.eqb w "")) (split_on Workday.is_space s).

Definition _extract_keywords (title : string) : list string :=
  List.filter (fun w => negb (mem w _STOP_WORDS) && (1 <? String.length w)%nat)
              (split_whitespace (Workday.lower title)).

(** [_extract_keywords(v)] on a value: [v.lower()] needs a string. *)
Definition extract_keywords_of (v : json) : result (list string) :=
  match v with
  | JStr s => Ok (_extract_keywords s)
  | _ => Raise (AttributeError "object has no attribute 'lower'")
  end.

(** [a.issubset(b)] *)
Definition issubset (a b : list string) : bool := forallb (fun w => mem w b) a.

(** The loop [for target in target_titles]. *)
Fixpoint match_targets (job_keywords : list string) (targets : list json) : result bool :=
  match targets with
  | [] => Ok false
  | target :: rest =>
      match extract_keywords_of target with
      | Raise e => Raise e
      | Ok target_keywords =>
          match target_keywords with
          | [] => match_targets job_keywords rest
          | _ =>
              if issubset target_keywords job_keywords then Ok true
              else match_targets job_keywords rest
          end
      end
  end.

Definition is_relevant_job (job : dict) (target_titles : json) : result bool :=
  let target_titles :=
    match target_titles with
    | JNull => JArr (map JStr DEFAULT_JOB_TITLES)
    | t => t
    end in
  let job_title := get_default job "title" (JStr "") in
  if negb (truthy job_title) then Ok false else
  job_keywords ← extract_keywords_of job_title;
  targets ← Workday.iterate target_titles;
  match_targets job_keywords targets.

End Keywords.

(** ** filters/usa.py *)

Module Usa.

Definition US_STATES : list (string * string) :=
  [("Alabama", "AL"); ("Alaska", "AK"); ("Arizona", "AZ"); ("Arkansas", "AR");
   ("California", "CA"); ("Colorado", "CO"); ("Connecticut", "CT"); ("Delaware", "DE");
   ("Florida", "FL"); ("Georgia", "GA"); ("Hawaii", "HI"); ("Idaho", "ID");
   ("Illinois", "IL"); ("Indiana", "IN"); ("Iowa", "IA"); ("Kansas", "KS");
   ("Kentucky", "KY"); ("Louisiana", "LA"); ("Maine", "ME"); ("Maryland", "MD");
   ("Massachusetts", "MA"); ("Michigan", "MI"); ("Minnesota", "MN");
   ("Mississippi", "MS"); ("Missouri", "MO"); ("Montana", "MT"); ("Nebraska", "NE");
   ("Nevada", "NV"); ("New Hampshire", "NH"); ("New Jersey", "NJ");
   ("New Mexico", "NM"); ("New York", "NY"); ("North Carolina", "NC");
   ("North Dakota", "ND"); ("Ohio", "OH"); ("Oklahoma", "OK"); ("Oregon", "OR");
   ("Pennsylvania", "PA"); ("Rhode Island", "RI"); ("South Carolina", "SC");
   ("South Dakota", "SD"); ("Tennessee", "TN"); ("Texas", "TX"); ("Utah", "UT");
   ("Vermont", "VT"); ("Virginia", "VA"); ("Washington", "WA");
   ("West Virginia", "WV"); ("Wisconsin", "WI"); ("Wyoming", "WY");
   ("District of Columbia", "DC")].

Definition US_STATE_CODES : list string := map snd US_STATES.
Definition US_STATE_NAMES : list string := map fst US_STATES.
Definition US_STATE_NAMES_LOWER : list string := map Workday.lower US_STATE_NAMES.

Definition US_COUNTRY_KEYWORDS : list string :=
  ["united states"; "united states of america"; "usa"; "u.s."; "u.s.a."].

Definition MAJOR_US_CITIES : list string :=
  ["new york"; "los angeles"; "chicago"; "houston"; "phoenix"; "philadelphia";
   "san antonio"; "san diego"; "dallas"; "san jose"; "austin"; "jacksonville";
   "san francisco"; "seattle"; "denver"; "boston"; "nashville"; "atlanta";
   "portland"; "las vegas"; "miami"; "minneapolis"; "raleigh"; "charlotte";
   "salt lake city"; "pittsburgh"; "detroit"; "st. louis"; "tampa";
   "waltham"; "redmond"; "sunnyvale"; "mountain view"; "palo alto";
   "cupertino"; "menlo park"; "santa clara"; "irvine"; "boulder";
   "arlington"; "bellevue"; "cambridge"; "herndon"; "mclean"].

Definition upper_char (c : ascii) : ascii :=
  if Workday.is_lower c then ascii_of_nat (nat_of_ascii c - 32) else c.

Fixpoint upper (s : string) : string :=
  match s with
  | EmptyString => EmptyString
  | String c s' => String (upper_char c) (upper s')
  end.

(** [v.upper()], [v.lower()], [v.strip()]: only a string has the
    methods. *)
Definition str_method (f : string -> string) (v : json) : result string :=
  match v with
  | JStr s => Ok (f s)
  | _ => Raise (AttributeError "object has no such string method")
  end.

(** [sep.join(parts)]: every part must be a string. *)
Fixpoint join (sep : string) (parts : list json) : result string :=
  match parts with
  | [] => Ok ""
  | JStr s :: rest =>
      match rest with
      | [] => Ok s
      | _ => r ← join sep rest; Ok (s +:+ sep +:+ r)
      end
  | _ :: _ => Raise (TypeError "sequence item: expected str instance")
  end.

(** The regex class [\w]. *)
Definition is_word_char (c : ascii) : bool :=
  Workday.is_lower c || Workday.is_upper c || Workday.is_digit c || (c =? "_")%char.

(** [re.match(r'[A-Z]{2}\b', s)]: the two letters, when [s] starts with
    two capitals that no word character follows. *)
Definition code_here (s : string) : option string :=
  match s with
  | String a (String b r) =>
      if Workday.is_upper a && Workday.is_upper b
         && match r with
            | EmptyString => true
            | String c _ => negb (is_word_char c)
            end
      then Some (String a (String b EmptyString))
      else None
  | _ => None
  end.

(** [re.findall(r'\b[A-Z]{2}\b', s)], scanning from a position whose
    preceding character is a word character or not.  A match is enclosed by
    two word boundaries, so no two matches overlap, and the scan may go on
    at the next character. *)
Fixpoint findall_codes (after_word : bool) (s : string) : list string :=
  match s with
  | EmptyString => []
  | String a r =>
      match (if after_word then None else code_here s) with
      | Some w => w :: findall_codes (is_word_char a) r
      | None => findall_codes (is_word_char a) r
      end
  end.

(** The two tests on a [country] dict: its [alpha2Code] is [US] in any
    case, or its [descriptor] is one of the country keywords. *)
Definition country_is_us (country : dict) : result bool :=
  alpha ← str_method upper
            (App.py_or (get_default country "alpha2Code" (JStr "")) (JStr ""));
  if String.eqb alpha "US" then Ok true else
  descriptor ← str_method Workday.lower
                 (App.py_or (get_default country "descriptor" (JStr "")) (JStr ""));
  Ok (Keywords.mem descriptor US_COUNTRY_KEYWORDS).

(** [kw in all_text] for some [kw] of the set. *)
Definition any_in (kws : list string) (all_text : string) : bool :=
  existsb (fun kw => contains kw all_text) kws.

(** The location heuristics and the remote rule, on the joined location
    text. *)
Definition by_location_text (joined : string) : bool * string :=
  let all_text := Workday.lower joined in
  if any_in US_COUNTRY_KEYWORDS all_text then (true, "US") else
  let words := findall_codes false joined in
  if existsb (fun w => Keywords.mem w US_STATE_CODES) words then (true, "US") else
  if any_in US_STATE_NAMES_LOWER all_text then (true, "US") else
  if any_in MAJOR_US_CITIES all_text then (true, "US") else
  (* 4. remote *)
  if contains "remote" all_text then
    if any_in US_COUNTRY_KEYWORDS all_text then (true, "US (Remote)")
    else (false, "Remote (unknown country)")
  else (false, "Non-US").

(** 1. The structured country field. *)
Definition by_country_field (job : dict) : result bool :=
  match get_default job "country" (JObj []) with
  | JObj country => country_is_us country
  | _ => Ok false
  end.

(** 2. [jobRequisitionLocation]. *)
Definition by_requisition_location (job : dict) : result bool :=
  let jrl := App.py_or (get_default job "job_requisition_location" (JObj []))
                       (get_default job "jobRequisitionLocation" (JObj [])) in
  match jrl with
  | JObj jrl =>
      match get_default jrl "country" (JObj []) with
      | JObj jrl_country => country_is_us jrl_country
      | _ => Ok false
      end
  | _ => Ok false
  end.

(** 3. [" ".join(all_locations)]: the stripped location text, then the
    additional locations. *)
Definition joined_locations (job : dict) : result string :=
  location_text ←
    str_method (Workday.strip Workday.is_space)
      (App.py_or (App.py_or (get_default job "locations_text" (JStr ""))
                            (get_default job "location" (JStr "")))
                 (JStr ""));
  let additional :=
    App.py_or (get_default job "additional_locations" (JArr []))
              (get_default job "additionalLocations" (JArr [])) in
  let all_locations :=
    JStr location_text :: match additional with JArr l => l | _ => [] end in
  join " " all_locations.

Definition is_usa_job (job : dict) : result (bool * string) :=
  match by_country_field job with
  | Raise e => Raise e
  | Ok true => Ok (true, "US")
  | Ok false =>
      match by_requisition_location job with
      | Raise e => Raise e
      | Ok true => Ok (true, "US")
      | Ok false =>
          match joined_locations job with
          | Raise e => Raise e
          | Ok joined => Ok (by_location_text joined)
          end
      end
  end.

End Usa.

(** ** The filters as [_scan_one_company] calls them *)

Module Pipeline.

(** [usa, country_guess = is_usa_job(job)] *)
Definition is_usa_job (job : dict) : result (bool * json) :=
  match Usa.is_usa_job job with
  | Ok (usa, country_guess) => Ok (usa, JStr country_guess)
  | Raise e => Raise e
  end.

Section Filters.

(** The date parser, and the day [date.today()] returns while the jobs of
    one employer are filtered. *)
Variable fromisoformat : string -> option Workday.date.
Variable today : Workday.date.

(** The filter loop of [_scan_one_company]. *)
Definition filter_jobs : list dict -> json -> result (list dict) :=
  App.filter_jobs (PostedToday.is_posted_today fromisoformat today)
    Keywords.is_relevant_job is_usa_job.

(** The job passes the three filters. *)
Definition passes (target_titles : json) (job : dict) : bool :=
  match PostedToday.is_posted_today fromisoformat today job with
  | Ok true =>
      match Keywords.is_relevant_job job target_titles with
      | Ok true =>
          match Usa.is_usa_job job with
          | Ok (true, _) => true
          | _ => false
          end
      | _ => false
      end
  | _ => false
  end.

End Filters.

(** Two records as the enricher builds them: a machine-learning job in Austin, and a
    sales job in Berlin. *)
Definition austin_job : dict :=
  Workday.job_record Workday.one_stub_fields
    [("title", JStr "Machine Learning Engineer"); ("location", JStr "Austin, TX");
     ("postedOn", JStr "Posted Today"); ("jobReqId", JStr "R1")].

Definition berlin_job : dict :=
  Workday.job_record Workday.one_stub_fields
    [("title", JStr "Sales Manager"); ("location", JStr "Berlin");
     ("postedOn", JStr "Posted Today"); ("jobReqId", JStr "R2")].

End Pipeline.

(** ** app.py: the job-title configuration *)

Module AppRoutes.

Section Titles.

(** [json.loads], and [json.dumps] of a list of strings. *)
Variable json_loads : string -> result json.
Variable json_dumps : list string -> string.

(** [GET /api/job-titles]: the body of the response. *)
Definition get_job_titles (d : Database.db) : result json :=
  let raw := Database.get_setting App.JOB_TITLES_SETTING_KEY d in
  titles ←
    match raw with
    | Some raw =>
        if negb (String.eqb raw "") then
          match json_loads raw with
          | Ok titles => Ok titles
          | Raise (ValueError _) | Raise (TypeError _) => Ok App.DEFAULT_JOB_TITLES
          | Raise e => Raise e
          end
        else Ok App.DEFAULT_JOB_TITLES
    | None => Ok App.DEFAULT_JOB_TITLES
    end;
  Ok (JObj [("titles", titles)]).

(** [[t.strip() for t in titles if t.strip()]] *)
Fixpoint clean_titles (titles : list json) : result (list string) :=
  match titles with
  | [] => Ok []
  | t :: rest =>
      stripped ← Usa.str_method (Workday.strip Workday.is_space) t;
      kept ← clean_titles rest;
      Ok (if negb (String.eqb stripped "") then stripped :: kept else kept)
  end.

Definition error_response (msg : string) : json * Z := (JObj [("error", JStr msg)], 400).

(** [POST /api/job-titles] with the JSON body [data]: the response, its
    status, and the database afterwards.  An exception that leaves the
    handler is the framework's status 500. *)
Definition save_job_titles (data : json) (d : Database.db)
    : result ((json * Z) * Database.db) :=
  if negb (truthy data) then Ok (error_response "Missing 'titles' field", d) else
  has ← py_in "titles" data;
  if negb has then Ok (error_response "Missing 'titles' field", d) else
  titles ← Workday.subscript data "titles";
  match titles with
  | JArr items =>
      titles ← clean_titles items;
      let d' := Database.save_setting App.JOB_TITLES_SETTING_KEY (json_dumps titles) d in
      Ok ((JObj [("success", JBool true);
                 ("count", JNum (Z.of_nat (length titles)));
                 ("titles", JArr (map JStr titles))], 200), d')
  | _ => Ok (error_response "'titles' must be a list", d)
  end.

End Titles.

(** What the cleaning keeps of a list of strings. *)
Definition cleaned (titles : list string) : list string :=
  List.filter (fun t => negb (String.eqb t ""))
              (map (Workday.strip Workday.is_space) titles).

(** A reference pair of [json.dumps] and [json.loads] for lists of titles
    without quotes or backslashes: the titles between brackets, each in
    quotes, separated by a comma and a space. *)
Definition quote : ascii := ascii_of_nat 34.

Definition dumps_simple (titles : list string) : string :=
  "[" +:+ String.concat ", " (map (fun t => String quote (t +:+ String quote "")) titles)
  +:+ "]".

(** The items of the list, reading [s] after the opening bracket; [cur]
    is the title being read, when inside quotes. *)
Fixpoint loads_items (s : string) (cur : option string) (acc : list string)
    : option (list string) :=
  match s with
  | EmptyString => None
  | String c r =>
      match cur with
      | Some w =>
          if (c =? quote)%char then loads_items r None (acc ++ [w])
          else loads_items r (Some (w +:+ String c "")) acc
      | None =>
          if (c =? "]")%char then (if String.eqb r "" then Some acc else None)
          else if (c =? quote)%char then loads_items r (Some "") acc
          else if (c =? ",")%char || (c =? " ")%char then loads_items r None acc
          else None
      end
  end.

Definition loads_simple (s : string) : result json :=
  match s with
  | String "[" r =>
      match loads_items r None [] with
      | Some items => Ok (JArr (map JStr items))
      | None => Raise (ValueError "Expecting value")
      end
  | _ => Raise (ValueError "Expecting value")
  end.

End AppRoutes.

(** ** utils/spreadsheet.py: the import of the employers

    The workbook is what [openpyxl] reads from the file: the rows of the
    active sheet, each the values of its cells ([None] for an empty
    cell). *)

Module Spreadsheet.

Definition COLUMN_MAP : list (string * list string) :=
  [("company_name", ["company_name"; "company name"; "company"; "name"]);
   ("workday_url", ["workday_careers_url"; "workday_url"; "careers_url"; "careers site";
                    "careers_site"; "url"; "workday_link"; "link"]);
   ("note", ["note"; "notes"; "comment"; "comments"]);
   ("preferred_keywords", ["preferred_keywords"; "keywords"; "preferred keywords"])].

(** The loop [for canonical, variants in COLUMN_MAP.items()]. *)
Fixpoint first_column (h : string) (columns : list (string * list string))
    : option string :=
  match columns with
  | [] => None
  | (canonical, variants) :: rest =>
      if Keywords.mem h variants then Some canonical else first_column h rest
  end.

Definition _match_column (header : string) : option string :=
  let h := Workday.lower (Workday.strip Workday.is_space header) in
  first_column h COLUMN_MAP.

(** [re.sub(r"[^a-z0-9]", "_", s)] *)
Fixpoint sub_non_alnum (s : string) : string :=
  match s with
  | EmptyString => EmptyString
  | String c s' =>
      String (if Workday.is_lower c || Workday.is_digit c then c else "_"%char)
             (sub_non_alnum s')
  end.

(** [re.sub(r"[^a-z0-9]", "_", name.lower())[:20]] *)
Definition company_id_of (name : string) : string :=
  take_str 20 (sub_non_alnum (Workday.lower name)).

Section Importer.

(** [str(v)] for a cell value that is not a string (a number, a date). *)
Variable str_of : json -> string.

Definition py_str (v : json) : string :=
  match v with
  | JStr s => s
  | _ => str_of v
  end.

(** [_match_column(str(cell.value or "").strip())] *)
Definition header_of (cell : json) : option string :=
  _match_column (Workday.strip Workday.is_space (py_str (App.py_or cell (JStr "")))).

(** The loop [for i, val in enumerate(row)]: the cells under a recognised
    header are stored, stripped; the cells beyond the headers are
    skipped. *)
Fixpoint fill_record (headers : list (option string)) (row : list json) (record : dict)
    : dict :=
  match row, headers with
  | val :: row', Some h :: headers' =>
      fill_record headers' row'
        (setitem record h
           (if truthy val then JStr (Workday.strip Workday.is_space (py_str val))
            else JNull))
  | _ :: row', None :: headers' => fill_record headers' row' record
  | _, _ => record
  end.

(** One data row: the record appended to [companies], if any. *)
Definition import_row (headers : list (option string)) (row : list json)
    : result (option dict) :=
  if negb (existsb truthy row) then Ok None else
  let record := fill_record headers row [] in
  if truthy (get record "company_name") && truthy (get record "workday_url") then
    name ← Usa.str_method Workday.lower (get record "company_name");
    let cid := take_str 20 (sub_non_alnum name) in
    Ok (Some (setitem record "company_id" (JStr cid)))
  else Ok None.

Fixpoint import_rows (headers : list (option string)) (rows : list (list json))
    : result (list dict) :=
  match rows with
  | [] => Ok []
  | row :: rest =>
      r ← import_row headers row;
      companies ← import_rows headers rest;
      Ok (match r with Some record => record :: companies | None => companies end)
  end.

Definition is_column (name : string) (h : option string) : bool :=
  match h with
  | Some c => String.eqb c name
  | None => false
  end.

(** [import_companies]: the first row holds the headers. *)
Definition import_companies (sheet : list (list json)) : result (list dict) :=
  let headers := map header_of (hd [] sheet) in
  if negb (existsb (is_column "company_name") headers) then
    Raise (ValueError "Spreadsheet must have a 'company_name' or 'Company name' column")
  else if negb (existsb (is_column "workday_url") headers) then
    Raise (ValueError
             "Spreadsheet must have a 'workday_careers_url' or 'Careers site' column")
  else import_rows headers (tl sheet).

End Importer.

(** A sample sheet: headers in mixed case, a complete row, a blank row,
    and a row without URL. *)
Definition sample_sheet : list (list json) :=
  [[JStr " Company Name "; JStr "Notes"; JStr "Careers Site"; JStr "Region"];
   [JStr "Acme Corp."; JNull; JStr " https://acme.wd5.myworkdayjobs.com/jobs "; JStr "US"];
   [JNull; JNull; JNull; JNull];
   [JStr "Globex"; JStr "no site yet"; JNull; JNull]].

Definition str_of_simple (v : json) : string :=
  match v with
  | JStr s => s
  | _ => "?"
  end.

End Spreadsheet.

(** ** matcher/scorer.py

    Python's floats, the embedding model and numpy are outside the
    repository: the float operations the scorer uses, the loading of the
    model, its [encode] and the cosine formula are parameters.  The scorer
    keeps two module globals, [_model] and [_resume_cache], which are its
    state here, together with the texts it has sent to [encode]. *)

Module Scorer.

Definition TITLE_KEYWORDS : list string :=
  ["machine learning"; "ml "; "ml/"; "deep learning"; "ai ";
   "artificial intelligence"; "data scientist"; "data science";
   "researcher"; "research scientist"; "applied scientist";
   "nlp"; "natural language"; "computer vision"; "cv engineer";
   "ml engineer"; "mle"; "neural"; "llm"].

(** [BATCH_SIZE = 32] *)
Definition BATCH_SIZE : nat := 32.

Section Matcher.

(** The floats: [0.0], [1.0], the weights [0.4] and [0.3], the true
    division of two counts, [min], [+], [*], and [round(x, 4)]. *)
Variable F : Type.
Variables (zero one weight_semantic weight_title weight_skills : F).
Variable true_div : nat -> nat -> F.
Variables (fmin fadd fmul : F -> F -> F).
Variable round4 : F -> F.

(** The model and its embeddings: the outcome of the [n]-th attempt to
    load the model, [model.encode(texts)], [np.linalg.norm(e)], and
    [float(max(0, np.dot(a, b) / (norm_a * np.linalg.norm(b))))], which
    does not raise on two embeddings of the model. *)
Variables (Model Emb : Type).
Variable load_model : nat -> result Model.
Variable encode : Model -> list string -> result (list Emb).
Variable norm : Emb -> F.
Variable similarity : Emb -> F -> Emb -> F.

(** The text an f-string gives a value that is not a string, and the
    order in which [list(set(words))] lists the words. *)
Variable format_value : json -> string.
Variable list_of_set : list string -> list string.

Record state : Type :=
  { _model : option Model;
    loads : nat;
    _resume_cache : option (string * Emb);
    encoded : list (list string) }.

Definition S (X : Type) : Type := state -> result X * state.

#[export] Instance S_ret : MRet S := fun X x st => (Ok x, st).
#[export] Instance S_bind : MBind S :=
  fun X Y k m st => match m st with
                    | (Ok x, st') => k x st'
                    | (Raise e, st') => (Raise e, st')
                    end.

Definition lift {X} (r : result X) : S X := fun st => (r, st).

(** [try: m  except Exception: handler] *)
Definition try_except {X} (m : S X) (handler : S X) : S X :=
  fun st => match m st with
            | (Ok x, st') => (Ok x, st')
            | (Raise _, st') => handler st'
            end.

Definition _get_model : S Model :=
  fun st =>
    match _model st with
    | Some model => (Ok model, st)
    | None =>
        match load_model (loads st) with
        | Ok model =>
            (Ok model, {| _model := Some model; loads := Datatypes.S (loads st);
                          _resume_cache := _resume_cache st; encoded := encoded st |})
        | Raise e =>
            (Raise e, {| _model := None; loads := Datatypes.S (loads st);
                         _resume_cache := _resume_cache st; encoded := encoded st |})
        end
    end.

(** [model.encode(texts)] *)
Definition model_encode (model : Model) (texts : list string) : S (list Emb) :=
  fun st =>
    (encode model texts,
     {| _model := _model st; loads := loads st; _resume_cache := _resume_cache st;
        encoded := encoded st ++ [texts] |}).

(** The miss of [encode_resume]: the chunk is encoded, and cached. *)
Definition encode_and_cache (chunk : string) : S Emb :=
  model ← _get_model;
  embeddings ← model_encode model [chunk];
  match embeddings with
  | embedding :: _ =>
      fun st =>
        (Ok embedding,
         {| _model := _model st; loads := loads st;
            _resume_cache := Some (chunk, embedding); encoded := encoded st |})
  | [] => lift (Raise (OtherError "index 0 is out of bounds"))
  end.

Definition encode_resume (resume_text : string) : S Emb :=
  let chunk := take_str 2000 resume_text in
  fun st =>
    match _resume_cache st with
    | Some (text, embedding) =>
        if String.eqb text chunk then (Ok embedding, st)
        else encode_and_cache chunk st
    | None => encode_and_cache chunk st
    end.

(** The keywords of [TITLE_KEYWORDS] found in a title. *)
Definition title_matches_of (job_title : string) : list string :=
  List.filter (fun kw => contains kw (Workday.lower job_title)) TITLE_KEYWORDS.

Definition title_score (job_title : json) : result (F * list string) :=
  title_lower ← Usa.str_method Workday.lower job_title;
  let matches := List.filter (fun kw => contains kw title_lower) TITLE_KEYWORDS in
  match matches with
  | [] => Ok (zero, matches)
  | _ => Ok (fmin (true_div (length matches) 3) one, matches)
  end.

(** [[s for s in resume_skills if s in job_lower]]: [in] needs a string
    on its left. *)
Fixpoint skills_in (skills : list json) (job_lower : string) : result (list string) :=
  match skills with
  | [] => Ok []
  | JStr s :: rest =>
      matched ← skills_in rest job_lower;
      Ok (if contains s job_lower then s :: matched else matched)
  | _ :: _ => Raise (TypeError "'in <string>' requires string as left operand")
  end.

Definition skill_overlap_score (resume_skills : json) (job_text : string)
    : result (F * list string) :=
  if negb (truthy resume_skills) then Ok (zero, []) else
  let job_lower := Workday.lower job_text in
  skills ← Workday.iterate resume_skills;
  matched ← skills_in skills job_lower;
  match matched with
  | [] => Ok (zero, matched)
  | _ => Ok (fmin (true_div (length matched) (length skills)) one, matched)
  end.

(** The dict [_build_result] returns. *)
Record score_result : Type :=
  { score : F;
    result_title_score : F;
    skill_score : F;
    semantic_score : F;
    matched_keywords : list string;
    title_matches : list string;
    why : string }.

(** The human-readable summary. *)
Definition why_of (t_matches s_matches : list string) : string :=
  let why_parts :=
    (match t_matches with
     | [] => []
     | _ => ["title: " +:+ String.concat ", " (take 3 t_matches)]
     end)
    ++ (match s_matches with
        | [] => []
        | _ => ["skills: " +:+ String.concat ", " (take 5 s_matches)]
        end) in
  match why_parts with
  | [] => "semantic similarity only"
  | _ => String.concat "; " why_parts
  end.

Definition _build_result (t_score : F) (t_matches : list string) (s_score : F)
    (s_matches : list string) (sem_score : F) : score_result :=
  let combined :=
    fadd (fadd (fmul weight_semantic sem_score) (fmul weight_title t_score))
         (fmul weight_skills s_score) in
  {| score := round4 combined;
     result_title_score := round4 t_score;
     skill_score := round4 s_score;
     semantic_score := round4 sem_score;
     matched_keywords := list_of_set (t_matches ++ s_matches);
     title_matches := t_matches;
     why := why_of t_matches s_matches |}.

(** [f"{job['title']}\n{job.get('jd_text', '')}"] *)
Definition text_of (v : json) : string :=
  match v with
  | JStr s => s
  | _ => format_value v
  end.

Definition job_text_of (job : dict) : result string :=
  title ← getitem job "title";
  Ok (text_of title +:+ String Workday.LF (text_of (get_default job "jd_text" (JStr "")))).

(** The fallback of [score_jobs_batch]: every job scored without the
    model, its semantic score [0.0]. *)
Fixpoint score_without_model (jobs : list dict) (resume_skills : json)
    : result (list score_result) :=
  match jobs with
  | [] => Ok []
  | job :: rest =>
      job_text ← job_text_of job;
      title ← getitem job "title";
      '(t_score, t_matches) ← title_score title;
      '(s_score, s_matches) ← skill_overlap_score resume_skills job_text;
      results ← score_without_model rest resume_skills;
      Ok (_build_result t_score t_matches s_score s_matches zero :: results)
  end.

(** The first loop: the title and skill scores, and the texts to
    encode. *)
Fixpoint precompute (jobs : list dict) (resume_skills : json)
    : result (list (F * list string) * list (F * list string) * list string) :=
  match jobs with
  | [] => Ok ([], [], [])
  | job :: rest =>
      job_text ← job_text_of job;
      title ← getitem job "title";
      t ← title_score title;
      s ← skill_overlap_score resume_skills job_text;
      '(title_results, skill_results, job_texts) ← precompute rest resume_skills;
      Ok (t :: title_results, s :: skill_results, take_str 2000 job_text :: job_texts)
  end.

(** [for i in range(0, len(job_texts), BATCH_SIZE)]: the slices
    [job_texts[i : i + BATCH_SIZE]], at most [fuel] of them. *)
Fixpoint batches (fuel : nat) (job_texts : list string) : list (list string) :=
  match fuel, job_texts with
  | Datatypes.S fuel', _ :: _ =>
      take BATCH_SIZE job_texts :: batches fuel' (drop BATCH_SIZE job_texts)
  | _, _ => []
  end.

(** The second loop: the semantic scores of the batches; a batch whose
    encoding raises counts [0.0] for each of its texts. *)
Fixpoint encode_batches (model : Model) (resume_emb : Emb) (resume_norm : F)
    (bs : list (list string)) (all_sem_scores : list F) : S (list F) :=
  match bs with
  | [] => mret all_sem_scores
  | batch :: rest =>
      fun st =>
        match model_encode model batch st with
        | (Ok job_embeddings, st') =>
            encode_batches model resume_emb resume_norm rest
              (all_sem_scores ++ map (similarity resume_emb resume_norm) job_embeddings)
              st'
        | (Raise _, st') =>
            encode_batches model resume_emb resume_norm rest
              (all_sem_scores ++ repeat zero (length batch)) st'
        end
  end.

(** The last loop: one result for each index. *)
Definition assemble (title_results skill_results : list (F * list string))
    (all_sem_scores : list F) : list score_result :=
  imap (fun idx ts =>
          let '(t, s) := ts in
          _build_result (fst t) (snd t) (fst s) (snd s)
            (default zero (all_sem_scores !! idx)))
       (zip title_results skill_results).

Definition score_jobs_batch (jobs : list dict) (resume_text : string)
    (resume_skills : json) : S (list score_result) :=
  match jobs with
  | [] => mret []
  | _ =>
      fun st =>
        match (model ← _get_model;
               resume_emb ← encode_resume resume_text;
               mret (model, resume_emb, norm resume_emb)) st with
        | (Raise _, st') => (score_without_model jobs resume_skills, st')
        | (Ok (model, resume_emb, resume_norm), st') =>
            match precompute jobs resume_skills with
            | Raise e => (Raise e, st')
            | Ok (title_results, skill_results, job_texts) =>
                match encode_batches model resume_emb resume_norm
                        (batches (length job_texts) job_texts) [] st' with
                | (Ok all_sem_scores, st'') =>
                    (Ok (assemble title_results skill_results all_sem_scores), st'')
                | (Raise e, st'') => (Raise e, st'')
                end
            end
        end
  end.

(** *** Words about the inputs *)

(** The job has a title that is a string. *)
Definition titled (job : dict) : Prop :=
  exists title, lookup_key "title" job = Some (JStr title).

(** The resume skills are empty, or a list of strings. *)
Definition skill_list (resume_skills : json) : Prop :=
  truthy resume_skills = false \/ exists skills, resume_skills = JArr (map JStr skills).

(** The title keywords, the skills and the summary of a job, none of
    which depends on the model. *)
Definition explained (resume_skills : json) (job : dict) (r : score_result) : Prop :=
  exists title s_matches,
    lookup_key "title" job = Some (JStr title)
    /\ title_matches r = title_matches_of title
    /\ why r = why_of (title_matches_of title) s_matches
    /\ (truthy resume_skills = false -> s_matches = []).

Definition fresh_state : state :=
  {| _model := None; loads := 0; _resume_cache := None; encoded := [] |}.

End Matcher.

Arguments _model {Model Emb} s.
Arguments loads {Model Emb} s.
Arguments _resume_cache {Model Emb} s.
Arguments encoded {Model Emb} s.
Arguments why {F} s.
Arguments title_matches {F} s.
Arguments explained {F} resume_skills job r.

End Scorer.

(** ** matcher/resume_parser.py *)

Module ResumeParser.

(** The alternatives of [SECTION_PATTERNS], in order: each one a sequence
    of literals separated by [\s+].  The patterns are matched at the start
    of the line, whatever follows, so an optional last letter ([skills?])
    never decides; [(?i)] is the comparison of the line in lower case. *)
Definition SECTION_PATTERNS : list (list string) :=
  [["technical"; "skill"]; ["skill"]; ["core"; "competenc"];
   ["experience"]; ["work"; "experience"]; ["professional"; "experience"];
   ["education"]; ["academic"];
   ["project"]; ["personal"; "project"]; ["key"; "project"];
   ["certification"]; ["certificate"];
   ["publication"]; ["paper"];
   ["summary"]; ["objective"]; ["profile"]; ["about"]].

(** The dict [section_names], in insertion order. *)
Definition section_names : list (string * string) :=
  [("skill", "skills"); ("technical skill", "skills"); ("core competen", "skills");
   ("experience", "experience"); ("work experience", "experience");
   ("professional experience", "experience");
   ("education", "education"); ("academic", "education");
   ("project", "projects"); ("personal project", "projects");
   ("key project", "projects");
   ("certification", "certifications"); ("certificate", "certifications");
   ("publication", "publications"); ("paper", "publications");
   ("summary", "summary"); ("objective", "summary"); ("profile", "summary");
   ("about", "summary")].

(** [s] starts with the literals, one or more whitespace characters
    between two of them. *)
Fixpoint starts_with_words (words : list string) (s : string) : bool :=
  match words with
  | [] => true
  | w :: rest =>
      match Workday.strip_prefix w s with
      | None => false
      | Some r =>
          match rest with
          | [] => true
          | _ =>
              match r with
              | String c _ =>
                  Workday.is_space c
                  && starts_with_words rest (Workday.drop_while Workday.is_space r)
              | EmptyString => false
              end
          end
      end
  end.

(** [re.match(pattern, stripped)] for some pattern. *)
Definition is_heading (stripped : string) : bool :=
  existsb (fun words => starts_with_words words (Workday.lower stripped))
          SECTION_PATTERNS.

(** The loop [for key, name in section_names.items()], from
    [current_section = "other"]. *)
Fixpoint section_of (lower : string) (names : list (string * string)) : string :=
  match names with
  | [] => "other"
  | (key, name) :: rest =>
      if String.prefix key lower then name else section_of lower rest
  end.

Definition newline : string := String Workday.LF EmptyString.

(** Saving a section: [content = "\n".join(current_lines).strip()], when
    there are lines and the content is not empty. *)
Definition save_section (sections : dict) (current_section : string)
    (current_lines : list string) : dict :=
  match current_lines with
  | [] => sections
  | _ =>
      let content := Workday.strip Workday.is_space (String.concat newline current_lines) in
      if String.eqb content "" then sections
      else setitem sections current_section (JStr content)
  end.

(** The loop over the lines. *)
Fixpoint scan_lines (lines : list string) (sections : dict) (current_section : string)
    (current_lines : list string) : dict :=
  match lines with
  | [] => save_section sections current_section current_lines
  | line :: rest =>
      let stripped := Workday.strip Workday.is_space line in
      if String.eqb stripped "" then
        scan_lines rest sections current_section (current_lines ++ [""])
      else if is_heading stripped then
        scan_lines rest (save_section sections current_section current_lines)
          (section_of (Workday.lower stripped) section_names) []
      else scan_lines rest sections current_section (current_lines ++ [stripped])
  end.

Definition parse_sections (text : string) : dict :=
  scan_lines (Workday.split Workday.LF text) [] "header" [].

Definition KNOWN_SKILLS : list string :=
  ["python"; "java"; "sql"; "matlab"; "r"; "c++"; "javascript";
   "machine learning"; "deep learning"; "nlp"; "natural language processing";
   "computer vision"; "reinforcement learning"; "llm"; "llms";
   "rag"; "retrieval augmented generation";
   "pytorch"; "tensorflow"; "scikit-learn"; "keras"; "transformers";
   "docker"; "kubernetes"; "aws"; "gcp"; "azure";
   "flask"; "django"; "fastapi";
   "tableau"; "power bi";
   "git"; "github";
   "pandas"; "numpy"; "scipy";
   "signal processing"; "time-series"; "time series";
   "cnn"; "lstm"; "rnn"; "bert"; "gpt"; "transformer";
   "xgboost"; "random forest";
   "data science"; "data engineering"; "data analysis";
   "api"; "rest"; "microservices"].

(** [sorted(set(found))]: the strings in ascending order, each once. *)
Fixpoint insert_sorted (s : string) (l : list string) : list string :=
  match l with
  | [] => [s]
  | x :: r =>
      match String.compare s x with
      | Lt => s :: l
      | Eq => l
      | Gt => x :: insert_sorted s r
      end
  end.

Definition sorted_set (found : list string) : list string :=
  fold_right insert_sorted [] found.

(** The text that is searched: the skills section in lower case when
    there is one, the whole text in lower case otherwise. *)
Definition search_text_of (text : string) (sections : json) : result string :=
  if truthy sections then
    match py_in "skills" sections with
    | Raise e => Raise e
    | Ok true =>
        skills ← Workday.subscript sections "skills";
        Usa.str_method Workday.lower skills
    | Ok false => Ok (Workday.lower text)
    end
  else Ok (Workday.lower text).

Definition extract_skills (text : string) (sections : json) : result (list string) :=
  search_text ← search_text_of text sections;
  let found := List.filter (fun skill => contains skill search_text) KNOWN_SKILLS in
  Ok (sorted_set found).

(** Each string is below the next one. *)
Fixpoint ascending (l : list string) : bool :=
  match l with
  | a :: (b :: _) as rest =>
      match String.compare a b with
      | Lt => ascending rest
      | _ => false
      end
  | _ => true
  end.

(** The names a section can have. *)
Definition SECTIONS : list string :=
  ["header"; "skills"; "experience"; "education"; "projects"; "certifications";
   "publications"; "summary"; "other"].

(** A resume of two lines of header, a skills section and an experience
    section. *)
Definition sample_resume : string :=
  String.concat newline
    ["Jane Doe"; "  jane@example.org "; ""; "Technical Skills:"; "Python, PyTorch";
     "SQL"; ""; "EXPERIENCE"; "Built REST services in Java"].

End ResumeParser.
(** ** Facts about crawler/workday.py *)

Module WorkdayFacts.
Import Workday.

(** *** Facts about the string functions *)

Lemma append_cons (c : ascii) (a b : string) :
  String c a +:+ b = String c (a +:+ b).
Proof. reflexivity. Qed.

Lemma append_empty_l (b : string) : "" +:+ b = b.
Proof. reflexivity. Qed.

Lemma append_assoc (a b c : string) : a +:+ b +:+ c = (a +:+ b) +:+ c.
Proof.
  induction a as [|k a IH]; [reflexivity|]. rewrite !append_cons, IH. reflexivity.
Qed.

Lemma span_append (p : ascii -> bool) (s a b : string) :
  span p s = (a, b) -> s = a +:+ b.
Proof.
  revert a b. induction s as [|c s IH]; intros a b H; cbn in H.
  - inversion H. reflexivity.
  - destruct (p c).
    + destruct (span p s) as [a' b'] eqn:E. inversion H; subst.
      rewrite append_cons. f_equal. apply IH. reflexivity.
    + inversion H. reflexivity.
Qed.

Lemma span_forall (p : ascii -> bool) (s a b : string) :
  span p s = (a, b) -> forall_chars p a = true.
Proof.
  revert a b. induction s as [|c s IH]; intros a b H; cbn in H.
  - inversion H. reflexivity.
  - destruct (p c) eqn:Pc.
    + destruct (span p s) as [a' b'] eqn:E. inversion H; subst.
      cbn. rewrite Pc. cbn. eapply IH. reflexivity.
    + inversion H. reflexivity.
Qed.

(** [span] stops exactly where the predicate first fails. *)
Lemma span_unique (p : ascii -> bool) (a c : string) (d : ascii) :
  forall_chars p a = true -> p d = false ->
  span p (a +:+ String d c) = (a, String d c).
Proof.
  induction a as [|x a IH]; intros Ha Hd.
  - rewrite append_empty_l. cbn. rewrite Hd. reflexivity.
  - cbn in Ha. apply andb_true_iff in Ha as [Hx Ha].
    rewrite append_cons. cbn. rewrite Hx, IH by assumption. reflexivity.
Qed.

Lemma span_all (p : ascii -> bool) (a : string) :
  forall_chars p a = true -> span p a = (a, "").
Proof.
  induction a as [|x a IH]; intros Ha; [reflexivity|].
  cbn in Ha. apply andb_true_iff in Ha as [Hx Ha].
  cbn. rewrite Hx, IH by assumption. reflexivity.
Qed.

Lemma strip_prefix_Some (pre s r : string) :
  strip_prefix pre s = Some r <-> s = pre +:+ r.
Proof.
  revert s. induction pre as [|c pre IH]; intros s; cbn.
  - rewrite append_empty_l. split; intros H; [inversion H|subst]; reflexivity.
  - rewrite append_cons. destruct s as [|d s].
    + split; intros H; discriminate.
    + destruct (Ascii.eqb_spec c d) as [->|Hne].
      * rewrite IH. split; intros H; [subst|inversion H]; reflexivity.
      * split; intros H; [discriminate|inversion H; congruence].
Qed.

Lemma prefix_append (n b : string) : String.prefix n (n +:+ b) = true.
Proof.
  induction n as [|c n IH]; [destruct b; reflexivity|].
  rewrite append_cons. cbn. destruct (ascii_dec c c); [exact IH|congruence].
Qed.

Lemma prefix_exists (n h : string) :
  String.prefix n h = true -> exists b, h = n +:+ b.
Proof.
  revert h. induction n as [|c n IH]; intros h H.
  - exists h. reflexivity.
  - destruct h as [|d h]; cbn in H; [discriminate|].
    destruct (ascii_dec c d) as [->|]; [|discriminate].
    destruct (IH _ H) as [b ->]. exists b. reflexivity.
Qed.

Lemma contains_unfold (n h : string) :
  contains n h =
  String.prefix n h || match h with "" => false | String _ h' => contains n h' end.
Proof. destruct h; reflexivity. Qed.

Lemma contains_spec (n h : string) :
  contains n h = true <-> exists a b, h = a +:+ n +:+ b.
Proof.
  split.
  - induction h as [|c h IH]; rewrite contains_unfold; intros H;
      apply orb_true_iff in H as [H|H];
      try (destruct (prefix_exists _ _ H) as [b Hb]; exists "", b; exact Hb).
    + discriminate.
    + destruct (IH H) as (a & b & ->). exists (String c a), b. reflexivity.
  - intros (a & b & ->). induction a as [|c a IH].
    + rewrite append_empty_l, contains_unfold, prefix_append. reflexivity.
    + rewrite append_cons, contains_unfold, IH. apply orb_true_r.
Qed.

Lemma forall_chars_append (p : ascii -> bool) (a b : string) :
  forall_chars p (a +:+ b) = forall_chars p a && forall_chars p b.
Proof.
  induction a as [|c a IH]; [reflexivity|].
  rewrite append_cons. cbn. rewrite IH. apply andb_assoc.
Qed.

Lemma forall_chars_drop_while (p q : ascii -> bool) (s : string) :
  forall_chars p s = true -> forall_chars p (drop_while q s) = true.
Proof.
  induction s as [|c s IH]; [reflexivity|]. intros H. cbn.
  destruct (q c); [|exact H].
  cbn in H. apply andb_true_iff in H as [_ H]. auto.
Qed.

Lemma forall_chars_drop_while_end (p q : ascii -> bool) (s : string) :
  forall_chars p s = true -> forall_chars p (drop_while_end q s) = true.
Proof.
  induction s as [|c s IH]; [reflexivity|]. intros H.
  cbn in H. apply andb_true_iff in H as [Hc H]. specialize (IH H). cbn.
  destruct (drop_while_end q s).
  - destruct (q c); cbn; [reflexivity|]. rewrite Hc. reflexivity.
  - cbn in *. rewrite Hc. exact IH.
Qed.

Lemma forall_chars_split (p : ascii -> bool) (sep : ascii) (s : string) :
  forall_chars p s = true -> Forall (fun x => forall_chars p x = true) (split sep s).
Proof.
  induction s as [|c s IH]; intros H.
  - repeat constructor.
  - cbn in H. apply andb_true_iff in H as [Hc H]. specialize (IH H). cbn.
    destruct (Ascii.eqb c sep).
    + constructor; [reflexivity|exact IH].
    + destruct (split sep s) as [|x xs].
      * repeat constructor. cbn. rewrite Hc. reflexivity.
      * inversion IH; subst. constructor; [|assumption].
        cbn. rewrite Hc. assumption.
Qed.

Lemma at_dollar_spec (s : string) :
  at_dollar s = true <-> s = "" \/ s = String LF "".
Proof.
  destruct s as [|c [|d s]]; cbn.
  - split; auto.
  - destruct (Ascii.eqb_spec c LF) as [->|Hne].
    + split; auto.
    + split; [discriminate|].
      intros [H|H]; [discriminate|inversion H; congruence].
  - split; [discriminate|intros [H|H]; discriminate].
Qed.

Lemma no_lf_at_dollar (a s : string) :
  no_lf (a +:+ s) -> at_dollar s = true -> s = "".
Proof.
  intros Hn Hd. apply at_dollar_spec in Hd as [->| ->]; [reflexivity|].
  unfold no_lf in Hn. rewrite forall_chars_append in Hn.
  apply andb_true_iff in Hn as [_ Hn]. cbn in Hn. discriminate.
Qed.

(** The matcher accepts exactly the strings of the regular expression. *)
Lemma tenant_match_spec (h t : string) :
  tenant_match h = Some t <->
  exists e, tenant_pattern_end h t e /\ at_dollar e = true.
Proof.
  unfold tenant_match, tenant_pattern_end. split.
  - destruct (span (fun c => negb (is_dot c)) h) as [t' r1] eqn:E1.
    destruct (String.eqb_spec t' "") as [|Ht]; [discriminate|].
    destruct (strip_prefix ".wd" r1) as [r2|] eqn:E2; [|discriminate].
    destruct (span is_digit r2) as [ds r3] eqn:E3.
    destruct (String.eqb_spec ds "") as [|Hd]; [discriminate|].
    destruct (strip_prefix ".myworkdayjobs.com" r3) as [r4|] eqn:E4; [|discriminate].
    destruct (at_dollar r4) eqn:E5; [|discriminate].
    intros [= <-]. exists r4. split; [|exact E5]. exists ds.
    apply strip_prefix_Some in E2, E4.
    pose proof (span_append _ _ _ _ E1). pose proof (span_append _ _ _ _ E3).
    pose proof (span_forall _ _ _ _ E1). pose proof (span_forall _ _ _ _ E3).
    subst. repeat split; assumption.
  - intros (e & (ds & -> & Ht & Hnd & Hd & Hds) & He).
    change (".wd" +:+ ds +:+ ".myworkdayjobs.com" +:+ e)
      with (String "." ("wd" +:+ ds +:+ ".myworkdayjobs.com" +:+ e)).
    rewrite span_unique by (assumption || reflexivity).
    destruct (String.eqb_spec t "") as [|_]; [contradiction|].
    change (String "." ("wd" +:+ ds +:+ ".myworkdayjobs.com" +:+ e))
      with (".wd" +:+ (ds +:+ ".myworkdayjobs.com" +:+ e)).
    replace (strip_prefix ".wd" (".wd" +:+ (ds +:+ ".myworkdayjobs.com" +:+ e)))
      with (Some (ds +:+ ".myworkdayjobs.com" +:+ e))
      by (symmetry; apply strip_prefix_Some; reflexivity).
    change (".myworkdayjobs.com" +:+ e)
      with (String "." ("myworkdayjobs.com" +:+ e)).
    rewrite span_unique by (assumption || reflexivity).
    destruct (String.eqb_spec ds "") as [|_]; [contradiction|].
    change (String "." ("myworkdayjobs.com" +:+ e))
      with (".myworkdayjobs.com" +:+ e).
    replace (strip_prefix ".myworkdayjobs.com" (".myworkdayjobs.com" +:+ e))
      with (Some e) by (symmetry; apply strip_prefix_Some; reflexivity).
    rewrite He. reflexivity.
Qed.

Lemma tenant_match_no_lf (h t : string) :
  no_lf h -> (tenant_match h = Some t <-> tenant_pattern h t).
Proof.
  intros Hn. rewrite tenant_match_spec. unfold tenant_pattern. split.
  - intros (e & Hp & He).
    assert (e = "") as ->; [|exact Hp].
    destruct Hp as (ds & Hh & _). rewrite Hh in Hn.
    rewrite 3!append_assoc in Hn. exact (no_lf_at_dollar _ _ Hn He).
  - intros Hp. exists "". split; [exact Hp|reflexivity].
Qed.

Lemma tenant_pattern_on_domain (h t : string) :
  tenant_pattern h t -> on_platform_domain (Some h).
Proof.
  intros (ds & -> & _). eexists _, (t +:+ ".wd" +:+ ds +:+ "."), "".
  split; [reflexivity|]. rewrite <- !append_assoc. reflexivity.
Qed.

Lemma is_locale_spec (p : string) :
  no_lf p -> (is_locale p = true <-> locale_segment p).
Proof.
  intros Hn. unfold locale_segment. split.
  - destruct p as [|a [|b [|h [|c [|d r]]]]]; cbn; try discriminate.
    intros H. rewrite !andb_true_iff in H.
    destruct H as (((((Ha & Hb) & Hh) & Hc) & Hd) & Hr).
    apply Ascii.eqb_eq in Hh. subst h.
    assert (r = "") as ->.
    { exact (no_lf_at_dollar
               (String a (String b (String "-" (String c (String d ""))))) r Hn Hr). }
    exists a, b, c, d. repeat split; assumption.
  - intros (a & b & c & d & -> & Ha & Hb & Hc & Hd). cbn.
    rewrite Ha, Hb, Hc, Hd. reflexivity.
Qed.

Lemma filter_head {A} (f : A -> bool) (l : list A) (x : A) (r : list A) :
  List.filter f l = x :: r ->
  exists skipped rest, l = skipped ++ x :: rest
    /\ Forall (fun y => f y = false) skipped /\ f x = true.
Proof.
  induction l as [|y l IH]; cbn; [discriminate|].
  destruct (f y) eqn:Fy.
  - intros [= -> <-]. exists [], l. repeat split; [constructor|assumption].
  - intros H. destruct (IH H) as (sk & rest & -> & Hsk & Hx).
    exists (y :: sk), rest. repeat split; [constructor|]; assumption.
Qed.

Lemma filter_empty {A} (f : A -> bool) (l : list A) :
  List.filter f l = [] -> Forall (fun y => f y = false) l.
Proof.
  induction l as [|y l IH]; cbn; [constructor|].
  destruct (f y) eqn:Fy; [discriminate|]. constructor; auto.
Qed.

Lemma path_segments_no_lf (pth : string) :
  no_lf pth -> Forall no_lf (path_segments pth).
Proof.
  intros H. unfold path_segments, strip.
  apply List.Forall_forall. intros x Hx. apply List.filter_In in Hx as [Hx _].
  revert x Hx. apply List.Forall_forall.
  apply forall_chars_split, forall_chars_drop_while_end, forall_chars_drop_while, H.
Qed.

Example parse_adobe :
  parse_workday_url urlparse_simple
    "https://adobe.wd5.myworkdayjobs.com/en-US/external_experienced?q=foo"
  = Ok (Some {| host := "adobe.wd5.myworkdayjobs.com"; tenant := "adobe";
                site := "external_experienced" |}).
Proof. reflexivity. Qed.

Example parse_other_domain :
  parse_workday_url urlparse_simple "https://jobs.example.com/en-US/site" = Ok None.
Proof. reflexivity. Qed.

Example parse_locale_only :
  parse_workday_url urlparse_simple " https://adobe.wd5.myworkdayjobs.com/en-US/ " = Ok None.
Proof. reflexivity. Qed.


(** *** The site resolver *)

Lemma parse_workday_url_cases (urlparse : string -> result url_parts)
    (url : string) (parts : url_parts) :
  urlparse (strip is_space url) = Ok parts ->
  parse_workday_url urlparse url =
  match hostname parts with
  | None => Ok None
  | Some h =>
      if String.eqb h "" || negb (contains "myworkdayjobs.com" h) then Ok None
      else match tenant_match h with
           | None => Ok None
           | Some t =>
               match List.filter (fun p => negb (is_locale p))
                                 (path_segments (path parts)) with
               | [] => Ok None
               | s :: _ => Ok (Some {| host := h; tenant := t; site := s |})
               end
           end
  end.
Proof. intros H. unfold parse_workday_url. rewrite H. reflexivity. Qed.

(** C7. The resolver is a function of the URL alone.  When [urlparse]
    rejects the URL its exception is the resolver's failure.  Otherwise
    (the parsed host name and path hold no line feed, which [urlparse]
    removes) it returns no coordinates exactly when the host name is not on
    the platform's domain, or does not match the tenant pattern, or every
    path segment is a locale segment; in every other case it returns the
    subdomain prefix as tenant and the first non-locale path segment as
    site.  For [https://acme.wdX.myworkdayjobs.com/en-US/external_site?q=1]
    (X any digits) the answer is tenant [acme], site [external_site]. *)
Theorem parse_workday_url_contract (urlparse : string -> result url_parts)
    (url : string) (parts : url_parts) :
  urlparse (strip is_space url) = Ok parts ->
  (forall h, hostname parts = Some h -> no_lf h) ->
  no_lf (path parts) ->
  let r := parse_workday_url urlparse url in
  (r = Ok None <->
     ~ on_platform_domain (hostname parts)
     \/ ~ matches_tenant_pattern (hostname parts)
     \/ Forall locale_segment (path_segments (path parts)))
  /\ (r <> Ok None ->
      exists h t skipped s rest,
        hostname parts = Some h /\ tenant_pattern h t
        /\ path_segments (path parts) = skipped ++ s :: rest
        /\ Forall locale_segment skipped /\ ~ locale_segment s
        /\ r = Ok (Some {| host := h; tenant := t; site := s |}))
  /\ (forall X : string,
        X <> "" -> forall_chars is_digit X = true ->
        url = "https://acme.wd" +:+ X +:+ ".myworkdayjobs.com/en-US/external_site?q=1" ->
        hostname parts = Some ("acme.wd" +:+ X +:+ ".myworkdayjobs.com") ->
        path parts = "/en-US/external_site" ->
        r = Ok (Some {| host := "acme.wd" +:+ X +:+ ".myworkdayjobs.com";
                        tenant := "acme"; site := "external_site" |})).
Proof.
  intros Hparse Hh Hp r.
  assert (Hr : r = _) by exact (parse_workday_url_cases _ _ _ Hparse).
  clearbody r.
  (* the computed answer, by cases *)
  assert (Hsome :
    r <> Ok None ->
    exists h t skipped s rest,
      hostname parts = Some h /\ tenant_pattern h t
      /\ path_segments (path parts) = skipped ++ s :: rest
      /\ Forall locale_segment skipped /\ ~ locale_segment s
      /\ r = Ok (Some {| host := h; tenant := t; site := s |})).
  { intros Hne. rewrite Hr in Hne |- *.
    destruct (hostname parts) as [h|] eqn:Eh; [|congruence].
    specialize (Hh h eq_refl).
    destruct (String.eqb h "" || negb (contains "myworkdayjobs.com" h)); [congruence|].
    destruct (tenant_match h) as [t|] eqn:Et; [|congruence].
    destruct (List.filter _ _) as [|s l] eqn:Ef; [congruence|].
    apply filter_head in Ef as (sk & rest & Eseg & Hsk & Hs).
    pose proof (path_segments_no_lf _ Hp) as Hnl. rewrite Eseg in Hnl.
    apply Forall_app in Hnl as [Hnl1 Hnl2]. inversion Hnl2; subst.
    exists h, t, sk, s, rest. repeat split; try assumption.
    - apply tenant_match_no_lf; assumption.
    - clear -Hsk Hnl1. induction Hsk; inversion Hnl1; subst; constructor; auto.
      apply is_locale_spec; [assumption|]. apply negb_false_iff. assumption.
    - intros Hl. apply is_locale_spec in Hl; [|assumption].
      rewrite Hl in Hs. discriminate. }
  split; [|split; [exact Hsome|]].
  - split.
    + intros Hnone. rewrite Hr in Hnone.
      destruct (hostname parts) as [h|] eqn:Eh.
      2:{ left. intros (s & a & b & Hs & _). discriminate. }
      specialize (Hh h eq_refl).
      destruct (String.eqb h "" || negb (contains "myworkdayjobs.com" h)) eqn:Ec.
      { left. intros (s & a & b & [= <-] & Hs).
        apply orb_true_iff in Ec as [Ec|Ec].
        - apply String.eqb_eq in Ec. subst h. destruct a; discriminate.
        - apply negb_true_iff in Ec.
          assert (contains "myworkdayjobs.com" h = true) by (apply contains_spec; eauto).
          congruence. }
      destruct (tenant_match h) as [t|] eqn:Et.
      2:{ right; left. intros (s & t & [= <-] & Ht).
          apply tenant_match_no_lf in Ht; [congruence|assumption]. }
      destruct (List.filter _ _) as [|s l] eqn:Ef; [|discriminate].
      right; right. apply filter_empty in Ef.
      pose proof (path_segments_no_lf _ Hp) as Hnl.
      clear -Ef Hnl. induction Ef; inversion Hnl; subst; constructor; auto.
      apply is_locale_spec; [assumption|]. apply negb_false_iff. assumption.
    + intros Hcond. assert (r = Ok None \/ r <> Ok None) as [|Hne];
        [destruct r as [[c|]|e]; auto; right; discriminate|assumption|].
      destruct (Hsome Hne) as (h & t & sk & s & rest & Eh & Ht & Eseg & Hsk & Hs & _).
      destruct Hcond as [Hc|[Hc|Hc]].
      * exfalso. apply Hc. rewrite Eh. eapply tenant_pattern_on_domain; eassumption.
      * exfalso. apply Hc. exists h, t. auto.
      * exfalso. rewrite Eseg in Hc. apply Forall_app in Hc as [_ Hc].
        inversion Hc; subst. contradiction.
  - intros X HX HdX -> Ehost Epath. rewrite Hr, Ehost, Epath.
    assert (Hm : tenant_match ("acme.wd" +:+ X +:+ ".myworkdayjobs.com") = Some "acme").
    { apply tenant_match_spec. exists "". split; [|reflexivity].
      exists X. repeat split; try assumption; try discriminate. }
    assert (Hc : contains "myworkdayjobs.com"
                   ("acme.wd" +:+ X +:+ ".myworkdayjobs.com") = true).
    { apply contains_spec. exists ("acme.wd" +:+ X +:+ "."), "".
      rewrite <- !append_assoc. reflexivity. }
    rewrite Hm, Hc. reflexivity.
Qed.
(** *** The retrying client *)

Lemma sleep_then {A} (q : Q) (k : M A) (w : world) :
  (sleep q;; k) w =
  k {| net := net w; sent := sent w; trace := trace w ++ [Slept q] |}.
Proof. reflexivity. Qed.

Lemma retry_attempts_cons (req : request) (attempt : nat) (rest : list nat) (w : world) :
  retry_attempts req (attempt :: rest) w =
  let w1 := {| net := net w; sent := S (sent w); trace := trace w ++ [Sent req] |} in
  let w2 := {| net := net w; sent := S (sent w);
               trace := trace w ++ [Sent req; Slept (backoff attempt)] |} in
  match net w (sent w) with
  | Answer s reason body =>
      if (400 <=? s) && (s <? 600) then
        if (s =? 429) || (500 <=? s) then retry_attempts req rest w2
        else (Raise (HTTPError s reason), w1)
      else (Ok body, w1)
  | TransportFailure msg =>
      if (attempt =? MAX_RETRIES - 1)%nat then (Raise (RequestException msg), w2)
      else retry_attempts req rest w2
  end.
Proof.
  cbn. destruct (net w (sent w)) as [s reason body|msg]; cbn.
  - unfold raise_for_status. destruct ((400 <=? s) && (s <? 600)); cbn; [|reflexivity].
    destruct ((s =? 429) || (500 <=? s)); [|reflexivity].
    rewrite sleep_then. cbn. rewrite <- app_assoc. reflexivity.
  - rewrite sleep_then. cbn. rewrite <- app_assoc.
    destruct (attempt =? 2)%nat; reflexivity.
Qed.

Lemma world_eq (w : world) (n : nat -> wire) (s : nat) (t : list event) :
  net w = n -> sent w = s -> trace w = t -> w = {| net := n; sent := s; trace := t |}.
Proof. destruct w; cbn; intros; subst; reflexivity. Qed.

(** The whole behaviour of the client, as a decision on the answers to
    its three attempts. *)
Lemma request_with_retry_run (m u : string) (p : option json) (w : world) :
  let req := request_of m u p in
  let a := fun k => net w (sent w + k)%nat in
  _request_with_retry m u p w =
  if retryable (a 0%nat) then
    if retryable (a 1%nat) then
      if retryable (a 2%nat) then (exhausted (a 2%nat), after_attempts req w 3)
      else (settled (a 2%nat), after_attempts req w 3)
    else (settled (a 1%nat), after_attempts req w 2)
  else (settled (a 0%nat), after_attempts req w 1).
Proof.
  intros req a. unfold _request_with_retry. fold (request_of m u p). fold req.
  change (seq 0 MAX_RETRIES) with [0; 1; 2]%nat.
  unfold after_attempts, attempts_trace. subst a. cbn [concat map seq]. cbn beta.
  replace (sent w + 0)%nat with (sent w) by lia.
  replace (sent w + 1)%nat with (S (sent w)) by lia.
  replace (sent w + 2)%nat with (S (S (sent w))) by lia.
  replace (sent w + 3)%nat with (S (S (S (sent w)))) by lia.
  rewrite retry_attempts_cons; cbn zeta; simpl (_ =? MAX_RETRIES - 1)%nat.
  destruct (net w (sent w)) as [s0 r0 b0|m0]; cbn [retryable settled];
    [destruct ((400 <=? s0) && (s0 <? 600)); cbn [andb];
     [destruct ((s0 =? 429) || (500 <=? s0))|]|];
    try reflexivity.
  all: rewrite retry_attempts_cons; cbn zeta; simpl (_ =? MAX_RETRIES - 1)%nat;
    cbn [net sent trace].
  all: destruct (net w (S (sent w))) as [s1 r1 b1|m1]; cbn [retryable settled];
    [destruct ((400 <=? s1) && (s1 <? 600)); cbn [andb];
     [destruct ((s1 =? 429) || (500 <=? s1))|]|];
    try (cbn; rewrite <- ?app_assoc; reflexivity).
  all: rewrite retry_attempts_cons; cbn zeta; simpl (_ =? MAX_RETRIES - 1)%nat;
    cbn [net sent trace].
  all: destruct (net w (S (S (sent w)))) as [s2 r2 b2|m2];
    cbn [retryable settled exhausted];
    [destruct ((400 <=? s2) && (s2 <? 600)); cbn [andb];
     [destruct ((s2 =? 429) || (500 <=? s2))|]|];
    try (cbn; rewrite <- ?app_assoc; reflexivity).
Qed.

Lemma retryable_503 (reason : string) (body : json) :
  retryable (Answer 503 reason body) = true.
Proof. reflexivity. Qed.

Lemma not_retryable_4xx (s : Z) (reason : string) (body : json) :
  400 <= s < 500 -> s <> 429 ->
  retryable (Answer s reason body) = false
  /\ settled (Answer s reason body) = Raise (HTTPError s reason).
Proof.
  intros Hs Hn. cbn.
  replace (400 <=? s) with true by (symmetry; apply Z.leb_le; lia).
  replace (s <? 600) with true by (symmetry; apply Z.ltb_lt; lia).
  replace (s =? 429) with false by (symmetry; apply Z.eqb_neq; lia).
  replace (500 <=? s) with false by (symmetry; apply Z.leb_gt; lia).
  split; reflexivity.
Qed.

(** C4. The client makes at least one and at most three attempts.  A
    further attempt follows only an attempt that failed with HTTP 429, an
    HTTP error status of 500 or more, or a transport-level failure, and such
    a failure of the first or second attempt is always retried.  Every
    attempt that failed in this way is followed by a sleep of [2^k * 2]
    seconds, [k] the attempt's index from 0, and nothing else is sent or
    slept.  When every attempt is answered by HTTP 503, exactly three
    attempts are made, with 2 seconds before the second and 4 seconds
    before the third.  Any other 4xx status on the first attempt raises
    the [HTTPError] of that status at once. *)
Theorem request_with_retry_policy (m u : string) (p : option json) (w : world) :
  let req := request_of m u p in
  let a := fun k => net w (sent w + k)%nat in
  let r := fst (_request_with_retry m u p w) in
  let w' := snd (_request_with_retry m u p w) in
  let n := (sent w' - sent w)%nat in
  (1 <= n <= 3)%nat
  /\ (forall k, (S k < n)%nat -> retryable (a k) = true)
  /\ (forall k, (k < n)%nat -> (k < 2)%nat -> retryable (a k) = true -> (S k < n)%nat)
  /\ trace w' = trace w ++ attempts_trace req a n
  /\ ((forall k, exists reason body, a k = Answer 503 reason body) ->
      n = 3%nat
      /\ trace w' = trace w ++ [Sent req; Slept (2 # 1); Sent req; Slept (4 # 1);
                                Sent req; Slept (8 # 1)])
  /\ (forall s reason body,
        a 0%nat = Answer s reason body -> 400 <= s < 500 -> s <> 429 ->
        r = Raise (HTTPError s reason) /\ n = 1%nat
        /\ trace w' = trace w ++ [Sent req]).
Proof.
  intros req a r w' n. subst r w' n a. cbv beta.
  rewrite request_with_retry_run. fold req.
  assert (Hsub : forall k, (sent w + k - sent w)%nat = k) by (intros; lia).
  assert (H503 : forall k,
    (forall k, exists reason body, net w (sent w + k)%nat = Answer 503 reason body) ->
    retryable (net w (sent w + k)%nat) = true).
  { intros k H. destruct (H k) as (reason & body & ->). reflexivity. }
  destruct (retryable (net w (sent w + 0)%nat)) eqn:R0;
    [destruct (retryable (net w (sent w + 1)%nat)) eqn:R1;
     [destruct (retryable (net w (sent w + 2)%nat)) eqn:R2|]|];
    cbn [fst snd after_attempts sent trace]; rewrite !Hsub;
    unfold attempts_trace; cbn [concat map seq app]; rewrite ?R0, ?R1, ?R2;
    (split; [lia|]);
    (split; [intros [|[|[|k]]] Hk; (assumption || lia)|]);
    (split; [intros [|[|[|k]]] Hk Hk2 Hr; (lia || congruence)|]);
    (split; [reflexivity|]);
    (split;
     [intros H; try (split; reflexivity);
      try (specialize (H503 0%nat H); congruence);
      try (specialize (H503 1%nat H); congruence);
      try (specialize (H503 2%nat H); congruence)|]).
  all: intros s reason body E0 Hs Hn;
    destruct (not_retryable_4xx s reason body Hs Hn) as [Hr Hset];
    rewrite E0 in *; try congruence.
  repeat split. exact Hset.
Qed.

(** C5, as stated, fails: when HTTP 503 answers all three attempts the
    call raises nothing and returns [None]. *)
Lemma request_with_retry_503_returns_none :
  let w := fresh (fun _ => Answer 503 "Service Unavailable" JNull) in
  let run := _request_with_retry "GET" "https://acme.wd5.myworkdayjobs.com/wday/cxs/acme/jobs/job/R1" None w in
  (forall k, (k < 3)%nat -> retryable (net w (sent w + k)%nat) = true)
  /\ fst run = Ok JNull
  /\ ~ (exists e, fst run = Raise e).
Proof.
  cbv zeta. split; [intros k _; reflexivity|].
  split; [reflexivity|]. intros [e He]. vm_compute in He. discriminate.
Qed.

(** C5 (amended). When a retryable failure answers each of the three
    attempts, the client makes exactly three attempts and returns no
    response body: it raises the exception of the third attempt when that
    one failed at transport level, and returns [None], raising nothing, when
    the third attempt was answered by HTTP 429 or a status of 500 or more. *)
Theorem request_with_retry_exhausted (m u : string) (p : option json) (w : world) :
  (forall k, (k < 3)%nat -> retryable (net w (sent w + k)%nat) = true) ->
  let r := fst (_request_with_retry m u p w) in
  let w' := snd (_request_with_retry m u p w) in
  sent w' = (sent w + 3)%nat
  /\ (forall msg, net w (sent w + 2)%nat = TransportFailure msg ->
      r = Raise (RequestException msg))
  /\ (forall status reason body, net w (sent w + 2)%nat = Answer status reason body ->
      r = Ok JNull)
  /\ (forall j, r = Ok j -> j = JNull).
Proof.
  intros H r w'. subst r w'. rewrite request_with_retry_run. cbv zeta.
  rewrite !H by lia. cbn [fst snd after_attempts sent].
  split; [reflexivity|].
  destruct (net w (sent w + 2)%nat) as [st reason body|msg]; cbn [exhausted].
  - split; [discriminate|]. split; [reflexivity|]. intros j [= <-]. reflexivity.
  - split; [intros ? [= <-]; reflexivity|]. split; discriminate.
Qed.
(** *** Listing pagination *)

Lemma sort_postings_dicts (items today_jobs : list json) (seen : nat) :
  forallb is_dict items = true ->
  sort_postings items today_jobs seen =
  Ok (today_jobs ++ List.filter posted_today items,
      (seen + length (List.filter (fun j => negb (posted_today j)) items))%nat).
Proof.
  revert today_jobs seen. induction items as [|j items IH]; intros tj seen H.
  - cbn. rewrite app_nil_r, Nat.add_0_r. reflexivity.
  - cbn in H. apply andb_true_iff in H as [Hj H].
    destruct j as [| | | | |d]; try discriminate. cbn [sort_postings dot_get].
    assert (E : eq_str (get_default d "postedOn" (JStr "")) "Posted Today"
                = posted_today (JObj d)).
    { unfold posted_today, get, get_default.
      destruct (lookup_key "postedOn" d); reflexivity. }
    rewrite E. cbn [List.filter]. destruct (posted_today (JObj d)); cbn [negb].
    + rewrite IH by assumption. rewrite <- app_assoc. reflexivity.
    + rewrite IH by assumption. cbn [length]. f_equal. f_equal. lia.
Qed.

Lemma fetch_listings_answered (h t s q : string) (limit off : Z) (w : world)
    (reason : string) (body : json) (status : Z) :
  net w (sent w) = Answer status reason body ->
  (400 <=? status) && (status <? 600) = false ->
  exists req,
    fetch_listings h t s q limit off w =
    (Ok body, {| net := net w; sent := S (sent w); trace := trace w ++ [Sent req] |}).
Proof.
  intros H Hs. eexists. unfold fetch_listings, _request_with_retry.
  change (seq 0 MAX_RETRIES) with [0; 1; 2]%nat.
  rewrite retry_attempts_cons. cbn zeta. rewrite H, Hs. reflexivity.
Qed.

Lemma count_zero_forallb (items : list json) :
  (length (List.filter posted_today items) =? 0)%nat
  = forallb (fun j => negb (posted_today j)) items.
Proof.
  induction items as [|j items IH]; [reflexivity|].
  cbn. destruct (posted_today j); cbn; [reflexivity|exact IH].
Qed.

Section Served.

Variables (h t s q : string) (ps total : Z) (cb : bool).
Variable pages : list (list json).
Hypothesis ps_pos : 0 < ps.
Hypothesis dicts : forall k, forallb is_dict (nth k pages []) = true.

(** One iteration at the [i]-th page, on a platform that serves [pages]:
    the loop ends there when a stop condition holds, and goes on to the
    next page otherwise. *)
Lemma pager_step_served (i fuel : nat) (st : pager) (w : world) :
  net w = serve total pages -> sent w = i ->
  offset st = Z.of_nat i * ps ->
  (Workday.total st = JNull \/ Workday.total st = JNum total) ->
  let items := nth i pages [] in
  let found := today_jobs st ++ List.filter posted_today items in
  exists w' seen',
    sent w' = S i /\ net w' = net w
    /\ pager_loop h t s q ps cb (S fuel) st w =
       if stops_at ps total i items then Some (Ok found, w')
       else pager_loop h t s q ps cb fuel
              {| today_jobs := found; offset := Z.of_nat (S i) * ps;
                 Workday.total := JNum total; seen_non_today := seen' |} w'.
Proof.
  intros Hnet Hsent Hoff Htot items found.
  destruct (fetch_listings_answered h t s q ps (offset st) w "OK"
              (page_body total items) 200) as [req Hreq];
    [rewrite Hnet, Hsent; reflexivity|reflexivity|].
  cbn [pager_loop]. rewrite Hreq.
  cbn [truthy page_body negb py_in lookup_key String.eqb Ascii.eqb Bool.eqb andb
       subscript getitem].
  assert (Etot : learn_total (Workday.total st) (page_body total items)
                 = Ok (JNum total))
    by (destruct Htot as [-> | ->]; reflexivity).
  rewrite Etot. cbn [mbind result_bind rbind].
  unfold stops_at, found. specialize (dicts i). fold items in dicts.
  destruct items as [|x l] eqn:Eit.
  - cbn. rewrite app_nil_r. eexists _, 0%nat. split; [|split]; [| |reflexivity].
    + cbn. congruence.
    + reflexivity.
  - cbn [truthy negb iterate mbind result_bind rbind].
    rewrite sort_postings_dicts by assumption.
    cbn [mbind result_bind rbind orb int_ge]. rewrite count_zero_forallb.
    replace (ps <? offset st + ps) with (0 <? i)%nat.
    2:{ rewrite Hoff. destruct i as [|i'].
        - cbn. symmetry. apply Z.ltb_ge. lia.
        - change (0 <? S i')%nat with true. symmetry. apply Z.ltb_lt. nia. }
    replace (offset st + ps) with ((Z.of_nat i + 1) * ps) by (rewrite Hoff; ring).
    replace (Z.of_nat (S i) * ps) with ((Z.of_nat i + 1) * ps) by lia.
    set (b1 := forallb (fun j => negb (posted_today j)) (x :: l)).
    set (b2 := (0 <? i)%nat).
    set (c := total <=? (Z.of_nat i + 1) * ps).
    destruct b1, b2, c; cbn [andb orb];
      (eexists _, _; split; [|split]; [| |reflexivity];
       [destruct cb; cbn; congruence|destruct cb; reflexivity]).
    Unshelve. all: exact 0%nat.
Qed.

(** The run from the [i]-th page on, when the first page that meets a
    stop condition is the page [i + d]. *)
Lemma pager_loop_served (d : nat) :
  forall (i fuel : nat) (st : pager) (w : world),
    (d < fuel)%nat ->
    net w = serve total pages -> sent w = i ->
    offset st = Z.of_nat i * ps ->
    (Workday.total st = JNull \/ Workday.total st = JNum total) ->
    (forall j, (i <= j < i + d)%nat -> stops_at ps total j (nth j pages []) = false) ->
    stops_at ps total (i + d) (nth (i + d) pages []) = true ->
    exists w',
      pager_loop h t s q ps cb fuel st w =
      Some (Ok (today_jobs st ++
                concat (map (fun j => List.filter posted_today (nth j pages []))
                            (seq i (S d)))), w')
      /\ sent w' = S (i + d).
Proof.
  induction d as [|d IH]; intros i fuel st w Hfuel Hnet Hsent Hoff Htot Hgo Hstop;
    (destruct fuel as [|fuel]; [lia|]);
    destruct (pager_step_served i fuel st w Hnet Hsent Hoff Htot)
      as (w1 & seen1 & Hs1 & Hn1 & Hrun); cbv zeta in Hrun; rewrite Hrun.
  - rewrite Nat.add_0_r in Hstop. rewrite Hstop. exists w1.
    cbn [seq map concat]. rewrite app_nil_r, Nat.add_0_r. auto.
  - rewrite (Hgo i) by lia.
    edestruct (IH (S i) fuel) as (w' & Hrun' & Hs'); [lia| | | | | | |].
    7:{ exists w'. rewrite Hrun'. cbn [today_jobs].
        change (seq i (S (S d))) with (i :: seq (S i) (S d)).
        cbn [map concat]. rewrite <- app_assoc. split; [reflexivity|].
        rewrite Hs'. lia. }
    + congruence.
    + assumption.
    + reflexivity.
    + right. reflexivity.
    + intros j Hj. apply Hgo. lia.
    + replace (S i + d)%nat with (i + S d)%nat by lia. assumption.
Qed.

End Served.

Lemma first_true (P : nat -> bool) (n : nat) :
  P n = true ->
  exists k, (k <= n)%nat /\ P k = true /\ forall j, (j < k)%nat -> P j = false.
Proof.
  revert P. induction n as [|n IH]; intros P Hn.
  - exists 0%nat. split; [lia|]. split; [exact Hn|]. intros j Hj. lia.
  - destruct (P 0%nat) eqn:P0.
    + exists 0%nat. split; [lia|]. split; [exact P0|]. intros j Hj. lia.
    + destruct (IH (fun k => P (S k)) Hn) as [k [Hk [Pk Hlt]]].
      exists (S k). split; [lia|]. split; [exact Pk|].
      intros [|j] Hj; [exact P0|]. apply Hlt. lia.
Qed.

(** Every finite sequence of pages has a first page at which the
    pagination stops: at the latest the empty page after the last. *)
Lemma first_stop_exists (ps total : Z) (pages : list (list json)) :
  exists k, (k <= length pages)%nat
    /\ stops_at ps total k (nth k pages []) = true
    /\ forall j, (j < k)%nat -> stops_at ps total j (nth j pages []) = false.
Proof.
  apply (first_true (fun k => stops_at ps total k (nth k pages []))).
  rewrite nth_overflow by lia. reflexivity.
Qed.

Lemma no_today_forallb (items : list json) :
  List.filter posted_today items = [] ->
  forallb (fun j => negb (posted_today j)) items = true.
Proof. intros H. rewrite <- count_zero_forallb, H. reflexivity. Qed.


Lemma fetch_listings_run (h t s q : string) (limit off : Z) (w : world) :
  (forall k, (k < 3)%nat -> retryable (net w (sent w + k)%nat) = true) ->
  exists w', fetch_listings h t s q limit off w = (exhausted (net w (sent w + 2)%nat), w')
             /\ sent w' = (sent w + 3)%nat.
Proof.
  intros H. unfold fetch_listings. rewrite request_with_retry_run. cbv zeta.
  rewrite !H by lia. eexists. split; reflexivity.
Qed.

(** C6, as stated, fails: after a first page with one stub, three
    transport failures of the second page request make the pagination raise;
    the stub of the first page is not returned. *)
Lemma fetch_all_listings_transport_failure_raises :
  let answers := fun k => match k with
                          | O => Answer 200 "OK" (page_body 100 [one_stub])
                          | _ => TransportFailure "Read timed out"
                          end in
  (forall k, (k < 3)%nat -> retryable (answers (1 + k)%nat) = true)
  /\ (forall fuel, (1 < fuel)%nat ->
      fst <$> fetch_all_listings "acme.wd5.myworkdayjobs.com" "acme" "jobs" "" 20 true
                fuel (fresh answers)
      = Some (Raise (RequestException "Read timed out"))).
Proof.
  cbv zeta. split; [intros k _; reflexivity|].
  intros [|[|fuel]] H; [lia|lia|]. reflexivity.
Qed.

(** C6 (amended). In a pagination that has collected [today_jobs st], when
    a retryable failure answers each of the three attempts of the next page
    request: if the third attempt was answered by an HTTP status (429, or
    500 and more), the client returns [None] and the pagination returns the
    stubs collected so far as its normal result; if the third attempt failed
    at transport level, the client's exception leaves the pagination and
    reaches its caller. *)
Theorem pager_loop_page_failure (h t s q : string) (ps : Z) (cb : bool)
    (fuel : nat) (st : pager) (w : world) :
  (forall k, (k < 3)%nat -> retryable (net w (sent w + k)%nat) = true) ->
  let run := pager_loop h t s q ps cb (S fuel) st w in
  (forall status reason body,
      net w (sent w + 2)%nat = Answer status reason body ->
      fst <$> run = Some (Ok (today_jobs st)))
  /\ (forall msg,
        net w (sent w + 2)%nat = TransportFailure msg ->
        fst <$> run = Some (Raise (RequestException msg)))
  /\ (exists r w', run = Some (r, w') /\ sent w' = (sent w + 3)%nat).
Proof.
  intros H run. subst run.
  destruct (fetch_listings_run h t s q ps (offset st) w H) as (w' & Hrun & Hs).
  cbn [pager_loop]. rewrite Hrun.
  destruct (net w (sent w + 2)%nat) as [status reason body|msg]; cbn [exhausted].
  - cbn. split; [reflexivity|]. split; [discriminate|]. eauto.
  - cbn. split; [discriminate|]. split; [intros ? [= <-]; reflexivity|]. eauto.
Qed.
(** *** Detail enrichment *)

Ltac munfold :=
  unfold mbind, M_bind, bind, mret, M_ret, ret, lift, raise; cbn beta iota.

Lemma date_eqb_eq (a b : date) : date_eqb a b = true <-> a = b.
Proof.
  destruct a as [y m d], b as [y' m' d']. unfold date_eqb. cbn.
  rewrite !andb_true_iff, !Z.eqb_eq. split.
  - intros [[-> ->] ->]. reflexivity.
  - intros [= -> -> ->]. auto.
Qed.

Lemma setitem_nonempty (d : dict) (k : string) (v : json) : setitem d k v <> [].
Proof. destruct d as [|[k' v'] d]; cbn; [|destruct (String.eqb k k')]; discriminate. Qed.

Section EnricherFacts.

Variable soup : json -> result string.
Variable iso : string -> option date.

Lemma fetch_job_detail_nonempty (h t s : string) (path : json) (w w1 : world)
    (detail : dict) :
  fetch_job_detail soup h t s path w = (Ok (Some detail), w1) -> detail <> [].
Proof.
  unfold fetch_job_detail. munfold.
  destruct (lstrip_slash path) as [p|e]; [|discriminate].
  match goal with
  | |- context [_request_with_retry ?a ?b ?c ?x] =>
      destruct (_request_with_retry a b c x) as [[data|e] w2]; [|discriminate]
  end.
  destruct (truthy data); cbn [negb]; [|discriminate].
  destruct (py_in "jobPostingInfo" data) as [[|]|e]; cbn [negb]; try discriminate.
  destruct (subscript data "jobPostingInfo") as [info|e]; [|discriminate].
  destruct (dot_get info "jobDescription" (JStr "")) as [raw|e]; [|discriminate].
  destruct (truthy raw).
  - destruct (soup raw) as [txt|e]; [|discriminate].
    destruct info; try discriminate. intros [= <- _]. apply setitem_nonempty.
  - cbn. destruct info; try discriminate. intros [= <- _]. apply setitem_nonempty.
Qed.

(** The worker of a stub that has its [externalPath] never raises. *)
Lemma fetch_one_detail_with_path (h t s : string) (listing : dict) (path : json)
    (today : date) (w : world) :
  lookup_key "externalPath" listing = Some path ->
  exists r, fst (_fetch_one_detail soup iso h t s (JObj listing) today w) = Ok r.
Proof.
  intros Hp. unfold _fetch_one_detail.
  destruct (fetch_one_detail_try _ _ _ _ _ _ _ _) as [[r|e] w1];
    [exists r; reflexivity|].
  cbn [subscript]. unfold getitem. rewrite Hp. exists None. reflexivity.
Qed.

(** The worker of a stub without [externalPath] raises [KeyError]. *)
Lemma fetch_one_detail_without_path (h t s : string) (listing : dict)
    (today : date) (w : world) :
  lookup_key "externalPath" listing = None ->
  fst (_fetch_one_detail soup iso h t s (JObj listing) today w)
  = Raise (KeyError "externalPath").
Proof.
  intros Hp. unfold _fetch_one_detail, fetch_one_detail_try. munfold.
  cbn [subscript]. unfold getitem. rewrite Hp. reflexivity.
Qed.

End EnricherFacts.

(** C1. For a stub whose detail was fetched: when the detail's [startDate]
    is a non-empty string that parses as an ISO date other than the
    reference date, the worker returns no record, whatever the labels say;
    when [startDate] is absent, empty, not a string, or does not parse, the
    worker returns the record built from the stub and the detail, whose
    label is the detail's [postedOn] or else the stub's. *)
Theorem fetch_one_detail_date_check (soup : json -> result string)
    (iso : string -> option date) (h t s : string) (listing detail : dict)
    (path : json) (today : date) (w w1 : world) :
  lookup_key "externalPath" listing = Some path ->
  fetch_job_detail soup h t s path (snd (sleep RATE_LIMIT_DELAY w))
  = (Ok (Some detail), w1) ->
  let r := fst (_fetch_one_detail soup iso h t s (JObj listing) today w) in
  (forall str d,
      lookup_key "startDate" detail = Some (JStr str) -> str <> "" ->
      iso str = Some d -> d <> today ->
      r = Ok None)
  /\ ((forall str d,
         lookup_key "startDate" detail = Some (JStr str) -> str <> "" ->
         iso str = Some d -> False) ->
      r = Ok (Some (job_record listing detail))
      /\ lookup_key "posted_label" (job_record listing detail)
         = Some (get_default detail "postedOn" (get_default listing "postedOn" (JStr "")))).
Proof.
  intros Hp Hd r. subst r.
  pose proof (fetch_job_detail_nonempty _ _ _ _ _ _ _ _ Hd) as Hne.
  unfold _fetch_one_detail, fetch_one_detail_try. munfold.
  cbn [subscript]. unfold getitem. rewrite Hp. cbn beta iota. rewrite Hd.
  assert (Ht : truthy (JObj detail) = true) by (destruct detail; [contradiction|reflexivity]).
  rewrite Ht. cbn [negb].
  unfold start_date_is_stale, get, get_default, parse_iso. split.
  - intros str d Hs Hstr Hi Hneq. rewrite Hs. cbn [truthy].
    destruct (String.eqb_spec str "") as [|_]; [contradiction|]. cbn [negb].
    rewrite Hi. destruct (date_eqb d today) eqn:E.
    + apply date_eqb_eq in E. contradiction.
    + reflexivity.
  - intros Hno. split; [|reflexivity].
    destruct (lookup_key "startDate" detail) as [v|] eqn:Es; [|reflexivity].
    destruct (truthy v) eqn:Etv; [|reflexivity].
    destruct v as [| | |str| |]; try reflexivity.
    destruct (iso str) as [d|] eqn:Ei; [|reflexivity].
    exfalso. apply (Hno str d eq_refl); [|exact Ei].
    intros ->. discriminate.
Qed.

(** C9 does not hold of the code.  A stub without [externalPath] makes its
    worker raise: the [KeyError] of the [try] block is caught, and the
    handler's log line raises it again.  The exception leaves the worker,
    [future.result()] re-raises it in [crawl_company], and the crawl ends
    with it in either completion order: the record of the other stub, whose
    worker succeeded, is not returned. *)
Theorem crawl_company_worker_failure_escapes (soup : json -> result string)
    (iso : string -> option date) (fuel : nat) :
  let h := "acme.wd5.myworkdayjobs.com" in
  (exists rec, worker soup iso (two_stub_env [0; 1]%nat) h "acme" "jobs" 0 one_stub
               = Ok (Some rec))
  /\ worker soup iso (two_stub_env [0; 1]%nat) h "acme" "jobs" 1 pathless_stub
     = Raise (KeyError "externalPath")
  /\ fst <$> crawl_company soup iso (S fuel) (two_stub_env [0; 1]%nat) h "acme" "jobs" true
     = Some (Raise (KeyError "externalPath"))
  /\ fst <$> crawl_company soup iso (S fuel) (two_stub_env [1; 0]%nat) h "acme" "jobs" true
     = Some (Raise (KeyError "externalPath")).
Proof.
  cbv zeta. split; [eexists; reflexivity|]. split; [reflexivity|].
  split; reflexivity.
Qed.

(** *** More about the client, the pagination and the crawl *)

Lemma request_with_retry_bounds (m u : string) (p : option json) (w : world) :
  let w' := snd (_request_with_retry m u p w) in
  net w' = net w /\ (sent w <= sent w' <= sent w + 3)%nat
  /\ exists evs, trace w' = trace w ++ evs.
Proof.
  cbv zeta. rewrite request_with_retry_run. cbv zeta.
  destruct (retryable _); [destruct (retryable _); [destruct (retryable _)|]|];
    cbn [snd after_attempts net sent trace];
    (split; [reflexivity|]); (split; [lia|]); eexists; reflexivity.
Qed.

Lemma lookup_setitem_eq (d : dict) (k : string) (v : json) :
  lookup_key k (setitem d k v) = Some v.
Proof.
  induction d as [|[k' v'] d IH]; cbn.
  - rewrite String.eqb_refl. reflexivity.
  - destruct (String.eqb k k') eqn:E; cbn.
    + rewrite String.eqb_refl. reflexivity.
    + rewrite E. exact IH.
Qed.

Lemma lookup_setitem_ne (d : dict) (k k' : string) (v : json) :
  k' <> k -> lookup_key k' (setitem d k v) = lookup_key k' d.
Proof.
  intros Hne. induction d as [|[k0 v0] d IH]; cbn.
  - destruct (String.eqb_spec k' k); [contradiction|reflexivity].
  - destruct (String.eqb_spec k k0) as [->|Hk]; cbn.
    + destruct (String.eqb_spec k' k0); [contradiction|reflexivity].
    + destruct (String.eqb k' k0); [reflexivity|exact IH].
Qed.

Section CrawlFacts.

Variable soup : json -> result string.
Variable iso : string -> option date.

Lemma fetch_job_detail_world (h t s : string) (path : json) (w : world) :
  let w' := snd (fetch_job_detail soup h t s path w) in
  net w' = net w /\ (sent w <= sent w' <= sent w + 3)%nat
  /\ exists evs, trace w' = trace w ++ evs.
Proof.
  cbv zeta. unfold fetch_job_detail. munfold.
  destruct (lstrip_slash path) as [p|e].
  2:{ cbn. split; [reflexivity|]. split; [lia|]. exists []. rewrite app_nil_r.
      reflexivity. }
  match goal with
  | |- context [_request_with_retry ?a ?b ?c ?x] =>
      pose proof (request_with_retry_bounds a b c x) as Hb; cbv zeta in Hb;
      destruct (_request_with_retry a b c x) as [[data|e] w2]
  end; cbn [snd] in Hb; [|exact Hb].
  destruct (truthy data); cbn [negb]; [|exact Hb].
  destruct (py_in "jobPostingInfo" data) as [[|]|e]; cbn [negb]; try exact Hb.
  destruct (subscript data "jobPostingInfo") as [info|e]; [|exact Hb].
  destruct (dot_get info "jobDescription" (JStr "")) as [raw|e]; [|exact Hb].
  destruct (truthy raw).
  - destruct (soup raw) as [txt|e]; [|exact Hb].
    destruct info; exact Hb.
  - destruct info; exact Hb.
Qed.

Lemma fetch_one_detail_world (h t s : string) (listing : json) (today : date)
    (w : world) :
  let w' := snd (_fetch_one_detail soup iso h t s listing today w) in
  (sent w <= sent w' <= sent w + 3)%nat
  /\ exists evs, trace w' = trace w ++ Slept RATE_LIMIT_DELAY :: evs.
Proof.
  cbv zeta. unfold _fetch_one_detail.
  set (w0 := snd (sleep RATE_LIMIT_DELAY w)).
  assert (Hw0 : sent w0 = sent w /\ trace w0 = trace w ++ [Slept RATE_LIMIT_DELAY])
    by (split; reflexivity).
  destruct Hw0 as [Hs0 Ht0].
  assert (Htry : (sent w0 <= sent (snd (fetch_one_detail_try soup iso h t s listing today w0))
                  <= sent w0 + 3)%nat
                 /\ exists evs, trace (snd (fetch_one_detail_try soup iso h t s listing
                                              today w0)) = trace w0 ++ evs).
  { unfold fetch_one_detail_try. munfold.
    destruct (subscript listing "externalPath") as [path|e].
    2:{ cbn. split; [lia|]. exists []. rewrite app_nil_r. reflexivity. }
    pose proof (fetch_job_detail_world h t s path w0) as Hb. cbv zeta in Hb.
    destruct (fetch_job_detail soup h t s path w0) as [[[detail|]|e] w1];
      cbn [snd] in Hb |- *; try (destruct Hb as (_ & Hb1 & Hb2); split; assumption).
    destruct (truthy (JObj detail)); cbn [negb];
      [|destruct Hb as (_ & Hb1 & Hb2); split; assumption].
    destruct (start_date_is_stale iso (get detail "startDate") today);
      [destruct Hb as (_ & Hb1 & Hb2); split; assumption|].
    destruct listing; destruct Hb as (_ & Hb1 & Hb2); split; assumption. }
  destruct Htry as [Hs [evs Ht]].
  destruct (fetch_one_detail_try soup iso h t s listing today w0) as [[r|e] w1];
    cbn [snd] in Hs, Ht |- *.
  - split; [lia|]. exists evs. rewrite Ht, Ht0, <- app_assoc. reflexivity.
  - destruct (subscript listing "externalPath"); cbn [snd];
      (split; [lia|]); exists evs; rewrite Ht, Ht0, <- app_assoc; reflexivity.
Qed.

Lemma worker_ok (env : crawl_env) (h t s : string) (i : nat) (listing : json) :
  has_external_path listing = true ->
  exists r, worker soup iso env h t s i listing = Ok r.
Proof.
  intros H. destruct listing as [| | | | |d]; try discriminate.
  cbn in H. destruct (lookup_key "externalPath" d) as [path|] eqn:E; [|discriminate].
  unfold worker. eapply fetch_one_detail_with_path. exact E.
Qed.

(** The loop over the completed futures, when every worker returned. *)
Lemma collect_all_ok (cb : bool) (futures : list (result (option dict))) (total : nat)
    (order : list nat) :
  forall (enriched : list dict) (done_count : nat) (w : world),
    Forall (fun i => exists r, futures !! i = Some (Ok r)) order ->
    collect cb futures order total enriched done_count w
    = (Ok (enriched ++ omap (record_of futures) order),
       {| net := net w; sent := sent w;
          trace := trace w
                   ++ (if cb
                       then map (fun k => Progress (Z.of_nat k) (JNum (Z.of_nat total))
                                                   "details")
                                (seq (S done_count) (length order))
                       else []) |}).
Proof.
  induction order as [|i order IH]; intros enriched done_count w Hall.
  - cbn. rewrite !app_nil_r. destruct cb; cbn; rewrite app_nil_r; destruct w;
      reflexivity.
  - inversion Hall as [|? ? [r Hi] Hall']; subst.
    cbn [collect]. rewrite Hi. munfold.
    destruct cb; cbn [emit]; cbn beta iota; rewrite IH by assumption;
      cbn [net sent trace omap length seq map].
    all: change (list_omap nat dict (record_of futures) (i :: order))
           with (match record_of futures i with
                 | Some y => y :: omap (record_of futures) order
                 | None => omap (record_of futures) order
                 end);
      unfold record_of at 2; rewrite Hi; destruct r as [rec|];
      rewrite <- ?app_assoc; reflexivity.
Qed.

Lemma progress_calls_details (n : nat) (l : list nat) :
  progress_calls (map (fun k => Progress (Z.of_nat k) (JNum (Z.of_nat n)) "details") l)
  = map (fun k => (Z.of_nat k, JNum (Z.of_nat n), "details")) l.
Proof. induction l as [|k l IH]; [reflexivity|]. cbn. f_equal. exact IH. Qed.

Lemma length_omap_le {X Y} (f : X -> option Y) (l : list X) :
  (length (omap f l) <= length l)%nat.
Proof.
  induction l as [|x l IH]; [reflexivity|]. cbn. destruct (f x); cbn; lia.
Qed.

End CrawlFacts.

(** X1. The worker of a stub that has its [externalPath] contains every
    failure: whatever the platform answers and whatever the HTML and date
    parsers do, it returns a record or [None] and raises nothing.  It
    pauses for [RATE_LIMIT_DELAY] before anything else, and sends at most
    [MAX_RETRIES] requests. *)
Theorem fetch_one_detail_contained (soup : json -> result string)
    (iso : string -> option date) (h t s : string) (listing : dict) (path : json)
    (today : date) (w : world) :
  lookup_key "externalPath" listing = Some path ->
  let run := _fetch_one_detail soup iso h t s (JObj listing) today w in
  (exists r, fst run = Ok r)
  /\ (exists evs, trace (snd run) = trace w ++ Slept RATE_LIMIT_DELAY :: evs)
  /\ (sent w <= sent (snd run) <= sent w + MAX_RETRIES)%nat.
Proof.
  intros Hp run. subst run. split.
  - eapply fetch_one_detail_with_path. exact Hp.
  - pose proof (fetch_one_detail_world soup iso h t s (JObj listing) today w) as H.
    cbv zeta in H. destruct H as [Hs Ht]. split; [exact Ht|exact Hs].
Qed.

(** X2. When every stub the pagination returned has its [externalPath] and
    every worker completes once, the crawl returns: its records are those
    the workers returned, in the order of completion, at most one per
    stub; and the callback is told [(1, n, "details")] up to
    [(n, n, "details")], [n] the number of stubs. *)
Theorem crawl_company_collects (soup : json -> result string)
    (iso : string -> option date) (fuel : nat) (env : crawl_env) (h t s : string)
    (cb : bool) (listings : list json) (w : world) :
  fetch_all_listings h t s "" 20 cb fuel (fresh (listing_net env))
  = Some (Ok listings, w) ->
  forallb has_external_path listings = true ->
  Permutation (completion env) (seq 0 (length listings)) ->
  let futures := imap (worker soup iso env h t s) listings in
  let records := omap (record_of futures) (completion env) in
  exists evs,
    crawl_company soup iso fuel env h t s cb = Some (Ok records, trace w ++ evs)
    /\ (length records <= length listings)%nat
    /\ progress_calls evs
       = if cb then details_calls (length listings) (length listings) else [].
Proof.
  intros Hlist Hpaths Hperm futures records.
  assert (Hall : Forall (fun i => exists r, futures !! i = Some (Ok r)) (completion env)).
  { apply Forall_forall. intros i Hi.
    rewrite Hperm in Hi. apply elem_of_seq in Hi.
    destruct (lookup_lt_is_Some_2 listings i) as [l Hl]; [lia|].
    rewrite forallb_forall in Hpaths.
    destruct (worker_ok soup iso env h t s i l) as [r Hr].
    { apply Hpaths. eapply list_elem_of_In, list_elem_of_lookup_2. exact Hl. }
    exists r. unfold futures. rewrite list_lookup_imap, Hl. cbn. rewrite Hr.
    reflexivity. }
  unfold crawl_company. unfold fresh in Hlist. rewrite Hlist. cbv zeta. fold futures.
  pose proof (collect_all_ok cb futures (length listings) (completion env) [] 0%nat w
                Hall) as Hc.
  assert (Hlen : length (completion env) = length listings)
    by (rewrite (Permutation_length Hperm); apply length_seq).
  rewrite Hc. cbn [trace app]. eexists. split; [reflexivity|]. split.
  - unfold records. rewrite <- Hlen. apply length_omap_le.
  - rewrite Hlen. destruct cb; [|reflexivity]. apply progress_calls_details.
Qed.

(** X3. The detail of a posting is requested with the leading slashes of its
    path removed.  A response that is empty or lacks [jobPostingInfo] gives
    [None]; otherwise the posting's fields are returned as the platform
    sent them, with one key added: [jd_plain_text], the text of the HTML
    description, or the empty string when there is no description. *)
Theorem fetch_job_detail_enriches (soup : json -> result string) (h t s p : string)
    (w w1 : world) (data : json) :
  _request_with_retry "GET" (detail_url h t s (drop_while is_slash p)) None w
  = (Ok data, w1) ->
  (truthy data = false \/ py_in "jobPostingInfo" data = Ok false ->
   fetch_job_detail soup h t s (JStr p) w = (Ok None, w1))
  /\ (forall (body info : dict) (text : string),
        data = JObj body -> lookup_key "jobPostingInfo" body = Some (JObj info) ->
        (if truthy (get_default info "jobDescription" (JStr ""))
         then soup (get_default info "jobDescription" (JStr "")) = Ok text
         else text = "") ->
        exists detail,
          fetch_job_detail soup h t s (JStr p) w = (Ok (Some detail), w1)
          /\ lookup_key "jd_plain_text" detail = Some (JStr text)
          /\ forall k, k <> "jd_plain_text" -> lookup_key k detail = lookup_key k info).
Proof.
  intros Hreq. unfold detail_url in Hreq. split.
  - intros H. unfold fetch_job_detail. munfold. cbn [lstrip_slash]. rewrite Hreq.
    destruct H as [H|H]; [rewrite H; reflexivity|].
    destruct (truthy data); cbn [negb]; [|reflexivity]. rewrite H. reflexivity.
  - intros body info text -> Hinfo Htext.
    exists (setitem info "jd_plain_text" (JStr text)).
    split; [|split; [apply lookup_setitem_eq|intros k Hk; apply lookup_setitem_ne, Hk]].
    unfold fetch_job_detail. munfold. cbn [lstrip_slash]. rewrite Hreq.
    assert (Hb : truthy (JObj body) = true)
      by (destruct body; [discriminate|reflexivity]).
    rewrite Hb. cbn [negb py_in subscript dot_get]. unfold getitem. rewrite Hinfo.
    cbn [negb dot_get].
    destruct (truthy (get_default info "jobDescription" (JStr ""))).
    + rewrite Htext. reflexivity.
    + rewrite Htext. reflexivity.
Qed.

Lemma sort_postings_prefix (pre rest today_jobs : list json) (seen : nat) :
  forallb is_dict pre = true ->
  sort_postings (pre ++ rest) today_jobs seen
  = sort_postings rest (today_jobs ++ List.filter posted_today pre)
      (seen + length (List.filter (fun j => negb (posted_today j)) pre))%nat.
Proof.
  revert today_jobs seen. induction pre as [|j pre IH]; intros tj seen H.
  - cbn. rewrite app_nil_r, Nat.add_0_r. reflexivity.
  - cbn in H. apply andb_true_iff in H as [Hj H].
    destruct j as [| | | | |d]; try discriminate.
    cbn [app sort_postings dot_get].
    assert (E : eq_str (get_default d "postedOn" (JStr "")) "Posted Today"
                = posted_today (JObj d)).
    { unfold posted_today, get, get_default.
      destruct (lookup_key "postedOn" d); reflexivity. }
    rewrite E. cbn [List.filter]. destruct (posted_today (JObj d)); cbn [negb].
    + rewrite IH by assumption. rewrite <- app_assoc. reflexivity.
    + rewrite IH by assumption. cbn [length]. f_equal. lia.
Qed.

Section Paced.

Variables (h t s q : string) (ps total : Z) (cb : bool).
Variable pages : list (list json).
Hypothesis ps_pos : 0 < ps.
Hypothesis dicts : forall k, forallb is_dict (nth k pages []) = true.

Lemma fetch_listings_sent (off : Z) (w : world) (body : json) :
  net w (sent w) = Answer 200 "OK" body ->
  fetch_listings h t s q ps off w
  = (Ok body, {| net := net w; sent := S (sent w);
                 trace := trace w ++ [Sent (listing_request h t s q ps off)] |}).
Proof.
  intros H. unfold fetch_listings, _request_with_retry.
  change (seq 0 MAX_RETRIES) with [0; 1; 2]%nat.
  rewrite retry_attempts_cons. cbn zeta. rewrite H. reflexivity.
Qed.

(** One iteration at the [i]-th page, with the events it adds. *)
Lemma pager_step_paced (i fuel : nat) (st : pager) (w : world) :
  net w = serve total pages -> sent w = i ->
  offset st = Z.of_nat i * ps ->
  (Workday.total st = JNull \/ Workday.total st = JNum total) ->
  let items := nth i pages [] in
  let found := today_jobs st ++ List.filter posted_today items in
  let evs := page_events h t s q ps total cb pages i in
  exists seen',
    pager_loop h t s q ps cb (S fuel) st w =
    if stops_at ps total i items
    then Some (Ok found, {| net := net w; sent := S i; trace := trace w ++ evs |})
    else pager_loop h t s q ps cb fuel
           {| today_jobs := found; offset := Z.of_nat (S i) * ps;
              Workday.total := JNum total; seen_non_today := seen' |}
           {| net := net w; sent := S i;
              trace := trace w ++ evs ++ [Slept RATE_LIMIT_DELAY] |}.
Proof.
  intros Hnet Hsent Hoff Htot items found evs.
  assert (Ha : net w (sent w) = Answer 200 "OK" (page_body total items))
    by (rewrite Hnet, Hsent; reflexivity).
  pose proof (fetch_listings_sent (offset st) w (page_body total items) Ha) as Hreq.
  rewrite Hsent in Hreq. clear Ha.
  cbn [pager_loop]. rewrite Hreq.
  cbn [truthy page_body negb py_in lookup_key String.eqb Ascii.eqb Bool.eqb andb
       subscript getitem].
  assert (Etot : learn_total (Workday.total st) (page_body total items)
                 = Ok (JNum total))
    by (destruct Htot as [-> | ->]; reflexivity).
  rewrite Etot. cbn [mbind result_bind rbind].
  unfold stops_at, found, evs, page_events. specialize (dicts i). fold items in dicts.
  fold items. rewrite <- Hoff.
  destruct items as [|x l] eqn:Eit.
  - cbn. rewrite app_nil_r. exists 0%nat. reflexivity.
  - cbn [truthy negb iterate mbind result_bind rbind].
    rewrite sort_postings_dicts by assumption.
    cbn [mbind result_bind rbind orb int_ge]. rewrite count_zero_forallb.
    replace (ps <? offset st + ps) with (0 <? i)%nat.
    2:{ rewrite Hoff. destruct i as [|i'].
        - cbn. symmetry. apply Z.ltb_ge. lia.
        - change (0 <? S i')%nat with true. symmetry. apply Z.ltb_lt. nia. }
    replace (total <=? offset st + ps) with (total <=? (Z.of_nat i + 1) * ps)
      by (rewrite Hoff; f_equal; ring).
    replace (Z.of_nat (S i) * ps) with (offset st + ps) by (rewrite Hoff; lia).
    set (b1 := forallb (fun j => negb (posted_today j)) (x :: l)).
    set (b2 := (0 <? i)%nat).
    set (c := total <=? (Z.of_nat i + 1) * ps).
    eexists.
    destruct b1, b2, c; cbn [andb orb]; destruct cb; cbn [emit sleep snd net sent trace];
      rewrite <- ?app_assoc; cbn [app]; reflexivity.
Qed.

Lemma pager_loop_paced (d : nat) :
  forall (i fuel : nat) (st : pager) (w : world),
    (d < fuel)%nat ->
    net w = serve total pages -> sent w = i ->
    offset st = Z.of_nat i * ps ->
    (Workday.total st = JNull \/ Workday.total st = JNum total) ->
    (forall j, (i <= j < i + d)%nat -> stops_at ps total j (nth j pages []) = false) ->
    stops_at ps total (i + d) (nth (i + d) pages []) = true ->
    exists r w',
      pager_loop h t s q ps cb fuel st w = Some (Ok r, w')
      /\ trace w'
         = trace w
           ++ concat (map (fun j => page_events h t s q ps total cb pages j
                                    ++ [Slept RATE_LIMIT_DELAY]) (seq i d))
           ++ page_events h t s q ps total cb pages (i + d).
Proof.
  induction d as [|d IH]; intros i fuel st w Hfuel Hnet Hsent Hoff Htot Hgo Hstop;
    (destruct fuel as [|fuel]; [lia|]);
    destruct (pager_step_paced i fuel st w Hnet Hsent Hoff Htot)
      as (seen1 & Hrun); cbv zeta in Hrun; rewrite Hrun.
  - rewrite Nat.add_0_r in Hstop |- *. rewrite Hstop. eexists _, _.
    split; [reflexivity|]. reflexivity.
  - rewrite (Hgo i) by lia.
    edestruct (IH (S i) fuel) as (r & w' & Hrun' & Ht'); [lia| | | | | | |].
    7:{ exists r, w'. split; [exact Hrun'|]. rewrite Ht'. cbn [trace seq map concat].
        rewrite <- !app_assoc. replace (S i + d)%nat with (i + S d)%nat by lia.
        reflexivity. }
    + exact Hnet.
    + reflexivity.
    + reflexivity.
    + right. reflexivity.
    + intros j Hj. apply Hgo. lia.
    + replace (S i + d)%nat with (i + S d)%nat by lia. assumption.
Qed.

End Paced.

(** X4. Against a platform that serves [pages], a pagination that ends at the
    page [k] asks for the offsets [0], [page_size], ..., [k * page_size],
    each with the limit [page_size]; it pauses for [RATE_LIMIT_DELAY] after
    every page but the last, and tells the callback, after each page that
    holds items, the offset reached and the total. *)
Theorem fetch_all_listings_paces (h t s q : string) (ps total : Z) (cb : bool)
    (pages : list (list json)) (k fuel : nat) :
  0 < ps -> stubs_only pages ->
  (forall j, (j < k)%nat -> stops_at ps total j (nth j pages []) = false) ->
  stops_at ps total k (nth k pages []) = true ->
  (k < fuel)%nat ->
  exists r w',
    fetch_all_listings h t s q ps cb fuel (fresh (serve total pages)) = Some (Ok r, w')
    /\ trace w' = pagination_trace h t s q ps total cb pages k.
Proof.
  intros Hps Hd Hgo Hstop Hfuel.
  destruct (pager_loop_paced h t s q ps total cb pages Hps Hd k 0 fuel pager_start
              (fresh (serve total pages)) Hfuel eq_refl eq_refl eq_refl
              (or_introl eq_refl))
    as (r & w' & Hrun & Ht).
  - intros j Hj. apply Hgo. lia.
  - exact Hstop.
  - exists r, w'. split; [exact Hrun|]. rewrite Ht. reflexivity.
Qed.

(** X5. A malformed first page is not contained by the pagination.  A body
    that has [jobPostings] and lacks [total] raises [KeyError]; a page one
    of whose items is not a JSON object raises [AttributeError].  Both
    leave [fetch_all_listings] after the one request, and no stub is
    returned. *)
Theorem fetch_all_listings_malformed_page (h t s q : string) (ps : Z) (cb : bool)
    (fuel : nat) (answers : nat -> wire) (status : Z) (reason : string) :
  (400 <=? status) && (status <? 600) = false ->
  let run := fetch_all_listings h t s q ps cb (S fuel) (fresh answers) in
  (forall (body : dict) (postings : json),
      answers 0%nat = Answer status reason (JObj body) ->
      lookup_key "jobPostings" body = Some postings ->
      lookup_key "total" body = None ->
      exists w', run = Some (Raise (KeyError "total"), w') /\ sent w' = 1%nat)
  /\ (forall (total : Z) (pre post : list json) (x : json),
        answers 0%nat = Answer status reason (page_body total (pre ++ x :: post)) ->
        forallb is_dict pre = true -> is_dict x = false ->
        exists w',
          run = Some (Raise (AttributeError "object has no attribute 'get'"), w')
          /\ sent w' = 1%nat).
Proof.
  intros Hs run. subst run. unfold fetch_all_listings.
  assert (Hreq : forall body, answers 0%nat = Answer status reason body ->
            exists req, fetch_listings h t s q ps (offset pager_start) (fresh answers)
            = (Ok body, {| net := answers; sent := 1; trace := [Sent req] |})).
  { intros body Ha.
    destruct (fetch_listings_answered h t s q ps (offset pager_start) (fresh answers)
                reason body status Ha Hs) as [req Hreq].
    exists req. exact Hreq. }
  split.
  - intros body postings Ha Hp Ht. destruct (Hreq _ Ha) as [req Hr].
    cbn [pager_loop]. rewrite Hr.
    assert (Hb : truthy (JObj body) = true)
      by (destruct body; [discriminate|reflexivity]).
    rewrite Hb. cbn [negb py_in pager_start Workday.total learn_total subscript].
    rewrite Hp. unfold getitem. rewrite Ht. eexists. split; reflexivity.
  - intros total pre post x Ha Hpre Hx. destruct (Hreq _ Ha) as [req Hr].
    cbn [pager_loop]. rewrite Hr.
    cbn [truthy page_body negb py_in lookup_key String.eqb Ascii.eqb Bool.eqb andb
         subscript getitem pager_start Workday.total learn_total today_jobs
         seen_non_today mbind result_bind rbind].
    assert (Hne : match pre ++ x :: post with [] => false | _ :: _ => true end = true)
      by (destruct pre; reflexivity).
    rewrite Hne. cbn [negb iterate mbind result_bind rbind].
    rewrite sort_postings_prefix by assumption.
    destruct x; try discriminate; eexists; split; reflexivity.
Qed.
(** *** The theorems at concrete inputs *)

Lemma parse_workday_url_contract_witness :
  urlparse_simple (strip is_space sample_url)
  = Ok {| hostname := Some "acme.wd5.myworkdayjobs.com"; path := "/en-US/external_site" |}
  /\ parse_workday_url urlparse_simple sample_url
     = Ok (Some {| host := "acme.wd5.myworkdayjobs.com"; tenant := "acme";
                   site := "external_site" |}).
Proof.
  split; [reflexivity|].
  refine (proj2 (proj2 (parse_workday_url_contract urlparse_simple sample_url
            {| hostname := Some "acme.wd5.myworkdayjobs.com";
               path := "/en-US/external_site" |} eq_refl _ eq_refl))
            "5" _ eq_refl eq_refl eq_refl eq_refl).
  - intros h [= <-]. reflexivity.
  - discriminate.
Defined.

Lemma request_with_retry_policy_witness :
  (forall k, exists reason body,
      net (fresh unavailable) (sent (fresh unavailable) + k)%nat = Answer 503 reason body)
  /\ trace (snd (_request_with_retry "GET" sample_url None (fresh unavailable)))
     = [Sent (request_of "GET" sample_url None); Slept (2 # 1);
        Sent (request_of "GET" sample_url None); Slept (4 # 1);
        Sent (request_of "GET" sample_url None); Slept (8 # 1)].
Proof.
  assert (H : forall k, exists reason body,
             net (fresh unavailable) (sent (fresh unavailable) + k)%nat
             = Answer 503 reason body)
    by (intros k; eexists _, _; reflexivity).
  split; [exact H|].
  exact (proj2 (proj1 (proj2 (proj2 (proj2 (proj2
           (request_with_retry_policy "GET" sample_url None (fresh unavailable))))))
           H)).
Defined.

Lemma request_with_retry_exhausted_witness :
  (forall k, (k < 3)%nat ->
      retryable (net (fresh unavailable) (sent (fresh unavailable) + k)%nat) = true)
  /\ fst (_request_with_retry "GET" sample_url None (fresh unavailable)) = Ok JNull.
Proof.
  assert (H : forall k, (k < 3)%nat ->
             retryable (net (fresh unavailable) (sent (fresh unavailable) + k)%nat) = true)
    by (intros k _; reflexivity).
  split; [exact H|].
  exact (proj1 (proj2 (proj2
           (request_with_retry_exhausted "GET" sample_url None (fresh unavailable) H)))
           503 "Service Unavailable" JNull eq_refl).
Defined.


Lemma pager_loop_page_failure_witness :
  (forall k, (k < 3)%nat ->
      retryable (net (fresh unavailable) (sent (fresh unavailable) + k)%nat) = true)
  /\ fst <$> pager_loop "acme.wd5.myworkdayjobs.com" "acme" "jobs" "" 20 true 1
               {| today_jobs := [one_stub]; offset := 20; total := JNum 100;
                  seen_non_today := 19 |} (fresh unavailable)
     = Some (Ok [one_stub]).
Proof.
  assert (H : forall k, (k < 3)%nat ->
             retryable (net (fresh unavailable) (sent (fresh unavailable) + k)%nat) = true)
    by (intros k _; reflexivity).
  split; [exact H|].
  exact (proj1 (pager_loop_page_failure "acme.wd5.myworkdayjobs.com" "acme" "jobs" "" 20
                  true 0
                  {| today_jobs := [one_stub]; offset := 20; total := JNum 100;
                     seen_non_today := 19 |} (fresh unavailable) H)
           503 "Service Unavailable" JNull eq_refl).
Defined.

Lemma fetch_one_detail_date_check_witness :
  fst (_fetch_one_detail text_simple isodate_simple "acme.wd5.myworkdayjobs.com" "acme"
         "jobs" one_stub {| year := 2024; month := 5; day := 17 |}
         (fresh (fun _ => Answer 200 "OK" stale_detail)))
  = Ok None
  /\ exists rec,
       fst (_fetch_one_detail text_simple isodate_simple "acme.wd5.myworkdayjobs.com"
              "acme" "jobs" one_stub {| year := 2024; month := 5; day := 17 |}
              (fresh (fun _ => Answer 200 "OK" one_detail)))
       = Ok (Some rec)
       /\ lookup_key "posted_label" rec = Some (JStr "Posted Today").
Proof.
  split.
  - refine (proj1 (fetch_one_detail_date_check text_simple isodate_simple
                     "acme.wd5.myworkdayjobs.com" "acme" "jobs" one_stub_fields _
                     (JStr "/job/R1")
                     {| year := 2024; month := 5; day := 17 |}
                     (fresh (fun _ => Answer 200 "OK" stale_detail)) _ eq_refl eq_refl)
                  "2024-05-16" {| year := 2024; month := 5; day := 16 |}
                  eq_refl _ eq_refl _); discriminate.
  - eexists.
    refine (proj2 (fetch_one_detail_date_check text_simple isodate_simple
                     "acme.wd5.myworkdayjobs.com" "acme" "jobs" one_stub_fields _
                     (JStr "/job/R1")
                     {| year := 2024; month := 5; day := 17 |}
                     (fresh (fun _ => Answer 200 "OK" one_detail)) _ eq_refl eq_refl) _).
    intros str d H. discriminate H.
Defined.


Lemma fetch_one_detail_contained_witness :
  lookup_key "externalPath" one_stub_fields = Some (JStr "/job/R1")
  /\ (exists r,
        fst (_fetch_one_detail text_simple isodate_simple "acme.wd5.myworkdayjobs.com"
               "acme" "jobs" one_stub {| year := 2024; month := 5; day := 17 |}
               (fresh unavailable)) = Ok r)
  /\ sent (snd (_fetch_one_detail text_simple isodate_simple
                  "acme.wd5.myworkdayjobs.com" "acme" "jobs" one_stub
                  {| year := 2024; month := 5; day := 17 |} (fresh unavailable)))
     = 3%nat.
Proof.
  split; [reflexivity|]. split; [|reflexivity].
  exact (proj1 (fetch_one_detail_contained text_simple isodate_simple
                  "acme.wd5.myworkdayjobs.com" "acme" "jobs" one_stub_fields
                  (JStr "/job/R1") {| year := 2024; month := 5; day := 17 |}
                  (fresh unavailable) eq_refl)).
Defined.

Lemma crawl_company_collects_witness :
  forallb has_external_path [one_stub] = true
  /\ Permutation (completion one_stub_env) (seq 0 1)
  /\ exists evs,
       fst <$> crawl_company text_simple isodate_simple 1 one_stub_env
                 "acme.wd5.myworkdayjobs.com" "acme" "jobs" true
       = Some (Ok [job_record one_stub_fields
                     [("title", JStr "ML Engineer"); ("postedOn", JStr "Posted Today");
                      ("jobReqId", JStr "R1"); ("jd_plain_text", JStr "")]])
       /\ progress_calls evs = [(1, JNum 1, "details")].
Proof.
  split; [reflexivity|]. split; [apply Permutation_refl|].
  destruct (crawl_company_collects text_simple isodate_simple 1 one_stub_env
              "acme.wd5.myworkdayjobs.com" "acme" "jobs" true [one_stub] _ eq_refl
              eq_refl (Permutation_refl _)) as (evs & Hrun & _ & Hp).
  exists evs. split; [rewrite Hrun; reflexivity|exact Hp].
Defined.

Lemma fetch_job_detail_enriches_witness :
  exists detail w1,
    fetch_job_detail text_simple "acme.wd5.myworkdayjobs.com" "acme" "jobs"
      (JStr "//job/R1") (fresh (fun _ => Answer 200 "OK" described_detail))
    = (Ok (Some detail), w1)
    /\ lookup_key "jd_plain_text" detail = Some (JStr "<p>Build models</p>")
    /\ lookup_key "title" detail = Some (JStr "ML Engineer")
    /\ trace w1
       = [Sent (request_of "GET"
                  "https://acme.wd5.myworkdayjobs.com/wday/cxs/acme/jobs/job/R1" None)].
Proof.
  destruct (proj2 (fetch_job_detail_enriches text_simple "acme.wd5.myworkdayjobs.com"
                     "acme" "jobs" "//job/R1"
                     (fresh (fun _ => Answer 200 "OK" described_detail)) _
                     described_detail eq_refl)
              _ _ "<p>Build models</p>" eq_refl eq_refl eq_refl)
    as (detail & Hrun & Htext & Hkeep).
  eexists detail, _. split; [exact Hrun|]. split; [exact Htext|].
  split; [|reflexivity]. rewrite Hkeep by discriminate. reflexivity.
Defined.

Lemma fetch_all_listings_paces_witness :
  stubs_only [[one_stub]; [one_stub]]
  /\ exists r w',
       fetch_all_listings "acme.wd5.myworkdayjobs.com" "acme" "jobs" "" 1 true 2
         (fresh (serve 2 [[one_stub]; [one_stub]])) = Some (Ok r, w')
       /\ trace w'
          = [Sent (listing_request "acme.wd5.myworkdayjobs.com" "acme" "jobs" "" 1 0);
             Progress 1 (JNum 2) "listings";
             Slept RATE_LIMIT_DELAY;
             Sent (listing_request "acme.wd5.myworkdayjobs.com" "acme" "jobs" "" 1 1);
             Progress 2 (JNum 2) "listings"].
Proof.
  assert (H : stubs_only [[one_stub]; [one_stub]])
    by (intros [|[|[|k]]]; reflexivity).
  split; [exact H|].
  destruct (fetch_all_listings_paces "acme.wd5.myworkdayjobs.com" "acme" "jobs" "" 1 2
              true [[one_stub]; [one_stub]] 1 2) as (r & w' & Hrun & Ht).
  - reflexivity.
  - exact H.
  - intros [|j] Hj; [reflexivity|lia].
  - reflexivity.
  - lia.
  - exists r, w'. split; [exact Hrun|exact Ht].
Defined.

Lemma fetch_all_listings_malformed_page_witness :
  exists w',
    fetch_all_listings "acme.wd5.myworkdayjobs.com" "acme" "jobs" "" 20 true 1
      (fresh (fun _ => Answer 200 "OK" (JObj [("jobPostings", JArr [one_stub])])))
    = Some (Raise (KeyError "total"), w')
    /\ sent w' = 1%nat.
Proof.
  exact (proj1 (fetch_all_listings_malformed_page "acme.wd5.myworkdayjobs.com" "acme"
                  "jobs" "" 20 true 0
                  (fun _ => Answer 200 "OK" (JObj [("jobPostings", JArr [one_stub])]))
                  200 "OK" eq_refl)
           [("jobPostings", JArr [one_stub])] (JArr [one_stub]) eq_refl eq_refl eq_refl).
Defined.
End WorkdayFacts.

(** ** Facts about the scan orchestrator *)

Module AppFacts.
Import App.

Section OrchestratorFacts.

Context {E : Type}.
Variable urlparse : string -> result Workday.url_parts.
Variable crawl_company :
  string -> string -> string -> E -> (result (list dict) * list (Z * json * string)) * E.
Variable is_posted_today : dict -> result bool.
Variable is_relevant_job : dict -> json -> result bool.
Variable is_usa_job : dict -> result (bool * json).
Variable score_jobs_batch : list dict -> string -> json -> result (list json).
Variable utcnow : E -> string.
Variable json_loads : string -> result json.
Variable json_dumps : list string -> string.
Variable format_value : json -> string.

Local Abbreviation world := (@App.world E).
Local Abbreviation A := (@App.A E).
Local Abbreviation scan_try :=
  (App.scan_try urlparse crawl_company is_posted_today is_relevant_job is_usa_job
     score_jobs_batch utcnow format_value).
Local Abbreviation _scan_one_company :=
  (App._scan_one_company urlparse crawl_company is_posted_today is_relevant_job
     is_usa_job score_jobs_batch utcnow format_value).
Local Abbreviation scan_companies :=
  (App.scan_companies urlparse crawl_company is_posted_today is_relevant_job
     is_usa_job score_jobs_batch utcnow format_value).
Local Abbreviation run_try :=
  (App.run_try urlparse crawl_company is_posted_today is_relevant_job
     is_usa_job score_jobs_batch utcnow json_loads json_dumps format_value).
Local Abbreviation _run_scanner :=
  (App._run_scanner urlparse crawl_company is_posted_today is_relevant_job
     is_usa_job score_jobs_batch utcnow json_loads json_dumps format_value).

Local Abbreviation scan_points :=
  (App.scan_points urlparse crawl_company is_posted_today is_relevant_job
     is_usa_job score_jobs_batch utcnow format_value).
Local Abbreviation scan_value :=
  (App.scan_value urlparse crawl_company is_posted_today is_relevant_job
     is_usa_job score_jobs_batch utcnow format_value).
Local Abbreviation raised_after_crawl :=
  (App.raised_after_crawl urlparse crawl_company is_posted_today is_relevant_job
     is_usa_job score_jobs_batch utcnow format_value).
Local Abbreviation scan_accounting :=
  (App.scan_accounting urlparse crawl_company is_posted_today is_relevant_job
     is_usa_job score_jobs_batch utcnow format_value).
Local Abbreviation live_delta :=
  (App.live_delta urlparse crawl_company is_posted_today is_relevant_job
     is_usa_job score_jobs_batch utcnow format_value).

(** *** Weakest preconditions for the state-and-exception monad *)

Definition wp {X} (m : A X) (Q : result X -> world -> Prop) (w : world) : Prop :=
  Q (fst (m w)) (snd (m w)).

Lemma wp_bind {X Y} (m : A X) (k : X -> A Y) (Q : result Y -> world -> Prop) (w : world) :
  wp m (fun r w' => match r with
                    | Ok x => wp (k x) Q w'
                    | Raise e => Q (Raise e) w'
                    end) w ->
  wp (m ≫= k) Q w.
Proof.
  unfold wp, mbind, A_bind. destruct (m w) as [[x|e] w']; cbn; auto.
Qed.

Lemma wp_ret {X} (x : X) (Q : result X -> world -> Prop) (w : world) :
  Q (Ok x) w -> wp (mret x) Q w.
Proof. auto. Qed.

Lemma wp_lift {X} (r : result X) (Q : result X -> world -> Prop) (w : world) :
  Q r w -> wp (lift r) Q w.
Proof. auto. Qed.

Lemma wp_try_except {X} (m : A X) (h : exn -> A X) (Q : result X -> world -> Prop)
    (w : world) :
  wp m (fun r w' => match r with
                    | Ok x => Q (Ok x) w'
                    | Raise e => wp (h e) Q w'
                    end) w ->
  wp (try_except m h) Q w.
Proof.
  unfold wp, try_except. destruct (m w) as [[x|e] w']; cbn; auto.
Qed.

Lemma wp_modify_run (run_id : string) (f : run_state -> run_state) (r : run_state)
    (Q : result unit -> world -> Prop) (w : world) :
  live run_id w = Some r ->
  Q (Ok ()) (put_live run_id (f r) w) ->
  wp (modify_run run_id f) Q w.
Proof.
  intros H HQ. unfold wp, modify_run, read_run, write_run, mbind, A_bind.
  rewrite H. exact HQ.
Qed.

Lemma wp_weaken {X} (m : A X) (Q Q' : result X -> world -> Prop) (w : world) :
  wp m Q w -> (forall r w', Q r w' -> Q' r w') -> wp m Q' w.
Proof. unfold wp. auto. Qed.

Lemma live_put_live (run_id : string) (r : run_state) (w : world) :
  live run_id (put_live run_id r w) = Some r.
Proof. unfold live, put_live. cbn. apply lookup_insert_eq. Qed.

Lemma with_phase_same (r : run_state) : with_phase (phase r) r = r.
Proof. destruct r. reflexivity. Qed.

(** The callbacks of the crawl only rewrite the phase. *)
Lemma progress_cb_run (run_id name : string) (ps : list (Z * json * string)) :
  forall (w : world) (r : run_state),
    live run_id w = Some r ->
    exists p w',
      progress_cb run_id name ps w = (Ok (), w')
      /\ live run_id w' = Some (with_phase p r)
      /\ outside w' = outside w /\ database w' = database w.
Proof.
  induction ps as [|[[done total] ph] ps IH]; intros w r Hl.
  - exists (phase r), w. rewrite with_phase_same. auto.
  - cbn [progress_cb]. unfold modify_run, read_run, write_run, mbind, A_bind.
    rewrite Hl. cbn beta iota.
    destruct (IH (put_live run_id (with_phase (PhaseProgress name ph done total) r) w)
                 (with_phase (PhaseProgress name ph done total) r))
      as (p & w' & Hrun & Hl' & Ho & Hd); [apply live_put_live|].
    exists p, w'. rewrite Hrun. auto.
Qed.

Lemma do_crawl_run (run_id name h t s : string) (w : world) (r : run_state) :
  live run_id w = Some r ->
  exists p w',
    do_crawl crawl_company run_id name h t s w
    = (fst (fst (crawl_company h t s (outside w))), w')
    /\ live run_id w' = Some (with_phase p r)
    /\ outside w' = snd (crawl_company h t s (outside w))
    /\ database w' = database w.
Proof.
  intros Hl. unfold do_crawl, get_world, mbind, A_bind. cbn beta iota.
  destruct (crawl_company h t s (outside w)) as [[res progress] o]. cbn [fst snd].
  cbn beta iota.
  destruct (progress_cb_run run_id name progress
              (log (Crawled h t s)
                 {| active_runs := active_runs w; database := database w;
                    outside := o; calls := calls w |}) r Hl)
    as (p & w' & Hrun & Hl' & Ho & Hd).
  exists p, w'. rewrite Hrun. cbn. auto.
Qed.

Local Abbreviation runs_of w := (Database.runs (database w)).

Lemma wp_do_crawl (run_id name h t s : string) (r : run_state)
    (Q : result (list dict) -> world -> Prop) (w : world) :
  live run_id w = Some r ->
  (forall p w', live run_id w' = Some (with_phase p r) -> runs_of w' = runs_of w ->
                Q (fst (fst (crawl_company h t s (outside w)))) w') ->
  wp (do_crawl crawl_company run_id name h t s) Q w.
Proof.
  intros Hl HQ. destruct (do_crawl_run run_id name h t s w r Hl)
    as (p & w' & Hrun & Hl' & _ & Hd). unfold wp. rewrite Hrun. cbn.
  apply (HQ p); [assumption|]. rewrite Hd. reflexivity.
Qed.

Lemma wp_modify_live (run_id : string) (f : run_state -> run_state) (r : run_state)
    (Q : result unit -> world -> Prop) (w : world) :
  live run_id w = Some r ->
  (forall w', live run_id w' = Some (f r) -> runs_of w' = runs_of w -> Q (Ok ()) w') ->
  wp (modify_run run_id f) Q w.
Proof.
  intros H HQ. eapply wp_modify_run; [exact H|].
  apply HQ; [apply live_put_live|reflexivity].
Qed.

Lemma wp_status_live (run_id cid st : string) (Q : result unit -> world -> Prop)
    (w : world) :
  (forall w', live run_id w' = live run_id w -> runs_of w' = runs_of w ->
              Q (Ok ()) w') ->
  wp (db_update_company_run_status utcnow cid st) Q w.
Proof. intros HQ. apply HQ; reflexivity. Qed.

Lemma wp_upsert_live (run_id : string) (batch : list Database.job_record)
    (Q : result unit -> world -> Prop) (w : world) :
  (forall res w', live run_id w' = live run_id w -> runs_of w' = runs_of w ->
                  Q res w') ->
  wp (db_upsert_jobs_batch utcnow batch) Q w.
Proof.
  intros HQ. unfold wp, db_upsert_jobs_batch, Database.upsert_jobs_batch.
  destruct batch as [|b batch]; [apply HQ; reflexivity|].
  destruct (Database.upsert_all _ _ _); apply HQ; reflexivity.
Qed.

Lemma wp_score_live (run_id : string) (inputs : list dict) (rt : string) (rs : json)
    (Q : result (list json) -> world -> Prop) (w : world) :
  (forall w', live run_id w' = live run_id w -> runs_of w' = runs_of w ->
              Q (score_jobs_batch inputs rt rs) w') ->
  wp (fun w0 : world => (score_jobs_batch inputs rt rs, log (Scored (length inputs)) w0))
     Q w.
Proof. intros HQ. apply HQ; reflexivity. Qed.

Lemma filter_jobs_nil (tt : json) :
  filter_jobs is_posted_today is_relevant_job is_usa_job [] tt = Ok [].
Proof. reflexivity. Qed.

Ltac post_with H HR :=
  eexists; split; [exact H|]; split; [exact HR|];
  cbn [status total_companies companies_done jobs_found jobs_returned errors
       with_phase add_jobs_found add_jobs_returned append_error];
  split; [reflexivity|]; split; [reflexivity|]; split; [reflexivity|].

Ltac raised := split; [reflexivity|]; split; [reflexivity|]; split; [lia|].

(** What the [try] block of a scan does to the live state of the run; the
    table of runs is not written. *)
Definition scan_try_post (run_id : string) (company : Database.company)
    (w0 : world) (r0 : run_state) (res : result (nat * nat)) (w' : world) : Prop :=
  exists r', live run_id w' = Some r'
    /\ runs_of w' = runs_of w0
    /\ status r' = status r0 /\ total_companies r' = total_companies r0
    /\ companies_done r' = companies_done r0
    /\ match res with
       | Ok (found, returned) =>
           jobs_found r' = (jobs_found r0 + found)%nat
           /\ jobs_returned r' = (jobs_returned r0 + returned)%nat
       | Raise e =>
           errors r' = errors r0 /\ jobs_returned r' = jobs_returned r0
           /\ (jobs_found r0 <= jobs_found r')%nat
           /\ forall c jobs,
                Workday.parse_workday_url urlparse (Database.workday_url company)
                = Ok (Some c) ->
                fst (fst (crawl_company (Workday.host c) (Workday.tenant c)
                            (Workday.site c) (outside w0))) = Ok jobs ->
                jobs_found r' = (jobs_found r0 + length jobs)%nat /\ jobs <> []
       end.

Lemma scan_try_run (company : Database.company) (run_id : string) (tt : json)
    (rt : string) (rs : json) (w : world) (r0 : run_state) :
  live run_id w = Some r0 ->
  scan_try_post run_id company w r0
    (fst (scan_try company run_id tt rt rs w))
    (snd (scan_try company run_id tt rt rs w)).
Proof.
  intros Hl. change (wp (scan_try company run_id tt rt rs)
                        (scan_try_post run_id company w r0) w).
  unfold App.scan_try, scan_try_post.
  apply wp_bind, wp_lift.
  destruct (Workday.parse_workday_url urlparse (Database.workday_url company))
    as [[c|]|e] eqn:Eparse.
  - (* the crawl *)
    apply wp_bind. eapply wp_do_crawl; [exact Hl|]. intros p w1 Hl1 HR1.
    destruct (fst (fst (crawl_company _ _ _ (outside w)))) as [jobs|e] eqn:Ecrawl.
    2:{ post_with Hl1 HR1. raised. intros c' jobs' [= <-] Hj. congruence. }
    apply wp_bind. eapply wp_modify_live; [exact Hl1|]. intros w2 Hl2 HR2.
    rewrite HR1 in HR2.
    apply wp_bind. eapply wp_modify_live; [exact Hl2|]. intros w3 Hl3 HR3.
    rewrite HR2 in HR3.
    assert (Hcrawl : forall c' jobs',
      Ok (Some c) = Ok (Some c') ->
      fst (fst (crawl_company (Workday.host c') (Workday.tenant c')
                  (Workday.site c') (outside w))) = Ok jobs' ->
      jobs' = jobs)
      by (intros c' jobs' [= <-] Hj; congruence).
    apply wp_bind, wp_lift.
    destruct (filter_jobs _ _ _ jobs tt) as [filtered|e] eqn:Efilter.
    2:{ post_with Hl3 HR3. raised. intros c' jobs' Hc Hj.
        rewrite (Hcrawl c' jobs' Hc Hj). split; [reflexivity|].
        intros ->. rewrite filter_jobs_nil in Efilter. discriminate. }
    destruct filtered as [|j filtered].
    { apply wp_bind. apply (wp_status_live run_id). intros w4 Hl4 HR4. apply wp_ret.
      rewrite Hl3 in Hl4. rewrite HR3 in HR4. post_with Hl4 HR4. split; lia. }
    assert (Hne : jobs <> [])
      by (intros ->; rewrite filter_jobs_nil in Efilter; discriminate).
    apply wp_bind. eapply wp_modify_live; [exact Hl3|]. intros w4 Hl4 HR4.
    rewrite HR3 in HR4.
    apply wp_bind, wp_lift.
    destruct (map_result score_input (j :: filtered)) as [inputs|e].
    2:{ post_with Hl4 HR4. raised. intros c' jobs' Hc Hj.
        rewrite (Hcrawl c' jobs' Hc Hj). auto. }
    apply wp_bind. apply (wp_score_live run_id). intros w5 Hl5 HR5.
    rewrite Hl4 in Hl5. rewrite HR4 in HR5.
    destruct (score_jobs_batch inputs rt rs) as [results|e].
    2:{ post_with Hl5 HR5. raised. intros c' jobs' Hc Hj.
        rewrite (Hcrawl c' jobs' Hc Hj). auto. }
    apply wp_bind, wp_lift.
    destruct (map_result _ (zip (j :: filtered) results)) as [records|e].
    2:{ post_with Hl5 HR5. raised. intros c' jobs' Hc Hj.
        rewrite (Hcrawl c' jobs' Hc Hj). auto. }
    apply wp_bind. apply (wp_upsert_live run_id). intros res w6 Hl6 HR6.
    rewrite Hl5 in Hl6. rewrite HR5 in HR6.
    destruct res as [[]|e].
    2:{ post_with Hl6 HR6. raised. intros c' jobs' Hc Hj.
        rewrite (Hcrawl c' jobs' Hc Hj). auto. }
    apply wp_bind. eapply wp_modify_live; [exact Hl6|]. intros w7 Hl7 HR7.
    rewrite HR6 in HR7.
    apply wp_bind. apply (wp_status_live run_id). intros w8 Hl8 HR8. apply wp_ret.
    rewrite Hl7 in Hl8. rewrite HR7 in HR8. post_with Hl8 HR8. split; lia.
  - (* the URL does not resolve *)
    apply wp_bind. eapply wp_modify_live; [exact Hl|]. intros w1 Hl1 HR1.
    apply wp_bind. apply (wp_status_live run_id). intros w2 Hl2 HR2. apply wp_ret.
    rewrite Hl1 in Hl2. rewrite HR1 in HR2. post_with Hl2 HR2. split; lia.
  - (* urlparse raises *)
    post_with Hl (eq_refl (runs_of w)). raised. discriminate.
Qed.

(** The scan of one employer, in a registered run: it never raises. *)
Lemma scan_one_company_run (company : Database.company) (run_id : string) (tt : json)
    (rt : string) (rs : json) (w : world) (r0 : run_state) :
  live run_id w = Some r0 ->
  let attempt := scan_try company run_id tt rt rs (try_world run_id company w) in
  exists found returned w' r',
    _scan_one_company company run_id tt rt rs w = (Ok (found, returned), w')
    /\ live run_id w' = Some r'
    /\ runs_of w' = runs_of w
    /\ status r' = status r0 /\ total_companies r' = total_companies r0
    /\ companies_done r' = companies_done r0
    /\ (jobs_found r0 + found <= jobs_found r')%nat
    /\ jobs_returned r' = (jobs_returned r0 + returned)%nat
    /\ (forall e, fst attempt = Raise e ->
         found = 0%nat /\ returned = 0%nat
         /\ errors r' = errors r0 ++ [Database.company_name company +:+ ": " +:+ exn_str e]
         /\ database w'
            = Database.update_company_run_status (Database.company_id company)
                ("error: " +:+ take_str 100 (exn_str e))
                (utcnow (outside (snd attempt))) (database (snd attempt))
         /\ calls w'
            = calls (snd attempt)
              ++ [CompanyStatusWritten (Database.company_id company)
                    ("error: " +:+ take_str 100 (exn_str e))]
         /\ forall c jobs,
              Workday.parse_workday_url urlparse (Database.workday_url company)
              = Ok (Some c) ->
              fst (fst (crawl_company (Workday.host c) (Workday.tenant c)
                          (Workday.site c) (outside w))) = Ok jobs ->
              jobs_found r' = (jobs_found r0 + length jobs)%nat /\ jobs <> []).
Proof.
  intros Hl attempt.
  assert (Hw : try_world run_id company w
               = put_live run_id
                   (with_phase (PhaseScanning (Database.company_name company)) r0) w)
    by (unfold try_world, modify_run, read_run, write_run, mbind, A_bind;
        rewrite Hl; reflexivity).
  subst attempt. rewrite Hw. clear Hw.
  set (w1 := put_live run_id
               (with_phase (PhaseScanning (Database.company_name company)) r0) w).
  set (attempt := scan_try company run_id tt rt rs w1).
  pose proof (scan_try_run company run_id tt rt rs w1
                (with_phase (PhaseScanning (Database.company_name company)) r0)
                (live_put_live _ _ _)) as Hpost.
  fold attempt in Hpost.
  unfold App._scan_one_company, modify_run, read_run, write_run, mbind, A_bind, try_except.
  rewrite Hl. cbn beta iota. fold w1. fold attempt.
  destruct attempt as [[[found returned]|e] w2] eqn:Ea; cbn [fst snd] in *;
    destruct Hpost as (r2 & Hl2 & HR & Hs & Ht & Hd & Hrest).
  - destruct Hrest as [Hf Hr]. exists found, returned, w2, r2. cbn in *.
    repeat (split; [first [reflexivity|assumption|lia]|]). intros e He. discriminate.
  - destruct Hrest as (He & Hr & Hf & Hcrawl). rewrite Hl2. cbn beta iota.
    eexists 0%nat, 0%nat, _, _. split; [reflexivity|].
    split; [apply live_put_live|]. cbn in *.
    repeat (split; [first [assumption|lia]|]).
    match goal with H : Raise _ = Raise _ |- _ => injection H as <- end.
    repeat (split; [first [reflexivity|congruence]|]).
    exact Hcrawl.
Qed.

(** The loop over the employers, in a registered run: it never raises,
    its totals are the sums of what the scans return, and the live
    [jobs_found] grows by what each scan adds to it. *)
Lemma scan_companies_run (run_id : string) (tt : json) (rt : string) (rs : json)
    (cs : list Database.company) :
  forall (ci : nat) (w : world) (r0 : run_state) (tf tr : nat),
    live run_id w = Some r0 ->
    let points := scan_points cs ci run_id tt rt rs w in
    let values := map (scan_value run_id tt rt rs) points in
    exists w' r',
      scan_companies cs ci run_id tt rt rs tf tr w
      = (Ok ((tf + list_sum (map fst values))%nat,
             (tr + list_sum (map snd values))%nat), w')
      /\ live run_id w' = Some r'
      /\ runs_of w' = runs_of w
      /\ status r' = status r0 /\ total_companies r' = total_companies r0
      /\ companies_done r' = match cs with
                             | [] => companies_done r0
                             | _ => (ci + length cs)%nat
                             end
      /\ jobs_found r'
         = (jobs_found r0 + list_sum (map (live_delta run_id tt rt rs) points))%nat
      /\ jobs_returned r' = (jobs_returned r0 + list_sum (map snd values))%nat
      /\ Forall (scan_accounting run_id tt rt rs) points.
Proof.
  induction cs as [|c cs IH]; intros ci w r0 tf tr Hl points values.
  - exists w, r0. subst points values. cbn.
    rewrite !Nat.add_0_r. repeat (split; [first [reflexivity|assumption]|]).
    constructor.
  - subst points values. cbn [App.scan_points App.scan_companies map list_sum].
    set (w1 := snd (modify_run run_id (with_current_company (Database.company_name c)) w)).
    assert (Hw1 : modify_run run_id (with_current_company (Database.company_name c)) w
                  = (Ok (), w1))
      by (unfold w1, modify_run, read_run, write_run, mbind, A_bind; rewrite Hl;
          reflexivity).
    assert (Hl1 : live run_id w1
                  = Some (with_current_company (Database.company_name c) r0))
      by (unfold w1, modify_run, read_run, write_run, mbind, A_bind; rewrite Hl;
          apply live_put_live).
    assert (HR1 : runs_of w1 = runs_of w)
      by (unfold w1, modify_run, read_run, write_run, mbind, A_bind; rewrite Hl;
          reflexivity).
    destruct (scan_one_company_run c run_id tt rt rs w1 _ Hl1)
      as (found & returned & w2 & r2 & Hrun & Hl2 & HR2 & Hs & Ht & Hd & Hf & Hr
          & Hraise).
    set (w3 := snd (modify_run run_id (with_companies_done (ci + 1)) _)).
    assert (Hv : scan_value run_id tt rt rs (c, w1) = (found, returned))
      by (unfold App.scan_value; cbn [fst snd]; rewrite Hrun; reflexivity).
    assert (Hdelta : live_delta run_id tt rt rs (c, w1)
                     = (jobs_found r2 - jobs_found r0)%nat).
    { unfold App.live_delta, live_jobs_found. cbn [fst snd].
      rewrite Hrun, Hl1. cbn [snd]. rewrite Hl2. reflexivity. }
    assert (Hw3 : modify_run run_id (with_companies_done (ci + 1)) w2 = (Ok (), w3)
                  /\ live run_id w3 = Some (with_companies_done (ci + 1) r2)
                  /\ runs_of w3 = runs_of w2).
    { unfold w3. rewrite Hrun. cbn [snd].
      unfold modify_run, read_run, write_run, mbind, A_bind. rewrite Hl2.
      split; [reflexivity|]. split; [apply live_put_live|reflexivity]. }
    destruct Hw3 as (Hw3 & Hl3 & HR3).
    destruct (IH (S ci) w3 _ (tf + found)%nat (tr + returned)%nat Hl3)
      as (w' & r' & Hrun' & Hl' & HR' & Hs' & Ht' & Hd' & Hf' & Hr' & Hall).
    exists w', r'. cbv zeta in Hrun'.
    unfold mbind, A_bind. rewrite Hw1. cbn beta iota. rewrite Hrun. cbn beta iota.
    rewrite Hw3. cbn beta iota. rewrite Hrun'. rewrite Hv, Hdelta. cbn [fst snd].
    cbn in Hs, Ht, Hd, Hf, Hr, Hs', Ht', Hd', Hf', Hr'.
    unfold list_sum in *. cbn [fold_right].
    split; [rewrite !Nat.add_assoc; reflexivity|].
    split; [assumption|]. split; [congruence|].
    split; [congruence|]. split; [congruence|].
    split; [destruct cs; cbn in Hd' |- *; lia|].
    split; [lia|]. split; [lia|].
    constructor; [|exact Hall]. unfold App.scan_accounting.
    rewrite Hv, Hdelta. cbn [fst snd].
    split; [lia|]. intros e He.
    destruct (Hraise e He) as (-> & -> & _ & _ & _ & Hcrawl).
    split; [reflexivity|]. intros c' jobs Hp Hj.
    destruct (Hcrawl c' jobs Hp Hj) as [Hjf Hne].
    cbn in Hjf. split; [lia|exact Hne].
Qed.

Lemma wp_write_run (run_id : string) (r : run_state)
    (Q : result unit -> world -> Prop) (w : world) :
  Q (Ok ()) (put_live run_id r w) -> wp (write_run run_id r) Q w.
Proof. auto. Qed.

Lemma wp_get_world (Q : result world -> world -> Prop) (w : world) :
  Q (Ok w) w -> wp get_world Q w.
Proof. auto. Qed.

Lemma wp_read_run (run_id : string) (r : run_state)
    (Q : result run_state -> world -> Prop) (w : world) :
  live run_id w = Some r -> Q (Ok r) w -> wp (read_run run_id) Q w.
Proof. intros H HQ. unfold wp, read_run. rewrite H. exact HQ. Qed.

Lemma wp_eq {X} (m : A X) (Q : result X -> world -> Prop) (w : world)
    (r : result X) (w' : world) :
  m w = (r, w') -> Q r w' -> wp m Q w.
Proof. intros H HQ. unfold wp. rewrite H. exact HQ. Qed.

(** A run whose preconditions hold ends in [done]: the totals it persists
    are the sums of what the scans returned. *)
Lemma run_scanner_done (run_id : string) (w : world) (c : Database.company)
    (cs : list Database.company) (res : Database.resume_row) :
  Database.companies (database w) = c :: cs ->
  Database.resume (database w) = Some res ->
  let points :=
    scan_points (c :: cs) 0 run_id (load_titles json_loads (database w))
      (Database.resume_text res) (Database.skills_list res) (scan_start run_id w) in
  let value :=
    scan_value run_id (load_titles json_loads (database w))
      (Database.resume_text res) (Database.skills_list res) in
  let delta :=
    live_delta run_id (load_titles json_loads (database w))
      (Database.resume_text res) (Database.skills_list res) in
  let w' := snd (_run_scanner run_id w) in
  fst (_run_scanner run_id w) = Ok ()
  /\ exists r' now before,
      live run_id w' = Some r'
      /\ status r' = "done" /\ phase r' = PhaseComplete
      /\ companies_done r' = length (c :: cs)
      /\ total_companies r' = length (c :: cs)
      /\ jobs_found r' = list_sum (map delta points)
      /\ jobs_returned r' = list_sum (map snd (map value points))
      /\ Forall (scan_accounting run_id (load_titles json_loads (database w))
                   (Database.resume_text res) (Database.skills_list res)) points
      /\ runs_of w'
         = alter (Database.apply_update
                    (done_update json_dumps now (length (c :: cs))
                       (list_sum (map fst (map value points)))
                       (list_sum (map snd (map value points)))
                       (errors r')))
                 run_id (runs_of w)
      /\ calls w'
         = before ++ [RunWritten run_id
                        (done_update json_dumps now (length (c :: cs))
                           (list_sum (map fst (map value points)))
                           (list_sum (map snd (map value points)))
                           (errors r'))].
Proof.
  intros Hc Hres points value delta w'. subst w'.
  assert (Hstart : live run_id (scan_start run_id w)
                   = Some (with_total_companies (length (c :: cs)) initial_run))
    by (unfold scan_start; rewrite Hc; apply live_put_live).
  destruct (scan_companies_run run_id (load_titles json_loads (database w))
              (Database.resume_text res) (Database.skills_list res) (c :: cs)
              0%nat (scan_start run_id w) _ 0%nat 0%nat Hstart)
    as (w1 & r1 & Hrun & Hl1 & HR1 & Hs1 & Ht1 & Hd1 & Hf1 & Hr1 & Hall).
  fold points in Hrun, Hf1, Hr1, Hall. fold value in Hrun, Hr1.
  fold delta in Hf1. cbv zeta in Hrun.
  cbn [with_total_companies initial_run status total_companies companies_done
       jobs_found jobs_returned Nat.add] in Hs1, Ht1, Hd1, Hf1, Hr1, Hrun.
  change (wp (_run_scanner run_id)
            (fun r w' =>
               r = Ok ()
               /\ exists r' now before,
                   live run_id w' = Some r'
                   /\ status r' = "done" /\ phase r' = PhaseComplete
                   /\ companies_done r' = length (c :: cs)
                   /\ total_companies r' = length (c :: cs)
                   /\ jobs_found r' = list_sum (map delta points)
                   /\ jobs_returned r' = list_sum (map snd (map value points))
                   /\ Forall (scan_accounting run_id
                                (load_titles json_loads (database w))
                                (Database.resume_text res)
                                (Database.skills_list res)) points
                   /\ runs_of w'
                      = alter (Database.apply_update
                                 (done_update json_dumps now (length (c :: cs))
                                    (list_sum (map fst (map value points)))
                                    (list_sum (map snd (map value points)))
                                    (errors r')))
                              run_id (runs_of w)
                   /\ calls w'
                      = before ++ [RunWritten run_id
                                     (done_update json_dumps now (length (c :: cs))
                                        (list_sum (map fst (map value points)))
                                        (list_sum (map snd (map value points)))
                                        (errors r'))]) w).
  unfold App._run_scanner, register_run.
  apply wp_bind, wp_write_run, wp_try_except.
  unfold App.run_try. apply wp_bind, wp_get_world.
  cbn [database put_live].
  unfold Database.get_all_companies, Database.get_resume. rewrite Hc, Hres.
  apply wp_bind. eapply wp_modify_run; [apply live_put_live|].
  unfold scan_start in Hrun at 1. rewrite Hc in Hrun.
  apply wp_bind. eapply wp_eq; [exact Hrun|].
  apply wp_bind. eapply wp_modify_live; [exact Hl1|]. intros w2 Hl2 HR2.
  apply wp_bind. eapply wp_modify_live; [exact Hl2|]. intros w3 Hl3 HR3.
  apply wp_bind, wp_get_world.
  apply wp_bind. eapply wp_read_run; [exact Hl3|].
  unfold wp. cbn [fst snd db_update_run log calls database Database.update_run
                  Database.runs].
  split; [reflexivity|].
  eexists _, _, _. split; [exact Hl3|].
  cbn [status phase companies_done total_companies jobs_found jobs_returned errors
       with_status with_phase].
  repeat (split; [first [reflexivity|assumption]|]).
  rewrite HR3, HR2, HR1. split; reflexivity.
Qed.

Lemma take_str_length (n : nat) (s : string) : (String.length (take_str n s) <= n)%nat.
Proof.
  unfold take_str. revert s. induction n as [|n IH]; intros [|c s]; cbn; try lia.
  specialize (IH s). lia.
Qed.

Lemma update_status_rows (cid st now : string) (d : Database.db) :
  Forall (fun row => Database.company_id row = cid ->
                     Database.last_run_status row = Some st)
         (Database.companies (Database.update_company_run_status cid st now d))
  /\ map Database.company_id
         (Database.companies (Database.update_company_run_status cid st now d))
     = map Database.company_id (Database.companies d).
Proof.
  unfold Database.update_company_run_status. cbn [Database.companies].
  induction (Database.companies d) as [|row rows [IH1 IH2]]; [split; constructor|].
  cbn [map]. destruct (String.eqb_spec (Database.company_id row) cid) as [Heq|Hne].
  - split; [constructor; [reflexivity|exact IH1]|]. cbn. f_equal. exact IH2.
  - split; [constructor; [contradiction|exact IH1]|]. f_equal. exact IH2.
Qed.


(** A scan whose [try] block raises: the exception is caught at the
    employer boundary. *)
Lemma scan_error_contained (company : Database.company) (run_id : string) (tt : json)
    (rt : string) (rs : json) (w : world) (r0 : run_state) (e : exn) :
  live run_id w = Some r0 ->
  fst (scan_try company run_id tt rt rs (try_world run_id company w)) = Raise e ->
  let w' := snd (_scan_one_company company run_id tt rt rs w) in
  let st := "error: " +:+ take_str 100 (exn_str e) in
  fst (_scan_one_company company run_id tt rt rs w) = Ok (0, 0)%nat
  /\ (exists r',
        live run_id w' = Some r' /\ status r' = status r0
        /\ errors r' = errors r0 ++ [Database.company_name company +:+ ": " +:+ exn_str e]
        /\ jobs_returned r' = jobs_returned r0)
  /\ Forall (fun row => Database.company_id row = Database.company_id company ->
                        Database.last_run_status row = Some st)
            (Database.companies (database w'))
  /\ (String.length (take_str 100 (exn_str e)) <= 100)%nat
  /\ last (calls w') = Some (CompanyStatusWritten (Database.company_id company) st).
Proof.
  intros Hl He w' st. subst w'.
  destruct (scan_one_company_run company run_id tt rt rs w r0 Hl)
    as (found & returned & w' & r' & Hrun & Hl' & _ & Hs & _ & _ & _ & Hr & Hraise).
  destruct (Hraise e He) as (-> & -> & Herr & Hdb & Hcalls & _).
  rewrite Hrun. cbn [fst snd]. split; [reflexivity|].
  split; [exists r'; rewrite Nat.add_0_r in Hr; auto|].
  split; [rewrite Hdb; apply update_status_rows|].
  split; [apply take_str_length|].
  rewrite Hcalls. apply last_snoc.
Qed.

Lemma sum_accounting (run_id : string) (tt : json) (rt : string) (rs : json)
    (points : list (Database.company * world)) :
  Forall (scan_accounting run_id tt rt rs) points ->
  (list_sum (map fst (map (scan_value run_id tt rt rs) points))
   <= list_sum (map (live_delta run_id tt rt rs) points))%nat
  /\ (Exists (raised_after_crawl run_id tt rt rs) points ->
      (list_sum (map fst (map (scan_value run_id tt rt rs) points))
       < list_sum (map (live_delta run_id tt rt rs) points))%nat).
Proof.
  induction 1 as [|p points Hp Hall [IH1 IH2]]; cbn [map list_sum fold_right].
  - split; [lia|]. intros H. inversion H.
  - unfold list_sum in *. cbn [fold_right]. destruct Hp as [Hle Hraise].
    split; [lia|]. intros Hex. apply Exists_cons in Hex as [Hhd|Htl].
    + destruct Hhd as (e & c & jobs & He & Hparse & Hcrawl).
      destruct (Hraise e He) as [Hv Hd]. destruct (Hd c jobs Hparse Hcrawl) as [Hd' Hne].
      rewrite Hv, Hd'. cbn [fst]. destruct jobs; [contradiction|]. cbn [length]. lia.
    + specialize (IH2 Htl). lia.
Qed.

(** C10. In a run whose preconditions hold, the persisted [total_jobs_found]
    is the sum of the [found] values the employers' scans returned, a scan
    that raised returning [(0, 0)]; the live [jobs_found] is the sum of what
    each scan added to it, which for a scan that raises after its crawl
    returned jobs is the number of those jobs.  So the live counter is never
    below the persisted total, and it is strictly above it as soon as one
    employer's crawl returned jobs and a later stage of its scan raised. *)
Theorem live_jobs_found_exceeds_persisted (run_id : string) (w : world)
    (c : Database.company) (cs : list Database.company) (res : Database.resume_row)
    (row : Database.run_row) :
  Database.companies (database w) = c :: cs ->
  Database.resume (database w) = Some res ->
  runs_of w !! run_id = Some row ->
  let tt := load_titles json_loads (database w) in
  let rt := Database.resume_text res in
  let rs := Database.skills_list res in
  let points := scan_points (c :: cs) 0 run_id tt rt rs (scan_start run_id w) in
  let w' := snd (_run_scanner run_id w) in
  exists r' row',
    live run_id w' = Some r' /\ runs_of w' !! run_id = Some row'
    /\ Database.total_jobs_found row'
       = list_sum (map fst (map (scan_value run_id tt rt rs) points))
    /\ jobs_found r' = list_sum (map (live_delta run_id tt rt rs) points)
    /\ Forall (scan_accounting run_id tt rt rs) points
    /\ (Database.total_jobs_found row' <= jobs_found r')%nat
    /\ (Exists (raised_after_crawl run_id tt rt rs) points ->
        (Database.total_jobs_found row' < jobs_found r')%nat).
Proof.
  intros Hc Hres Hrow tt rt rs points w'.
  destruct (run_scanner_done run_id w c cs res Hc Hres)
    as (_ & r' & now & before & Hl & _ & _ & _ & _ & Hf & _ & Hall & Hruns & _).
  fold tt rt rs in Hf, Hall, Hruns. fold points in Hf, Hall, Hruns. fold w' in Hl, Hruns.
  destruct (sum_accounting run_id tt rt rs points Hall) as [Hle Hlt].
  eexists r', _. split; [exact Hl|].
  split; [rewrite Hruns, lookup_alter_eq, Hrow; reflexivity|].
  cbn [Database.apply_update Database.total_jobs_found done_update
       Database.set_total_jobs_found default].
  split; [reflexivity|]. split; [exact Hf|]. split; [exact Hall|].
  rewrite Hf. split; [exact Hle|exact Hlt].
Qed.

(** The run-level part of C2. *)
Lemma run_ends_done (run_id : string) (w : world)
    (c : Database.company) (cs : list Database.company) (res : Database.resume_row)
    (row : Database.run_row) :
  Database.companies (database w) = c :: cs ->
  Database.resume (database w) = Some res ->
  runs_of w !! run_id = Some row ->
  let tt := load_titles json_loads (database w) in
  let rt := Database.resume_text res in
  let rs := Database.skills_list res in
  let points := scan_points (c :: cs) 0 run_id tt rt rs (scan_start run_id w) in
  let values := map (scan_value run_id tt rt rs) points in
  let w' := snd (_run_scanner run_id w) in
  fst (_run_scanner run_id w) = Ok ()
  /\ exists r' row',
      live run_id w' = Some r' /\ runs_of w' !! run_id = Some row'
      /\ status r' = "done" /\ Database.status row' = "done"
      /\ companies_done r' = length (c :: cs)
      /\ jobs_returned r' = list_sum (map snd values)
      /\ Database.total_jobs_found row' = list_sum (map fst values)
      /\ Database.total_jobs_returned row' = list_sum (map snd values)
      /\ Forall (scan_accounting run_id tt rt rs) points.
Proof.
  intros Hc Hres Hrow tt rt rs points values w'.
  destruct (run_scanner_done run_id w c cs res Hc Hres)
    as (Hok & r' & now & before & Hl & Hs & _ & Hd & _ & _ & Hr & Hall & Hruns & _).
  fold tt rt rs in Hr, Hall, Hruns. fold points in Hr, Hall, Hruns.
  fold values in Hr, Hruns. fold w' in Hl, Hruns.
  split; [exact Hok|]. eexists r', _. split; [exact Hl|].
  split; [rewrite Hruns, lookup_alter_eq, Hrow; reflexivity|].
  cbn [Database.apply_update Database.total_jobs_found Database.total_jobs_returned
       Database.status done_update Database.set_total_jobs_found
       Database.set_total_jobs_returned Database.set_status default].
  repeat (split; [first [reflexivity|assumption]|]). exact Hall.
Qed.

(** C2. An exception raised in the [try] block of an employer's scan
    (by the resolver, the crawl, a filter, the scorer or the batch write) is
    caught at the employer boundary: the scan returns [(0, 0)], the
    employer's status becomes ["error: "] followed by at most 100 characters
    of the message, the error list of the run gains one entry, and the run
    stays [running].  A run whose preconditions hold always ends in [done],
    in the live state and in the persisted run, with every employer
    processed and with totals that are the sums of what the scans returned,
    a scan that raised counting for [(0, 0)].  In the sample run of three
    employers whose second crawl raises, the statuses are success, error,
    success and the jobs returned are those of the first and the third. *)
Theorem scan_errors_are_contained (run_id : string) :
  (forall (company : Database.company) (tt : json) (rt : string) (rs : json)
          (w : world) (r0 : run_state) (e : exn),
      live run_id w = Some r0 ->
      fst (scan_try company run_id tt rt rs (try_world run_id company w)) = Raise e ->
      let w' := snd (_scan_one_company company run_id tt rt rs w) in
      let st := "error: " +:+ take_str 100 (exn_str e) in
      fst (_scan_one_company company run_id tt rt rs w) = Ok (0, 0)%nat
      /\ (exists r',
            live run_id w' = Some r' /\ status r' = status r0
            /\ errors r' = errors r0
                             ++ [Database.company_name company +:+ ": " +:+ exn_str e]
            /\ jobs_returned r' = jobs_returned r0)
      /\ Forall (fun row => Database.company_id row = Database.company_id company ->
                            Database.last_run_status row = Some st)
                (Database.companies (database w'))
      /\ (String.length (take_str 100 (exn_str e)) <= 100)%nat
      /\ last (calls w') = Some (CompanyStatusWritten (Database.company_id company) st))
  /\ (forall (w : world) (c : Database.company) (cs : list Database.company)
             (res : Database.resume_row) (row : Database.run_row),
        Database.companies (database w) = c :: cs ->
        Database.resume (database w) = Some res ->
        runs_of w !! run_id = Some row ->
        let tt := load_titles json_loads (database w) in
        let rt := Database.resume_text res in
        let rs := Database.skills_list res in
        let points := scan_points (c :: cs) 0 run_id tt rt rs (scan_start run_id w) in
        let values := map (scan_value run_id tt rt rs) points in
        let w' := snd (_run_scanner run_id w) in
        fst (_run_scanner run_id w) = Ok ()
        /\ exists r' row',
            live run_id w' = Some r' /\ runs_of w' !! run_id = Some row'
            /\ status r' = "done" /\ Database.status row' = "done"
            /\ companies_done r' = length (c :: cs)
            /\ jobs_returned r' = list_sum (map snd values)
            /\ Database.total_jobs_found row' = list_sum (map fst values)
            /\ Database.total_jobs_returned row' = list_sum (map snd values)
            /\ Forall (scan_accounting run_id tt rt rs) points)
  /\ (let w' := snd (sample_run three_employers) in
      fst (sample_run three_employers) = Ok ()
      /\ (status <$> live "run1" w') = Some "done"
      /\ statuses w' = [Some "success"; Some "error: 'externalPath'"; Some "success"]
      /\ (jobs_returned <$> live "run1" w') = Some (1 + 0 + 1)%nat
      /\ (errors <$> live "run1" w') = Some ["Globex: 'externalPath'"]
      /\ (Database.status <$> Database.runs (database w') !! "run1") = Some "done"
      /\ (Database.total_jobs_returned <$> Database.runs (database w') !! "run1")
         = Some (1 + 0 + 1)%nat).
Proof.
  split; [|split].
  - intros company tt rt rs w r0 e. apply scan_error_contained.
  - intros w c cs res row. apply run_ends_done.
  - vm_compute. repeat split.
Qed.

End OrchestratorFacts.

(** *** The theorems at the sample installation *)


Lemma scan_errors_are_contained_witness :
  let w := put_live "run1" initial_run (sample_world three_employers) in
  let globex := sample_company "c2" "Globex" "globex" in
  live "run1" w = Some initial_run
  /\ fst (scan_try Workday.urlparse_simple sample_crawl sample_is_posted_today
            sample_is_relevant_job sample_is_usa_job sample_score_jobs_batch
            sample_utcnow sample_format_value globex "run1" DEFAULT_JOB_TITLES
            "Machine learning engineer" (JArr [JStr "python"])
            (try_world "run1" globex w))
     = Raise (KeyError "externalPath")
  /\ fst (_scan_one_company Workday.urlparse_simple sample_crawl sample_is_posted_today
            sample_is_relevant_job sample_is_usa_job sample_score_jobs_batch
            sample_utcnow sample_format_value globex "run1" DEFAULT_JOB_TITLES
            "Machine learning engineer" (JArr [JStr "python"]) w)
     = Ok (0, 0)%nat.
Proof.
  cbv zeta.
  assert (H1 : live "run1" (put_live "run1" initial_run (sample_world three_employers))
               = Some initial_run) by (vm_compute; reflexivity).
  assert (H2 : fst (scan_try Workday.urlparse_simple sample_crawl sample_is_posted_today
                      sample_is_relevant_job sample_is_usa_job sample_score_jobs_batch
                      sample_utcnow sample_format_value
                      (sample_company "c2" "Globex" "globex") "run1" DEFAULT_JOB_TITLES
                      "Machine learning engineer" (JArr [JStr "python"])
                      (try_world "run1" (sample_company "c2" "Globex" "globex")
                         (put_live "run1" initial_run (sample_world three_employers))))
               = Raise (KeyError "externalPath")) by (vm_compute; reflexivity).
  split; [exact H1|]. split; [exact H2|].
  exact (proj1 (proj1 (scan_errors_are_contained Workday.urlparse_simple sample_crawl
                         sample_is_posted_today sample_is_relevant_job sample_is_usa_job
                         sample_score_jobs_batch sample_utcnow sample_json_loads
                         sample_json_dumps sample_format_value "run1")
                  _ _ _ _ _ _ _ H1 H2)).
Defined.

Lemma live_jobs_found_exceeds_persisted_witness :
  Exists (raised_after_crawl Workday.urlparse_simple sample_crawl sample_is_posted_today
            sample_is_relevant_job sample_is_usa_job sample_score_jobs_batch
            sample_utcnow sample_format_value "run1" DEFAULT_JOB_TITLES
            "Machine learning engineer" (JArr [JStr "python"]))
         (scan_points Workday.urlparse_simple sample_crawl sample_is_posted_today
            sample_is_relevant_job sample_is_usa_job sample_score_jobs_batch
            sample_utcnow sample_format_value two_employers 0 "run1" DEFAULT_JOB_TITLES
            "Machine learning engineer" (JArr [JStr "python"])
            (scan_start "run1" (sample_world two_employers)))
  /\ exists r' row',
      live "run1" (snd (sample_run two_employers)) = Some r'
      /\ Database.runs (database (snd (sample_run two_employers))) !! "run1" = Some row'
      /\ (Database.total_jobs_found row' < jobs_found r')%nat.
Proof.
  assert (Hex :
    Exists (raised_after_crawl Workday.urlparse_simple sample_crawl sample_is_posted_today
              sample_is_relevant_job sample_is_usa_job sample_score_jobs_batch
              sample_utcnow sample_format_value "run1" DEFAULT_JOB_TITLES
              "Machine learning engineer" (JArr [JStr "python"]))
           (scan_points Workday.urlparse_simple sample_crawl sample_is_posted_today
              sample_is_relevant_job sample_is_usa_job sample_score_jobs_batch
              sample_utcnow sample_format_value two_employers 0 "run1" DEFAULT_JOB_TITLES
              "Machine learning engineer" (JArr [JStr "python"])
              (scan_start "run1" (sample_world two_employers)))).
  { apply Exists_cons_tl, Exists_cons_hd.
    eexists (OtherError "the scoring model failed"), _, _.
    split; [vm_compute; reflexivity|]. split; vm_compute; reflexivity. }
  split; [exact Hex|].
  destruct (live_jobs_found_exceeds_persisted Workday.urlparse_simple sample_crawl
              sample_is_posted_today sample_is_relevant_job sample_is_usa_job
              sample_score_jobs_batch sample_utcnow sample_json_loads sample_json_dumps
              sample_format_value "run1" (sample_world two_employers)
              (sample_company "c1" "Acme" "acme") [sample_company "c4" "Hooli" "hooli"]
              _ _ eq_refl eq_refl eq_refl)
    as (r' & row' & Hl & Hrow & _ & _ & _ & _ & Hlt).
  exists r', row'. split; [exact Hl|]. split; [exact Hrow|]. exact (Hlt Hex).
Defined.

Example sample_three :
  let w' := snd (sample_run three_employers) in
  fst (sample_run three_employers) = Ok ()
  /\ statuses w' = [Some "success"; Some "error: 'externalPath'"; Some "success"]
  /\ (status <$> live "run1" w') = Some "done"
  /\ (jobs_found <$> live "run1" w') = Some 2%nat
  /\ (jobs_returned <$> live "run1" w') = Some 2%nat
  /\ (errors <$> live "run1" w') = Some ["Globex: 'externalPath'"]
  /\ (Database.status <$> Database.runs (database w') !! "run1") = Some "done"
  /\ (Database.total_jobs_returned <$> Database.runs (database w') !! "run1")
     = Some 2%nat.
Proof. vm_compute. repeat split. Qed.

Example sample_two :
  let w' := snd (sample_run two_employers) in
  fst (sample_run two_employers) = Ok ()
  /\ statuses w' = [Some "success"; Some "error: the scoring model failed"]
  /\ (jobs_found <$> live "run1" w') = Some 2%nat
  /\ (Database.total_jobs_found <$> Database.runs (database w') !! "run1")
     = Some 1%nat.
Proof. vm_compute. repeat split. Qed.

End AppFacts.

(** ** Facts about the filters *)

Module FiltersFacts.
Import Workday.

(** *** Strings *)

Lemma app_cons_string (c : ascii) (a b : string) :
  String c a +:+ b = String c (a +:+ b).
Proof. reflexivity. Qed.

Lemma lower_app (a b : string) : lower (a +:+ b) = lower a +:+ lower b.
Proof.
  induction a as [|c a IH]; [reflexivity|].
  rewrite app_cons_string. cbn [lower]. rewrite IH. reflexivity.
Qed.

Lemma lower_char_idem (c : ascii) : lower_char (lower_char c) = lower_char c.
Proof.
  assert (H : forall n, (n < 256)%nat ->
            lower_char (lower_char (ascii_of_nat n)) = lower_char (ascii_of_nat n)).
  { intros n Hn. do 256 (destruct n as [|n]; [reflexivity|]). lia. }
  rewrite <- (ascii_nat_embedding c). apply H. apply nat_ascii_bounded.
Qed.

Lemma lower_idem (s : string) : lower (lower s) = lower s.
Proof.
  induction s as [|c s IH]; [reflexivity|]. cbn. rewrite lower_char_idem, IH.
  reflexivity.
Qed.

Lemma lower_empty (s : string) : lower s = "" -> s = "".
Proof. destruct s; [reflexivity|discriminate]. Qed.

Lemma split_on_nonempty (p : ascii -> bool) (s : string) : Keywords.split_on p s <> [].
Proof.
  induction s as [|c s IH]; cbn; [discriminate|].
  destruct (p c); [discriminate|]. destruct (Keywords.split_on p s); discriminate.
Qed.

Lemma split_on_app (p : ascii -> bool) (a b : string) (c : ascii) :
  p c = true ->
  Keywords.split_on p (a +:+ String c b)
  = Keywords.split_on p a ++ Keywords.split_on p b.
Proof.
  intros Hc. induction a as [|x a IH].
  - change ("" +:+ String c b) with (String c b). cbn. rewrite Hc. reflexivity.
  - rewrite app_cons_string. cbn [Keywords.split_on]. rewrite IH.
    destruct (p x); [reflexivity|].
    pose proof (split_on_nonempty p a) as Hne.
    destruct (Keywords.split_on p a); [contradiction|reflexivity].
Qed.

Lemma split_whitespace_app (a b : string) :
  Keywords.split_whitespace (a +:+ " " +:+ b)
  = Keywords.split_whitespace a ++ Keywords.split_whitespace b.
Proof.
  unfold Keywords.split_whitespace. change (" " +:+ b) with (String " " b).
  rewrite split_on_app by reflexivity. apply List.filter_app.
Qed.

Lemma extract_keywords_app (a b : string) :
  Keywords._extract_keywords (a +:+ " " +:+ b)
  = Keywords._extract_keywords a ++ Keywords._extract_keywords b.
Proof.
  unfold Keywords._extract_keywords. rewrite !lower_app.
  change (lower " ") with " ". rewrite split_whitespace_app. apply List.filter_app.
Qed.

(** *** Sets of words *)

Lemma mem_app (w : string) (a b : list string) :
  Keywords.mem w (a ++ b) = Keywords.mem w a || Keywords.mem w b.
Proof. apply existsb_app. Qed.

Lemma issubset_mono (t a b : list string) :
  (forall w, Keywords.mem w a = true -> Keywords.mem w b = true) ->
  Keywords.issubset t a = true -> Keywords.issubset t b = true.
Proof.
  intros H. unfold Keywords.issubset. rewrite !forallb_forall. intros Ht w Hw.
  apply H, Ht, Hw.
Qed.

Lemma issubset_ext (t a b : list string) :
  (forall w, Keywords.mem w a = Keywords.mem w b) ->
  Keywords.issubset t a = Keywords.issubset t b.
Proof.
  intros H. unfold Keywords.issubset. induction t as [|w t IH]; [reflexivity|].
  cbn. rewrite H, IH. reflexivity.
Qed.

Lemma match_targets_mono (jk jk' : list string) (targets : list json) :
  (forall w, Keywords.mem w jk = true -> Keywords.mem w jk' = true) ->
  Keywords.match_targets jk targets = Ok true ->
  Keywords.match_targets jk' targets = Ok true.
Proof.
  intros H. induction targets as [|t targets IH]; cbn; [discriminate|].
  destruct (Keywords.extract_keywords_of t) as [[|k tk]|e]; [exact IH| |discriminate].
  destruct (Keywords.issubset (k :: tk) jk) eqn:E.
  - intros _. rewrite (issubset_mono _ _ _ H E). reflexivity.
  - intros Hm. rewrite (IH Hm). destruct (Keywords.issubset (k :: tk) jk'); reflexivity.
Qed.

Lemma match_targets_ext (jk jk' : list string) (targets : list json) :
  (forall w, Keywords.mem w jk = Keywords.mem w jk') ->
  Keywords.match_targets jk targets = Keywords.match_targets jk' targets.
Proof.
  intros H. induction targets as [|t targets IH]; cbn; [reflexivity|].
  destruct (Keywords.extract_keywords_of t) as [[|k tk]|e]; [exact IH| |reflexivity].
  rewrite (issubset_ext _ _ _ H), IH. reflexivity.
Qed.

(** The verdict on a job whose title is a non-empty string. *)
Lemma is_relevant_job_titled (job : dict) (a : string) (targets : json) :
  lookup_key "title" job = Some (JStr a) -> a <> "" ->
  Keywords.is_relevant_job job targets
  = match iterate match targets with
                  | JNull => JArr (map JStr Keywords.DEFAULT_JOB_TITLES)
                  | t => t
                  end with
    | Ok ts => Keywords.match_targets (Keywords._extract_keywords a) ts
    | Raise e => Raise e
    end.
Proof.
  intros Ht Ha. unfold Keywords.is_relevant_job, get_default. rewrite Ht.
  cbn [truthy]. destruct (String.eqb_spec a ""); [contradiction|]. reflexivity.
Qed.

Lemma append_nonempty_r (a b : string) : b <> "" -> a +:+ b <> "".
Proof.
  intros Hb. destruct a; [exact Hb|]. rewrite app_cons_string. discriminate.
Qed.

(** X8. A title keeps its match when words are put before and after it: the
    job's title need only contain all the significant words of one target,
    in any position. *)
Theorem is_relevant_job_more_words (job job' : dict) (a pre post : string)
    (targets : json) :
  lookup_key "title" job = Some (JStr a) ->
  lookup_key "title" job' = Some (JStr (pre +:+ " " +:+ a +:+ " " +:+ post)) ->
  Keywords.is_relevant_job job targets = Ok true ->
  Keywords.is_relevant_job job' targets = Ok true.
Proof.
  intros Ht Ht' H.
  assert (Ha : a <> "").
  { intros ->. unfold Keywords.is_relevant_job, get_default in H. rewrite Ht in H.
    discriminate. }
  rewrite (is_relevant_job_titled job a targets Ht Ha) in H.
  rewrite (is_relevant_job_titled job' _ targets Ht').
  2:{ apply append_nonempty_r. discriminate. }
  destruct (iterate _) as [ts|e]; [|discriminate].
  revert H. apply match_targets_mono. intros w Hw.
  rewrite !extract_keywords_app, !mem_app, Hw. apply orb_true_iff. right. reflexivity.
Qed.

(** X9. The verdict depends on the title only through its set of significant
    words: it is the same for two titles that differ in case, for a title
    and the same title with a phrase of stop words and one-letter words put
    into it, and for the two orders of two phrases. *)
Theorem is_relevant_job_invariances (job job' : dict) (targets : json) :
  (forall a b,
      lookup_key "title" job = Some (JStr a) ->
      lookup_key "title" job' = Some (JStr b) ->
      lower a = lower b ->
      Keywords.is_relevant_job job targets = Keywords.is_relevant_job job' targets)
  /\ (forall a b w,
        lookup_key "title" job = Some (JStr (a +:+ " " +:+ b)) ->
        lookup_key "title" job' = Some (JStr (a +:+ " " +:+ w +:+ " " +:+ b)) ->
        Keywords._extract_keywords w = [] ->
        Keywords.is_relevant_job job targets = Keywords.is_relevant_job job' targets)
  /\ (forall a b,
        lookup_key "title" job = Some (JStr (a +:+ " " +:+ b)) ->
        lookup_key "title" job' = Some (JStr (b +:+ " " +:+ a)) ->
        Keywords.is_relevant_job job targets = Keywords.is_relevant_job job' targets).
Proof.
  split; [|split].
  - intros a b Ht Ht' Hl. destruct (String.eqb_spec a "") as [->|Ha].
    + symmetry in Hl. apply lower_empty in Hl. subst b.
      unfold Keywords.is_relevant_job, get_default. rewrite Ht, Ht'. reflexivity.
    + assert (Hb : b <> "") by (intros ->; apply lower_empty in Hl; contradiction).
      rewrite (is_relevant_job_titled job a targets Ht Ha),
        (is_relevant_job_titled job' b targets Ht' Hb).
      unfold Keywords._extract_keywords. rewrite Hl. reflexivity.
  - intros a b w Ht Ht' Hw.
    rewrite (is_relevant_job_titled job _ targets Ht),
      (is_relevant_job_titled job' _ targets Ht');
      try (apply append_nonempty_r; discriminate).
    rewrite !extract_keywords_app, Hw. reflexivity.
  - intros a b Ht Ht'.
    rewrite (is_relevant_job_titled job _ targets Ht),
      (is_relevant_job_titled job' _ targets Ht');
      try (apply append_nonempty_r; discriminate).
    destruct (iterate _) as [ts|e]; [|reflexivity].
    apply match_targets_ext. intros w. rewrite !extract_keywords_app, !mem_app.
    apply orb_comm.
Qed.

Lemma match_targets_insignificant (jk : list string) (ts : list string) :
  Forall (fun t => Keywords._extract_keywords t = []) ts ->
  Keywords.match_targets jk (map JStr ts) = Ok false.
Proof.
  induction 1 as [|t ts Ht Hall IH]; [reflexivity|].
  cbn. rewrite Ht. exact IH.
Qed.

(** X10. The edges of the title filter.  A job without a title, or with an
    empty one, is not relevant, whatever the targets are.  With no target at
    all, or with targets that hold only stop words and one-letter words
    (["Head of Staff"], ["VP"]), no job is relevant.  [None] stands for
    the default titles. *)
Theorem is_relevant_job_edges (job : dict) :
  (forall targets,
      lookup_key "title" job = None \/ lookup_key "title" job = Some (JStr "") ->
      Keywords.is_relevant_job job targets = Ok false)
  /\ (forall ts,
        Forall (fun t => Keywords._extract_keywords t = []) ts ->
        Keywords.is_relevant_job job (JArr (map JStr ts)) <> Ok true)
  /\ Keywords.is_relevant_job job JNull
     = Keywords.is_relevant_job job (JArr (map JStr Keywords.DEFAULT_JOB_TITLES))
  /\ Keywords._extract_keywords "Head of Staff" = []
  /\ Keywords._extract_keywords "VP" = [].
Proof.
  split; [|split; [|split; [|split]]]; try reflexivity.
  - intros targets [H|H]; unfold Keywords.is_relevant_job, get_default; rewrite H;
      reflexivity.
  - intros ts Hall. unfold Keywords.is_relevant_job.
    destruct (truthy (get_default job "title" (JStr ""))); cbn [negb]; [|discriminate].
    destruct (Keywords.extract_keywords_of _) as [jk|e]; cbn; [|discriminate].
    unfold mbind, result_bind, rbind. cbn [iterate].
    rewrite match_targets_insignificant by assumption. discriminate.
Qed.

Example docstring_examples :
  let verdict t := Keywords.is_relevant_job [("title", JStr t)]
                     (JArr [JStr "Machine Learning Engineer"]) in
  verdict "Senior Machine Learning Engineer" = Ok true
  /\ verdict "Machine Learning Engineer II" = Ok true
  /\ verdict "Store Manager in Training" = Ok false
  /\ verdict "Software Engineer" = Ok false
  /\ verdict "Engineer (Machine Learning)" = Ok false
  /\ Keywords.split_whitespace "  Senior  ML Engineer " = ["Senior"; "ML"; "Engineer"].
Proof. vm_compute. repeat split. Qed.

(** *** The date filter *)

Lemma truthy_py_or (a b : json) :
  truthy (App.py_or a b) = truthy a || truthy b.
Proof. unfold App.py_or. destruct (truthy a) eqn:E; [exact E|reflexivity]. Qed.

(** X6. The date filter never raises, and the label decides before the date.
    The label is [posted_label], or else [postedOn].  A job labelled
    ["Posted Today"] passes; a job with any other non-empty label is
    rejected, even when its start date is today; a job with no label passes
    exactly when its [start_date], or else [startDate], is a non-empty
    string that parses to today's date. *)
Theorem is_posted_today_rules (iso : string -> option date) (today : date)
    (job : dict) :
  let label := App.py_or (get_default job "posted_label" (JStr ""))
                         (get_default job "postedOn" (JStr "")) in
  let start := App.py_or (get job "start_date") (get job "startDate") in
  exists b, PostedToday.is_posted_today iso today job = Ok b
    /\ (label = JStr "Posted Today" -> b = true)
    /\ (truthy label = true -> label <> JStr "Posted Today" -> b = false)
    /\ (truthy label = false ->
        (b = true <-> exists s, start = JStr s /\ s <> "" /\ iso s = Some today)).
Proof.
  intros label start. unfold PostedToday.is_posted_today. fold label start.
  destruct (eq_str label "Posted Today") eqn:El.
  { exists true. split; [reflexivity|]. split; [reflexivity|].
    destruct label; try discriminate. cbn in El. apply String.eqb_eq in El. subst.
    split; [intros _ H; contradiction|intros H; discriminate]. }
  assert (Hne : label <> JStr "Posted Today") by (intros E; rewrite E in El; discriminate).
  destruct (truthy label) eqn:Etl.
  { exists false. split; [reflexivity|]. split; [contradiction|].
    split; [reflexivity|discriminate]. }
  destruct (truthy start) eqn:Ets.
  2:{ exists false. split; [reflexivity|]. split; [contradiction|].
      split; [discriminate|]. intros _. split; [discriminate|].
      intros (s & Hs & Hn & _). rewrite Hs in Ets. cbn in Ets.
      destruct (String.eqb_spec s ""); [contradiction|discriminate]. }
  unfold parse_iso. destruct start as [| | |s| |] eqn:Es;
    try (exists false; split; [reflexivity|]; split; [contradiction|];
         split; [discriminate|]; intros _; split; [discriminate|];
         intros (s' & Hs' & _); discriminate).
  destruct (iso s) as [d|] eqn:Ei.
  - exists (date_eqb d today). split; [reflexivity|]. split; [contradiction|].
    split; [discriminate|]. intros _. split.
    + intros Hd. apply WorkdayFacts.date_eqb_eq in Hd. subst d. exists s.
      split; [reflexivity|]. split; [|exact Ei]. intros ->. discriminate.
    + intros (s' & [= <-] & _ & Hi). rewrite Ei in Hi. injection Hi as ->.
      apply WorkdayFacts.date_eqb_eq. reflexivity.
  - exists false. split; [reflexivity|]. split; [contradiction|].
    split; [discriminate|]. intros _. split; [discriminate|].
    intros (s' & [= <-] & _ & Hi). rewrite Ei in Hi. discriminate.
Qed.

(** X7. The record the enricher builds from a stub and a detail response, as
    the date filter sees it.  When the detail carries no [postedOn], the
    stub's label stands: a stub the pagination kept passes.  When the detail
    carries a label of its own that is not ["Posted Today"], the record is
    rejected, although its stub was labelled today and its start date was
    not stale.  A record with no label at all is decided by [startDate]: of
    the records the enricher kept, those pass whose [startDate] is a
    non-empty string that parses. *)
Theorem enriched_record_at_date_filter (iso : string -> option date) (today : date)
    (listing detail : dict) :
  let verdict := PostedToday.is_posted_today iso today (job_record listing detail) in
  (lookup_key "postedOn" detail = None ->
   lookup_key "postedOn" listing = Some (JStr "Posted Today") ->
   verdict = Ok true)
  /\ (forall s, lookup_key "postedOn" detail = Some (JStr s) ->
        s <> "" -> s <> "Posted Today" -> verdict = Ok false)
  /\ (truthy (get_default detail "postedOn" (get_default listing "postedOn" (JStr "")))
      = false ->
      start_date_is_stale iso (get detail "startDate") today = false ->
      verdict = Ok (match get detail "startDate" with
                    | JStr s => negb (String.eqb s "")
                                && match iso s with Some _ => true | None => false end
                    | _ => false
                    end)).
Proof.
  intros verdict. subst verdict. unfold PostedToday.is_posted_today.
  change (get_default (job_record listing detail) "posted_label" (JStr ""))
    with (get_default detail "postedOn" (get_default listing "postedOn" (JStr ""))).
  change (get_default (job_record listing detail) "postedOn" (JStr "")) with (JStr "").
  change (get (job_record listing detail) "start_date") with (get detail "startDate").
  change (get (job_record listing detail) "startDate") with JNull.
  split; [|split].
  - intros Hd Hl. unfold get_default. rewrite Hd, Hl. reflexivity.
  - intros s Hd Hs Hn.
    assert (Hl : get_default detail "postedOn" (get_default listing "postedOn" (JStr ""))
                 = JStr s) by (unfold get_default at 1; rewrite Hd; reflexivity).
    rewrite Hl. unfold App.py_or. cbn [truthy].
    destruct (String.eqb_spec s ""); [contradiction|]. cbn [negb eq_str truthy].
    destruct (String.eqb_spec s "Posted Today"); [contradiction|].
    destruct (String.eqb_spec s ""); [contradiction|]. reflexivity.
  - intros Hl Hstale.
    set (label := get_default detail "postedOn" (get_default listing "postedOn" (JStr "")))
      in *.
    assert (Hor : App.py_or label (JStr "") = (if truthy label then label else JStr ""))
      by reflexivity.
    rewrite Hor, Hl. cbn [eq_str String.eqb truthy negb].
    unfold start_date_is_stale in Hstale. unfold App.py_or.
    destruct (truthy (get detail "startDate")) eqn:Et.
    + rewrite Et. unfold parse_iso in *.
      destruct (get detail "startDate") as [| | |s| |]; try reflexivity.
      cbn in Et. destruct (String.eqb s ""); [discriminate|]. cbn [negb andb].
      destruct (iso s) as [d|]; [|reflexivity].
      apply negb_false_iff in Hstale. rewrite Hstale. reflexivity.
    + cbn [truthy]. destruct (get detail "startDate") as [| | |s| |]; try reflexivity.
      cbn in Et. destruct (String.eqb s ""); [reflexivity|discriminate].
Qed.

(** *** The location filter *)

Lemma country_is_us_code (country : dict) (code : string) :
  lookup_key "alpha2Code" country = Some (JStr code) ->
  Usa.upper code = "US" ->
  Usa.country_is_us country = Ok true.
Proof.
  intros Hc Hu. unfold Usa.country_is_us, get_default. rewrite Hc.
  assert (Hne : truthy (JStr code) = true)
    by (destruct code; [discriminate|reflexivity]).
  unfold App.py_or. rewrite Hne. cbn [Usa.str_method].
  unfold mbind, result_bind, rbind. rewrite Hu. reflexivity.
Qed.

Lemma by_location_text_verdicts (joined : string) :
  Usa.by_location_text joined = (true, "US")
  \/ Usa.by_location_text joined = (false, "Remote (unknown country)")
  \/ Usa.by_location_text joined = (false, "Non-US").
Proof.
  unfold Usa.by_location_text.
  destruct (Usa.any_in Usa.US_COUNTRY_KEYWORDS (lower joined)); [auto|].
  destruct (existsb _ (Usa.findall_codes false joined)); [auto|].
  destruct (Usa.any_in Usa.US_STATE_NAMES_LOWER (lower joined)); [auto|].
  destruct (Usa.any_in Usa.MAJOR_US_CITIES (lower joined)); [auto|].
  destruct (contains "remote" (lower joined)); auto.
Qed.

(** A job that passes is guessed ["US"]. *)
Lemma is_usa_job_us_guess (job : dict) (guess : string) :
  Usa.is_usa_job job = Ok (true, guess) -> guess = "US".
Proof.
  unfold Usa.is_usa_job.
  destruct (Usa.by_country_field job) as [[|]|e]; try discriminate.
  { intros [= <-]. reflexivity. }
  destruct (Usa.by_requisition_location job) as [[|]|e]; try discriminate.
  { intros [= <-]. reflexivity. }
  destruct (Usa.joined_locations job) as [joined|e]; [|discriminate].
  intros [= H]. destruct (by_location_text_verdicts joined) as [E|[E|E]];
    rewrite E in H; congruence.
Qed.

(** X11. The location filter has three verdicts: [(True, "US")],
    [(False, "Remote (unknown country)")] and [(False, "Non-US")].  The
    fourth return of the source, [(True, "US (Remote)")], is never taken: a
    text that holds a country keyword has been answered before the remote
    rule is reached.  So a job passes exactly when its guess is ["US"]. *)
Theorem is_usa_job_verdicts (job : dict) (usa : bool) (guess : string) :
  Usa.is_usa_job job = Ok (usa, guess) ->
  (usa = true /\ guess = "US")
  \/ (usa = false /\ guess = "Remote (unknown country)")
  \/ (usa = false /\ guess = "Non-US").
Proof.
  unfold Usa.is_usa_job.
  destruct (Usa.by_country_field job) as [[|]|e]; try discriminate.
  { intros [= <- <-]. auto. }
  destruct (Usa.by_requisition_location job) as [[|]|e]; try discriminate.
  { intros [= <- <-]. auto. }
  destruct (Usa.joined_locations job) as [joined|e]; [|discriminate].
  intros [= H]. destruct (by_location_text_verdicts joined) as [E|[E|E]];
    rewrite E in H; injection H as <- <-; auto.
Qed.

(** X12. The structured fields decide before the location text is read.  A
    [country] whose [alpha2Code] is [US] in any case makes the job a US job;
    so does, when the [country] field does not settle it, the country of
    [job_requisition_location].  The location fields are not looked at: the
    verdict stands even where they would make the text heuristics raise. *)
Theorem is_usa_job_structured_first (job : dict) :
  (forall country code,
      lookup_key "country" job = Some (JObj country) ->
      lookup_key "alpha2Code" country = Some (JStr code) ->
      Usa.upper code = "US" ->
      Usa.is_usa_job job = Ok (true, "US"))
  /\ (forall jrl country code,
        Usa.by_country_field job = Ok false ->
        lookup_key "job_requisition_location" job = Some (JObj jrl) ->
        lookup_key "country" jrl = Some (JObj country) ->
        lookup_key "alpha2Code" country = Some (JStr code) ->
        Usa.upper code = "US" ->
        Usa.is_usa_job job = Ok (true, "US")).
Proof.
  split.
  - intros country code Hc Ha Hu. unfold Usa.is_usa_job, Usa.by_country_field, get_default.
    rewrite Hc, (country_is_us_code country code Ha Hu). reflexivity.
  - intros jrl country code H1 Hj Hc Ha Hu.
    unfold Usa.is_usa_job. rewrite H1.
    unfold Usa.by_requisition_location, get_default at 1. rewrite Hj.
    assert (Hne : truthy (JObj jrl) = true)
      by (destruct jrl; [discriminate|reflexivity]).
    unfold App.py_or. rewrite Hne. unfold get_default. rewrite Hc.
    rewrite (country_is_us_code country code Ha Hu). reflexivity.
Qed.

Lemma findall_codes_finds (pre : string) (x a b : ascii) (suf : string) :
  Usa.is_word_char x = false ->
  is_upper a = true -> is_upper b = true ->
  match suf with
  | EmptyString => true
  | String c _ => negb (Usa.is_word_char c)
  end = true ->
  forall after_word,
    In (String a (String b EmptyString))
       (Usa.findall_codes after_word (pre +:+ String x (String a (String b suf)))).
Proof.
  intros Hx Ha Hb Hs. induction pre as [|c pre IH]; intros after_word.
  - change ("" +:+ String x (String a (String b suf)))
      with (String x (String a (String b suf))).
    assert (Hin : In (String a (String b EmptyString))
                     (Usa.findall_codes false (String a (String b suf)))).
    { cbn [Usa.findall_codes Usa.code_here]. rewrite Ha, Hb, Hs. left. reflexivity. }
    cbn [Usa.findall_codes]. rewrite Hx.
    destruct (if after_word then None else _); [right|]; exact Hin.
  - rewrite app_cons_string. cbn [Usa.findall_codes].
    destruct (if after_word then None else _); [right|]; apply IH.
Qed.

Lemma findall_codes_starts (a b : ascii) (suf : string) :
  is_upper a = true -> is_upper b = true ->
  match suf with
  | EmptyString => true
  | String c _ => negb (Usa.is_word_char c)
  end = true ->
  In (String a (String b EmptyString))
     (Usa.findall_codes false (String a (String b suf))).
Proof.
  intros Ha Hb Hs. cbn [Usa.findall_codes Usa.code_here]. rewrite Ha, Hb, Hs.
  left. reflexivity.
Qed.

Lemma state_codes_upper (a b : ascii) :
  Keywords.mem (String a (String b "")) Usa.US_STATE_CODES = true ->
  is_upper a = true /\ is_upper b = true.
Proof.
  unfold Keywords.mem. intros H. apply existsb_exists in H as (code & Hin & He).
  apply String.eqb_eq in He. subst code.
  vm_compute in Hin.
  repeat (destruct Hin as [Hin|Hin]; [injection Hin as <- <-; split; reflexivity|]).
  contradiction.
Qed.

(** X13. When the structured fields do not settle it, a US state code that
    stands as a word of its own in the joined location text makes the job a
    US job: the code at the start of the text or after a character that is
    not a word character, and at the end of the text or before such a
    character.  The codes are matched as written, whatever country the place
    is in: ["Toronto, CA"] and ["Bengaluru, IN"] are US jobs. *)
Theorem is_usa_job_state_code (job : dict) (pre suf : string) (a b : ascii) :
  Usa.by_country_field job = Ok false ->
  Usa.by_requisition_location job = Ok false ->
  Usa.joined_locations job = Ok (pre +:+ String a (String b suf)) ->
  Keywords.mem (String a (String b "")) Usa.US_STATE_CODES = true ->
  (pre = "" \/ exists p x, pre = p +:+ String x "" /\ Usa.is_word_char x = false) ->
  (suf = "" \/ exists c r, suf = String c r /\ Usa.is_word_char c = false) ->
  Usa.is_usa_job job = Ok (true, "US").
Proof.
  intros H1 H2 Hj Hcode Hpre Hsuf.
  destruct (state_codes_upper a b Hcode) as [Ha Hb].
  assert (Hs : match suf with
               | EmptyString => true
               | String c _ => negb (Usa.is_word_char c)
               end = true).
  { destruct Hsuf as [->|(c & r & -> & Hc)]; [reflexivity|]. rewrite Hc. reflexivity. }
  assert (Hin : In (String a (String b ""))
                   (Usa.findall_codes false (pre +:+ String a (String b suf)))).
  { destruct Hpre as [->|(p & x & -> & Hx)].
    - apply findall_codes_starts; assumption.
    - rewrite <- WorkdayFacts.append_assoc.
      change (String x "" +:+ String a (String b suf))
        with (String x (String a (String b suf))).
      apply findall_codes_finds; assumption. }
  unfold Usa.is_usa_job. rewrite H1, H2, Hj. f_equal.
  unfold Usa.by_location_text.
  destruct (Usa.any_in Usa.US_COUNTRY_KEYWORDS _); [reflexivity|].
  assert (Hex : existsb (fun w => Keywords.mem w Usa.US_STATE_CODES)
                  (Usa.findall_codes false (pre +:+ String a (String b suf))) = true).
  { apply existsb_exists. exists (String a (String b "")). split; assumption. }
  rewrite Hex. reflexivity.
Qed.

Example location_examples :
  let verdict loc :=
    Usa.is_usa_job [("country", JObj []); ("job_requisition_location", JObj []);
                    ("locations_text", JStr loc); ("additional_locations", JArr [])] in
  verdict "Austin, TX" = Ok (true, "US")
  /\ verdict "Toronto, CA" = Ok (true, "US")
  /\ verdict "Bengaluru, IN" = Ok (true, "US")
  /\ verdict "Busan, South Korea" = Ok (true, "US")
  /\ verdict "Remote" = Ok (false, "Remote (unknown country)")
  /\ verdict "Remote - USA" = Ok (true, "US")
  /\ verdict "Berlin" = Ok (false, "Non-US")
  /\ Usa.findall_codes false "NYC, NY or SF (CA)" = ["NY"; "SF"; "CA"].
Proof. vm_compute. repeat split. Qed.

(** *** The theorems at concrete jobs *)

Lemma is_relevant_job_more_words_witness :
  Keywords.is_relevant_job [("title", JStr "Data Scientist")] JNull = Ok true
  /\ Keywords.is_relevant_job [("title", JStr "Senior Data Scientist II")] JNull
     = Ok true.
Proof.
  split; [reflexivity|].
  exact (is_relevant_job_more_words [("title", JStr "Data Scientist")]
           [("title", JStr "Senior Data Scientist II")] "Data Scientist" "Senior" "II"
           JNull eq_refl eq_refl eq_refl).
Defined.

Lemma is_relevant_job_invariances_witness :
  Keywords.is_relevant_job [("title", JStr "NLP Engineer")] JNull
  = Keywords.is_relevant_job [("title", JStr "nlp ENGINEER")] JNull
  /\ Keywords.is_relevant_job [("title", JStr "NLP Engineer")] JNull
     = Keywords.is_relevant_job [("title", JStr "NLP Lead Engineer")] JNull
  /\ Keywords.is_relevant_job [("title", JStr "NLP Engineer")] JNull
     = Keywords.is_relevant_job [("title", JStr "Engineer NLP")] JNull.
Proof.
  pose proof (is_relevant_job_invariances [("title", JStr "NLP Engineer")]
                [("title", JStr "nlp ENGINEER")] JNull) as (H1 & _ & _).
  pose proof (is_relevant_job_invariances [("title", JStr "NLP Engineer")]
                [("title", JStr "NLP Lead Engineer")] JNull) as (_ & H2 & _).
  pose proof (is_relevant_job_invariances [("title", JStr "NLP Engineer")]
                [("title", JStr "Engineer NLP")] JNull) as (_ & _ & H3).
  split; [exact (H1 "NLP Engineer" "nlp ENGINEER" eq_refl eq_refl eq_refl)|].
  split; [exact (H2 "NLP" "Engineer" "Lead" eq_refl eq_refl eq_refl)|].
  exact (H3 "NLP" "Engineer" eq_refl eq_refl).
Defined.

Lemma is_relevant_job_edges_witness :
  Keywords.is_relevant_job [("jd_text", JStr "We build models")] JNull = Ok false
  /\ Keywords.is_relevant_job [("title", JStr "Head of Staff")]
       (JArr (map JStr ["Head of Staff"; "VP"])) <> Ok true.
Proof.
  pose proof (is_relevant_job_edges [("jd_text", JStr "We build models")]) as (H1 & _).
  pose proof (is_relevant_job_edges [("title", JStr "Head of Staff")]) as (_ & H2 & _).
  split; [exact (H1 JNull (or_introl eq_refl))|].
  apply H2. repeat constructor.
Defined.

Lemma enriched_record_at_date_filter_witness :
  PostedToday.is_posted_today isodate_simple {| year := 2024; month := 5; day := 17 |}
    (job_record one_stub_fields [("title", JStr "ML Engineer")]) = Ok true
  /\ PostedToday.is_posted_today isodate_simple {| year := 2024; month := 5; day := 17 |}
       (job_record one_stub_fields
          [("title", JStr "ML Engineer"); ("postedOn", JStr "Posted Yesterday");
           ("startDate", JStr "2024-05-17")]) = Ok false.
Proof.
  split.
  - exact (proj1 (enriched_record_at_date_filter isodate_simple
                    {| year := 2024; month := 5; day := 17 |} one_stub_fields
                    [("title", JStr "ML Engineer")]) eq_refl eq_refl).
  - refine (proj1 (proj2 (enriched_record_at_date_filter isodate_simple
                            {| year := 2024; month := 5; day := 17 |} one_stub_fields
                            [("title", JStr "ML Engineer");
                             ("postedOn", JStr "Posted Yesterday");
                             ("startDate", JStr "2024-05-17")]))
              "Posted Yesterday" eq_refl _ _); discriminate.
Defined.

Lemma is_usa_job_verdicts_witness :
  Usa.is_usa_job [("locations_text", JStr "Remote - Europe")]
  = Ok (false, "Remote (unknown country)")
  /\ ((false = true /\ "Remote (unknown country)" = "US")
      \/ (false = false /\ "Remote (unknown country)" = "Remote (unknown country)")
      \/ (false = false /\ "Remote (unknown country)" = "Non-US")).
Proof.
  split; [reflexivity|].
  exact (is_usa_job_verdicts [("locations_text", JStr "Remote - Europe")] false
           "Remote (unknown country)" eq_refl).
Defined.

Lemma is_usa_job_structured_first_witness :
  Usa.is_usa_job [("country", JObj [("alpha2Code", JStr "us")]);
                  ("locations_text", JNum 7)] = Ok (true, "US")
  /\ Usa.is_usa_job [("country", JObj [("alpha2Code", JStr "DE")]);
                     ("locations_text", JNum 7)]
     = Raise (AttributeError "object has no such string method").
Proof.
  split; [|reflexivity].
  exact (proj1 (is_usa_job_structured_first
                  [("country", JObj [("alpha2Code", JStr "us")]);
                   ("locations_text", JNum 7)])
           [("alpha2Code", JStr "us")] "us" eq_refl eq_refl eq_refl).
Defined.

Lemma is_usa_job_state_code_witness :
  Usa.joined_locations [("country", JObj []); ("locations_text", JStr " Toronto, CA ");
                        ("additional_locations", JArr [JStr "Montreal"])]
  = Ok "Toronto, CA Montreal"
  /\ Usa.is_usa_job [("country", JObj []); ("locations_text", JStr " Toronto, CA ");
                     ("additional_locations", JArr [JStr "Montreal"])]
     = Ok (true, "US").
Proof.
  split; [reflexivity|].
  refine (is_usa_job_state_code
            [("country", JObj []); ("locations_text", JStr " Toronto, CA ");
             ("additional_locations", JArr [JStr "Montreal"])]
            "Toronto, " " Montreal" "C" "A" eq_refl eq_refl eq_refl eq_refl _ _).
  - right. exists "Toronto,", " "%char. split; reflexivity.
  - right. exists " "%char, "Montreal". split; reflexivity.
Defined.

End FiltersFacts.

(** ** Facts about the scan of one employer and its filters *)

Module PipelineFacts.
Import App.

Lemma map_result_length {X Y} (f : X -> result Y) (l : list X) (ys : list Y) :
  map_result f l = Ok ys -> length ys = length l.
Proof.
  revert ys. induction l as [|x l IH]; intros ys; cbn.
  - intros [= <-]. reflexivity.
  - unfold mbind, result_bind, rbind. destruct (f x) as [y|e]; [|discriminate].
    destruct (map_result f l) as [ys'|e]; [|discriminate].
    intros [= <-]. cbn. f_equal. apply IH. reflexivity.
Qed.

Section ScanFacts.

Context {E : Type}.
Variable urlparse : string -> result Workday.url_parts.
Variable crawl_company :
  string -> string -> string -> E -> (result (list dict) * list (Z * json * string)) * E.
Variable is_posted_today : dict -> result bool.
Variable is_relevant_job : dict -> json -> result bool.
Variable is_usa_job : dict -> result (bool * json).
Variable score_jobs_batch : list dict -> string -> json -> result (list json).
Variable utcnow : E -> string.
Variable json_loads : string -> result json.
Variable json_dumps : list string -> string.
Variable format_value : json -> string.

Local Abbreviation world := (@App.world E).
Local Abbreviation A := (@App.A E).
Local Abbreviation scan_try :=
  (App.scan_try urlparse crawl_company is_posted_today is_relevant_job is_usa_job
     score_jobs_batch utcnow format_value).
Local Abbreviation _scan_one_company :=
  (App._scan_one_company urlparse crawl_company is_posted_today is_relevant_job
     is_usa_job score_jobs_batch utcnow format_value).
Local Abbreviation _run_scanner :=
  (App._run_scanner urlparse crawl_company is_posted_today is_relevant_job
     is_usa_job score_jobs_batch utcnow json_loads json_dumps format_value).
Local Abbreviation scan_value :=
  (App.scan_value urlparse crawl_company is_posted_today is_relevant_job
     is_usa_job score_jobs_batch utcnow format_value).

Lemma filter_jobs_length (jobs : list dict) (tt : json) (kept : list dict) :
  filter_jobs is_posted_today is_relevant_job is_usa_job jobs tt = Ok kept ->
  (length kept <= length jobs)%nat.
Proof.
  revert kept. induction jobs as [|job jobs IH]; intros kept; cbn.
  - intros [= <-]. reflexivity.
  - unfold mbind, result_bind, rbind.
    destruct (is_posted_today job) as [[|]|e]; cbn [negb]; try discriminate.
    2:{ intros H. specialize (IH _ H). lia. }
    destruct (is_relevant_job job tt) as [[|]|e]; cbn [negb]; try discriminate.
    2:{ intros H. specialize (IH _ H). lia. }
    destruct (is_usa_job job) as [[[|] guess]|e]; cbn [negb]; try discriminate.
    2:{ intros H. specialize (IH _ H). lia. }
    destruct (filter_jobs _ _ _ jobs tt) as [kept'|e]; [|discriminate].
    intros [= <-]. specialize (IH _ eq_refl). cbn. lia.
Qed.

(** What a scan returns: never more jobs returned than found. *)
Definition bounded (res : result (nat * nat)) : Prop :=
  match res with
  | Ok (found, returned) => (returned <= found)%nat
  | Raise _ => True
  end.

Lemma bind_bounded {X} (m : A X) (k : X -> A (nat * nat)) (w : world) :
  (forall x w', bounded (fst (k x w'))) -> bounded (fst ((m ≫= k) w)).
Proof.
  intros H. unfold mbind, A_bind. destruct (m w) as [[x|e] w']; [apply H|exact I].
Qed.

Lemma lift_bounded {X} (r : result X) (k : X -> A (nat * nat)) (w : world) :
  (forall x, r = Ok x -> bounded (fst (k x w))) -> bounded (fst ((lift r ≫= k) w)).
Proof.
  intros H. unfold mbind, A_bind, lift. destruct r as [x|e]; [apply H; reflexivity|exact I].
Qed.

Lemma scan_try_bounded (company : Database.company) (run_id : string) (tt : json)
    (rt : string) (rs : json) (w : world) :
  bounded (fst (scan_try company run_id tt rt rs w)).
Proof.
  unfold App.scan_try. apply lift_bounded. intros [c|] _.
  - apply bind_bounded. intros jobs w1.
    apply bind_bounded. intros _ w2. apply bind_bounded. intros _ w3.
    apply lift_bounded. intros filtered Hf. apply filter_jobs_length in Hf.
    destruct filtered as [|j filtered].
    { apply bind_bounded. intros _ w4. cbn. lia. }
    apply bind_bounded. intros _ w4.
    apply lift_bounded. intros inputs _.
    apply bind_bounded. intros results w5.
    apply lift_bounded. intros records Hr. apply map_result_length in Hr.
    apply bind_bounded. intros _ w6. apply bind_bounded. intros _ w7.
    apply bind_bounded. intros _ w8. cbn.
    rewrite Hr, length_zip. cbn [length] in *. lia.
  - apply bind_bounded. intros _ w1. apply bind_bounded. intros _ w2. cbn. lia.
Qed.

Lemma scan_one_company_bounded (company : Database.company) (run_id : string)
    (tt : json) (rt : string) (rs : json) (w : world) :
  bounded (fst (_scan_one_company company run_id tt rt rs w)).
Proof.
  unfold App._scan_one_company. apply bind_bounded. intros _ w1.
  unfold try_except.
  pose proof (scan_try_bounded company run_id tt rt rs w1) as H.
  destruct (scan_try company run_id tt rt rs w1) as [[v|e] w2]; [exact H|].
  apply bind_bounded. intros _ w3. apply bind_bounded. intros _ w4. cbn. lia.
Qed.

Lemma sum_bounded (values : list (nat * nat)) :
  Forall (fun v => (snd v <= fst v)%nat) values ->
  (list_sum (map snd values) <= list_sum (map fst values))%nat.
Proof.
  induction 1 as [|v values Hv Hall IH]; [reflexivity|].
  cbn [map]. unfold list_sum in *. cbn [fold_right]. lia.
Qed.

(** X14. The scan of an employer never returns more jobs than it found: what
    it persists is drawn from what the crawl returned, through the filters
    and the pairing with the scores.  So the totals of a run that ends in
    [done] satisfy [total_jobs_returned <= total_jobs_found]. *)
Theorem returned_at_most_found (run_id : string) :
  (forall (company : Database.company) (tt : json) (rt : string) (rs : json)
          (w : world) (found returned : nat),
      fst (_scan_one_company company run_id tt rt rs w) = Ok (found, returned) ->
      (returned <= found)%nat)
  /\ (forall (w : world) (c : Database.company) (cs : list Database.company)
             (res : Database.resume_row) (row : Database.run_row),
        Database.companies (database w) = c :: cs ->
        Database.resume (database w) = Some res ->
        Database.runs (database w) !! run_id = Some row ->
        exists row',
          Database.runs (database (snd (_run_scanner run_id w))) !! run_id = Some row'
          /\ Database.status row' = "done"
          /\ (Database.total_jobs_returned row' <= Database.total_jobs_found row')%nat).
Proof.
  split.
  - intros company tt rt rs w found returned H.
    pose proof (scan_one_company_bounded company run_id tt rt rs w) as Hb.
    rewrite H in Hb. exact Hb.
  - intros w c cs res row Hc Hres Hrow.
    destruct (AppFacts.run_ends_done urlparse crawl_company is_posted_today
                is_relevant_job is_usa_job score_jobs_batch utcnow json_loads
                json_dumps format_value run_id w c cs res row Hc Hres Hrow)
      as (_ & r' & row' & _ & Hrow' & _ & Hdone & _ & _ & Hfound & Hret & _).
    exists row'. split; [exact Hrow'|]. split; [exact Hdone|].
    rewrite Hfound, Hret. apply sum_bounded.
    apply Forall_map. apply Forall_forall. intros p _.
    unfold App.scan_value.
    pose proof (scan_one_company_bounded (fst p) run_id
                  (load_titles json_loads (database w)) (Database.resume_text res)
                  (Database.skills_list res) (snd p)) as Hb.
    destruct (fst (_scan_one_company _ _ _ _ _ _)) as [[f r]|e]; cbn; [exact Hb|lia].
Qed.

(** X15. An employer whose URL does not resolve is skipped without an
    exception: its scan returns [(0, 0)], the run's error list gains
    ["<name>: Invalid Workday URL: <url>"], the employer's status becomes
    [invalid_url], and nothing else is called: no crawl, no scoring, no
    write of jobs. *)
Theorem scan_invalid_url (company : Database.company) (run_id : string) (tt : json)
    (rt : string) (rs : json) (w : world) (r0 : run_state) :
  live run_id w = Some r0 ->
  Workday.parse_workday_url urlparse (Database.workday_url company) = Ok None ->
  let w' := snd (_scan_one_company company run_id tt rt rs w) in
  let msg := Database.company_name company +:+ ": Invalid Workday URL: "
             +:+ Database.workday_url company in
  fst (_scan_one_company company run_id tt rt rs w) = Ok (0, 0)%nat
  /\ live run_id w'
     = Some (append_error msg
               (with_phase (PhaseScanning (Database.company_name company)) r0))
  /\ database w'
     = Database.update_company_run_status (Database.company_id company) "invalid_url"
         (utcnow (outside w)) (database w)
  /\ calls w'
     = calls w ++ [CompanyStatusWritten (Database.company_id company) "invalid_url"]
  /\ outside w' = outside w.
Proof.
  intros Hl Hp w' msg. subst w' msg.
  unfold App._scan_one_company, App.scan_try, try_except, modify_run, read_run,
    write_run, lift, mbind, A_bind, mret, A_ret.
  rewrite Hl. cbn beta iota. rewrite Hp. cbn beta iota.
  rewrite AppFacts.live_put_live. cbn beta iota.
  unfold db_update_company_run_status. cbn [fst snd].
  split; [reflexivity|]. split.
  - unfold live, log, put_live. cbn [active_runs]. rewrite insert_insert_eq.
    apply lookup_insert_eq.
  - repeat split.
Qed.

End ScanFacts.

(** *** The filters of the repository in the filter loop *)

Lemma filter_jobs_passes (iso : string -> option Workday.date) (today : Workday.date)
    (tt : json) (jobs : list dict) :
  forall kept,
    Pipeline.filter_jobs iso today jobs tt = Ok kept ->
    kept = map (fun job => setitem job "_country_guess" (JStr "US"))
               (List.filter (Pipeline.passes iso today tt) jobs).
Proof.
  unfold Pipeline.filter_jobs.
  induction jobs as [|job jobs IH]; intros kept; cbn [filter_jobs].
  - intros [= <-]. reflexivity.
  - unfold mbind, result_bind, rbind. cbn [List.filter]. unfold Pipeline.passes at 1.
    destruct (PostedToday.is_posted_today iso today job) as [[|]|e]; cbn [negb];
      [|apply IH|discriminate].
    destruct (Keywords.is_relevant_job job tt) as [[|]|e]; cbn [negb];
      [|apply IH|discriminate].
    unfold Pipeline.is_usa_job.
    destruct (Usa.is_usa_job job) as [[usa guess]|e] eqn:Eu; [|discriminate].
    destruct usa; cbn [negb]; [|apply IH].
    destruct (filter_jobs _ _ _ jobs tt) as [kept'|e]; [|discriminate].
    intros [= <-]. cbn [map]. rewrite <- (IH kept' eq_refl).
    rewrite (FiltersFacts.is_usa_job_us_guess job guess Eu). reflexivity.
Qed.

(** X16. The filter loop of a scan, with the filters of the repository: when
    no filter raises, the jobs kept are, in the order of the crawl, those
    that pass the date, title and location filters, each with the key
    [_country_guess] set.  Its value is always ["US"]: the column
    [country_guess] of the jobs a scan persists holds nothing else. *)
Theorem filter_jobs_keeps_us_jobs (iso : string -> option Workday.date)
    (today : Workday.date) (tt : json) (jobs kept : list dict) :
  Pipeline.filter_jobs iso today jobs tt = Ok kept ->
  kept = map (fun job => setitem job "_country_guess" (JStr "US"))
             (List.filter (Pipeline.passes iso today tt) jobs)
  /\ Forall (fun job => lookup_key "_country_guess" job = Some (JStr "US")) kept
  /\ (length kept <= length jobs)%nat.
Proof.
  intros H. pose proof (filter_jobs_passes iso today tt jobs kept H) as Hk.
  split; [exact Hk|]. split.
  - rewrite Hk. apply Forall_map, Forall_forall. intros job _.
    apply WorkdayFacts.lookup_setitem_eq.
  - rewrite Hk, length_map. apply filter_length_le.
Qed.

Example default_titles_agree :
  App.DEFAULT_JOB_TITLES = JArr (map JStr Keywords.DEFAULT_JOB_TITLES).
Proof. reflexivity. Qed.

Lemma filter_jobs_keeps_us_jobs_witness :
  Pipeline.filter_jobs Workday.isodate_simple
    {| Workday.year := 2024; Workday.month := 5; Workday.day := 17 |}
    [Pipeline.austin_job; Pipeline.berlin_job] JNull
  = Ok [setitem Pipeline.austin_job "_country_guess" (JStr "US")]
  /\ Forall (fun job => lookup_key "_country_guess" job = Some (JStr "US"))
       [setitem Pipeline.austin_job "_country_guess" (JStr "US")].
Proof.
  split; [reflexivity|].
  exact (proj1 (proj2 (filter_jobs_keeps_us_jobs Workday.isodate_simple
                         {| Workday.year := 2024; Workday.month := 5; Workday.day := 17 |}
                         JNull [Pipeline.austin_job; Pipeline.berlin_job]
                         [setitem Pipeline.austin_job "_country_guess" (JStr "US")]
                         eq_refl))).
Defined.

Lemma returned_at_most_found_witness :
  fst (sample_run two_employers) = Ok ()
  /\ exists row',
       Database.runs (database (snd (sample_run two_employers))) !! "run1" = Some row'
       /\ Database.status row' = "done"
       /\ (Database.total_jobs_returned row' <= Database.total_jobs_found row')%nat.
Proof.
  split; [vm_compute; reflexivity|].
  exact (proj2 (returned_at_most_found Workday.urlparse_simple sample_crawl
                  sample_is_posted_today sample_is_relevant_job sample_is_usa_job
                  sample_score_jobs_batch sample_utcnow sample_json_loads
                  sample_json_dumps sample_format_value "run1")
           (sample_world two_employers) (sample_company "c1" "Acme" "acme")
           [sample_company "c4" "Hooli" "hooli"] _ _ eq_refl eq_refl eq_refl).
Defined.

Lemma scan_invalid_url_witness :
  let w := put_live "run1" initial_run (sample_world []) in
  let company :=
    {| Database.company_id := "c9"; Database.company_name := "Umbrella";
       Database.workday_url := "https://careers.umbrella.example/jobs";
       Database.last_run_status := None; Database.last_run_time := None |} in
  Workday.parse_workday_url Workday.urlparse_simple (Database.workday_url company)
  = Ok None
  /\ fst (_scan_one_company Workday.urlparse_simple sample_crawl sample_is_posted_today
            sample_is_relevant_job sample_is_usa_job sample_score_jobs_batch
            sample_utcnow sample_format_value company "run1" DEFAULT_JOB_TITLES
            "resume" (JArr []) w) = Ok (0, 0)%nat
  /\ calls (snd (_scan_one_company Workday.urlparse_simple sample_crawl
                   sample_is_posted_today sample_is_relevant_job sample_is_usa_job
                   sample_score_jobs_batch sample_utcnow sample_format_value company
                   "run1" DEFAULT_JOB_TITLES "resume" (JArr []) w))
     = [CompanyStatusWritten "c9" "invalid_url"].
Proof.
  cbv zeta. split; [reflexivity|].
  pose proof (scan_invalid_url Workday.urlparse_simple sample_crawl
                sample_is_posted_today sample_is_relevant_job sample_is_usa_job
                sample_score_jobs_batch sample_utcnow sample_format_value
                {| Database.company_id := "c9"; Database.company_name := "Umbrella";
                   Database.workday_url := "https://careers.umbrella.example/jobs";
                   Database.last_run_status := None; Database.last_run_time := None |}
                "run1" DEFAULT_JOB_TITLES "resume" (JArr [])
                (put_live "run1" initial_run (sample_world [])) initial_run
                (AppFacts.live_put_live _ _ _) eq_refl) as (H1 & _ & _ & H4 & _).
  split; [exact H1|exact H4].
Defined.

End PipelineFacts.

(** ** Facts about the table of jobs *)

Module DatabaseFacts.
Import Database.

Lemma same_history_refl (r : job_row) : same_history r r.
Proof. unfold same_history. repeat split. Qed.

Lemma same_history_trans (a b c : job_row) :
  same_history a b -> same_history b c -> same_history a c.
Proof.
  unfold same_history.
  intros (H1 & H2 & H3 & H4 & H5 & H6 & H7 & H8) (G1 & G2 & G3 & G4 & G5 & G6 & G7 & G8).
  repeat split; congruence.
Qed.

(** One statement of the batch. *)
Lemma upsert_one_cases (now : string) (job : job_record) (tbl tbl' : gmap string job_row) :
  upsert_one now job tbl = Ok tbl' ->
  exists new,
    tbl' = <[job_key job := new]> tbl
    /\ last_seen new = now
    /\ refreshed_from job new
    /\ match tbl !! job_key job with
       | Some old => same_history old new
       | None => new = {| row := job; first_seen := now; last_seen := now |}
       end.
Proof.
  unfold upsert_one. destruct (tbl !! job_key job) as [old|] eqn:E.
  - destruct (_ && _); [|discriminate].
    intros [= <-]. eexists. split; [reflexivity|]. split; [reflexivity|].
    split; [repeat split|]. unfold same_history. cbn. repeat split.
  - destruct (_ && _); [|discriminate].
    destruct (title job); try discriminate;
      intros [= <-]; eexists; (split; [reflexivity|]); (split; [reflexivity|]);
      (split; [repeat split|reflexivity]).
Qed.

Lemma upsert_one_other (now : string) (job : job_record) (tbl tbl' : gmap string job_row)
    (k : string) :
  upsert_one now job tbl = Ok tbl' -> k <> job_key job -> tbl' !! k = tbl !! k.
Proof.
  intros H Hk. destruct (upsert_one_cases now job tbl tbl' H) as (new & -> & _).
  apply lookup_insert_ne. congruence.
Qed.

Lemma upsert_one_keeps (now : string) (job : job_record) (tbl tbl' : gmap string job_row)
    (k : string) (old : job_row) :
  upsert_one now job tbl = Ok tbl' -> tbl !! k = Some old ->
  exists new, tbl' !! k = Some new /\ same_history old new
              /\ (last_seen new = last_seen old \/ last_seen new = now).
Proof.
  intros H Hold. destruct (String.eqb_spec k (job_key job)) as [->|Hne].
  - destruct (upsert_one_cases now job tbl tbl' H) as (new & -> & Hl & _ & Hh).
    rewrite Hold in Hh. exists new. rewrite lookup_insert_eq. auto.
  - exists old. rewrite (upsert_one_other now job tbl tbl' k H Hne).
    split; [exact Hold|]. split; [apply same_history_refl|auto].
Qed.

Lemma upsert_all_keeps (now : string) (batch : list job_record) :
  forall (tbl tbl' : gmap string job_row) (k : string) (old : job_row),
    upsert_all now batch tbl = Ok tbl' -> tbl !! k = Some old ->
    exists new, tbl' !! k = Some new /\ same_history old new
                /\ (last_seen new = last_seen old \/ last_seen new = now).
Proof.
  induction batch as [|job batch IH]; intros tbl tbl' k old; cbn.
  - intros [= <-] H. exists old. split; [exact H|].
    split; [apply same_history_refl|auto].
  - destruct (upsert_one now job tbl) as [tbl1|e] eqn:E1; [|discriminate].
    intros H Hold.
    destruct (upsert_one_keeps now job tbl tbl1 k old E1 Hold) as (mid & Hmid & Hh & Hl).
    destruct (IH tbl1 tbl' k mid H Hmid) as (new & Hnew & Hh' & Hl').
    exists new. split; [exact Hnew|]. split; [eapply same_history_trans; eassumption|].
    destruct Hl as [Hl|Hl], Hl' as [Hl'|Hl']; rewrite ?Hl in Hl'; auto.
Qed.

Lemma upsert_all_other (now : string) (batch : list job_record) :
  forall (tbl tbl' : gmap string job_row) (k : string),
    upsert_all now batch tbl = Ok tbl' -> ~ In k (map job_key batch) ->
    tbl' !! k = tbl !! k.
Proof.
  induction batch as [|job batch IH]; intros tbl tbl' k; cbn.
  - intros [= <-] _. reflexivity.
  - destruct (upsert_one now job tbl) as [tbl1|e] eqn:E1; [|discriminate].
    intros H Hk. rewrite (IH tbl1 tbl' k H) by tauto.
    apply (upsert_one_other now job tbl tbl1 k E1). intros ->. tauto.
Qed.

Lemma upsert_jobs_batch_inv (now : string) (batch : list job_record) (d d' : db) :
  upsert_jobs_batch now batch d = Ok d' ->
  upsert_all now batch (jobs d) = Ok (jobs d')
  /\ companies d' = companies d /\ runs d' = runs d
  /\ resume d' = resume d /\ settings d' = settings d.
Proof.
  unfold upsert_jobs_batch. destruct batch as [|job batch].
  - intros [= <-]. repeat split.
  - destruct (upsert_all now (job :: batch) (jobs d)) as [tbl|e]; [|discriminate].
    intros [= <-]. repeat split.
Qed.

(** X17. A batch write never rewrites the history of a job it has seen
    before: for every row in the table before the batch, the row with that
    key after the batch has the same [first_seen], company, title,
    locations, country guess, URL and description, whatever the batch says
    about them; its [last_seen] is the old one or the time of the batch. *)
Theorem upsert_jobs_batch_keeps_history (now : string) (batch : list job_record)
    (d d' : db) (k : string) (old : job_row) :
  upsert_jobs_batch now batch d = Ok d' ->
  jobs d !! k = Some old ->
  exists new,
    jobs d' !! k = Some new
    /\ same_history old new
    /\ (last_seen new = last_seen old \/ last_seen new = now).
Proof.
  intros H Hold. destruct (upsert_jobs_batch_inv now batch d d' H) as (Hall & _).
  exact (upsert_all_keeps now batch (jobs d) (jobs d') k old Hall Hold).
Qed.

Lemma upsert_all_seen (now : string) (batch : list job_record) :
  forall (tbl tbl' : gmap string job_row) (job : job_record),
    upsert_all now batch tbl = Ok tbl' -> In job batch ->
    exists new, tbl' !! job_key job = Some new /\ last_seen new = now
                /\ (tbl !! job_key job = None -> first_seen new = now).
Proof.
  induction batch as [|j batch IH]; intros tbl tbl' job; cbn; [intros _ []|].
  destruct (upsert_one now j tbl) as [tbl1|e] eqn:E1; [|discriminate].
  intros H [->|Hin].
  - destruct (upsert_one_cases now job tbl tbl1 E1) as (mid & -> & Hl & _ & Hh).
    destruct (upsert_all_keeps now batch _ tbl' (job_key job) mid H
                (lookup_insert_eq _ _ _)) as (new & Hnew & Hs & Hl').
    exists new. split; [exact Hnew|]. split; [destruct Hl'; congruence|].
    intros Hnone. rewrite Hnone in Hh. destruct Hs as (Hf & _). rewrite Hf, Hh.
    reflexivity.
  - destruct (IH tbl1 tbl' job H Hin) as (new & Hnew & Hl & Hf).
    exists new. split; [exact Hnew|]. split; [exact Hl|]. intros Hnone.
    destruct (String.eqb_spec (job_key job) (job_key j)) as [Heq|Hne].
    + destruct (upsert_one_cases now j tbl tbl1 E1) as (mid & -> & _ & _ & Hh).
      rewrite <- Heq, Hnone in Hh.
      destruct (upsert_all_keeps now batch _ tbl' (job_key job) mid H)
        as (new' & Hnew' & (Hf' & _) & _).
      { rewrite Heq. apply lookup_insert_eq. }
      rewrite Hnew in Hnew'. injection Hnew' as <-. rewrite Hf', Hh. reflexivity.
    + apply Hf. rewrite (upsert_one_other now j tbl tbl1 _ E1 Hne). exact Hnone.
Qed.

Lemma upsert_all_fresh (now : string) (batch : list job_record) :
  forall (tbl tbl' : gmap string job_row) (job : job_record),
    upsert_all now batch tbl = Ok tbl' -> NoDup (map job_key batch) -> In job batch ->
    exists new, tbl' !! job_key job = Some new /\ refreshed_from job new
                /\ (tbl !! job_key job = None ->
                    new = {| row := job; first_seen := now; last_seen := now |}).
Proof.
  induction batch as [|j batch IH]; intros tbl tbl' job; cbn; [intros _ _ []|].
  destruct (upsert_one now j tbl) as [tbl1|e] eqn:E1; [|discriminate].
  intros H Hnd Hin. apply NoDup_cons in Hnd as [Hj Hnd]. destruct Hin as [->|Hin].
  - destruct (upsert_one_cases now job tbl tbl1 E1) as (mid & -> & _ & Hr & Hh).
    exists mid. split.
    + rewrite (upsert_all_other now batch _ tbl' (job_key job) H).
      * apply lookup_insert_eq.
      * intros Hk. apply Hj. apply list_elem_of_In. exact Hk.
    + split; [exact Hr|]. intros Hnone. rewrite Hnone in Hh. exact Hh.
  - destruct (IH tbl1 tbl' job H Hnd Hin) as (new & Hnew & Hr & Hf).
    exists new. split; [exact Hnew|]. split; [exact Hr|]. intros Hnone. apply Hf.
    rewrite (upsert_one_other now j tbl tbl1 _ E1); [exact Hnone|].
    intros Heq. apply Hj. apply list_elem_of_In. rewrite <- Heq.
    apply in_map. exact Hin.
Qed.



Lemma upsert_jobs_batch_keeps_history_witness :
  let old := {| row := sample_job "c1_R1" "ML Engineer" 50;
                first_seen := "2024-05-01T09:00:00";
                last_seen := "2024-05-01T09:00:00" |} in
  let d := {| companies := []; runs := ∅; resume := None; settings := ∅;
              jobs := {["c1_R1" := old]} |} in
  exists d' new,
    upsert_jobs_batch "2024-05-17T09:00:00" [sample_job "c1_R1" "Data Engineer" 80] d
    = Ok d'
    /\ jobs d' !! "c1_R1" = Some new
    /\ first_seen new = "2024-05-01T09:00:00"
    /\ title (row new) = JStr "ML Engineer".
Proof.
  cbv zeta.
  assert (Hrun : exists d',
    upsert_jobs_batch "2024-05-17T09:00:00" [sample_job "c1_R1" "Data Engineer" 80]
      {| companies := []; runs := ∅; resume := None; settings := ∅;
         jobs := {["c1_R1" := {| row := sample_job "c1_R1" "ML Engineer" 50;
                                 first_seen := "2024-05-01T09:00:00";
                                 last_seen := "2024-05-01T09:00:00" |}]} |} = Ok d')
    by (vm_compute; eexists; reflexivity).
  destruct Hrun as [d' Hrun]. exists d'.
  destruct (upsert_jobs_batch_keeps_history _ _ _ _ "c1_R1"
              {| row := sample_job "c1_R1" "ML Engineer" 50;
                 first_seen := "2024-05-01T09:00:00";
                 last_seen := "2024-05-01T09:00:00" |} Hrun)
    as (new & Hnew & (Hf & _ & _ & Ht & _) & _); [vm_compute; reflexivity|].
  exists new. split; [exact Hrun|]. split; [exact Hnew|]. split; [exact Hf|exact Ht].
Defined.



End DatabaseFacts.

(** ** Facts about the job-title configuration *)

Module RoutesFacts.
Import Workday AppRoutes.

Lemma drop_while_end_idem (p : ascii -> bool) (s : string) :
  drop_while_end p (drop_while_end p s) = drop_while_end p s.
Proof.
  induction s as [|c s IH]; [reflexivity|]. cbn [drop_while_end].
  destruct (drop_while_end p s) as [|c' r] eqn:E.
  - destruct (p c) eqn:Pc; [reflexivity|]. cbn. rewrite Pc. reflexivity.
  - change (drop_while_end p (String c (String c' r)))
      with (match drop_while_end p (String c' r) with
            | EmptyString => if p c then EmptyString else String c EmptyString
            | r0 => String c r0
            end).
    rewrite IH. reflexivity.
Qed.

Lemma drop_while_head (p : ascii -> bool) (s : string) :
  match drop_while p s with
  | EmptyString => True
  | String c _ => p c = false
  end.
Proof.
  induction s as [|c s IH]; [exact I|]. cbn. destruct (p c) eqn:Pc; [exact IH|exact Pc].
Qed.

Lemma drop_while_kept (p : ascii -> bool) (c : ascii) (s : string) :
  p c = false -> drop_while p (drop_while_end p (String c s)) = drop_while_end p (String c s).
Proof.
  intros Pc. cbn [drop_while_end].
  destruct (drop_while_end p s); [rewrite Pc|]; cbn; rewrite Pc; reflexivity.
Qed.

(** [s.strip().strip() == s.strip()] *)
Lemma strip_idem (p : ascii -> bool) (s : string) : strip p (strip p s) = strip p s.
Proof.
  unfold strip. pose proof (drop_while_head p s) as H.
  destruct (drop_while p s) as [|c t]; [reflexivity|].
  rewrite drop_while_kept by exact H. apply drop_while_end_idem.
Qed.

Lemma clean_titles_strings (titles : list string) :
  clean_titles (map JStr titles) = Ok (cleaned titles).
Proof.
  unfold cleaned. induction titles as [|t titles IH]; [reflexivity|].
  cbn [map clean_titles Usa.str_method List.filter]. unfold mbind, result_bind, rbind.
  rewrite IH. reflexivity.
Qed.

Lemma cleaned_stripped (titles : list string) :
  Forall (fun t => t <> "" /\ strip is_space t = t) (cleaned titles).
Proof.
  unfold cleaned. apply Forall_forall. intros t Ht.
  apply list_elem_of_In, filter_In in Ht as [Hin Hne].
  apply in_map_iff in Hin as (t0 & <- & _). split.
  - intros E. rewrite E in Hne. discriminate.
  - apply strip_idem.
Qed.

Section TitleFacts.

Variable json_loads : string -> result json.
Variable json_dumps : list string -> string.

Lemma save_job_titles_strings (body : dict) (titles : list string) (d : Database.db) :
  lookup_key "titles" body = Some (JArr (map JStr titles)) ->
  save_job_titles json_dumps (JObj body) d
  = Ok ((JObj [("success", JBool true);
               ("count", JNum (Z.of_nat (length (cleaned titles))));
               ("titles", JArr (map JStr (cleaned titles)))], 200),
        Database.save_setting App.JOB_TITLES_SETTING_KEY (json_dumps (cleaned titles)) d).
Proof.
  intros Hb. unfold save_job_titles.
  assert (Ht : truthy (JObj body) = true) by (destruct body; [discriminate|reflexivity]).
  rewrite Ht. cbn [negb py_in subscript]. unfold getitem. rewrite Hb.
  unfold mbind, result_bind, rbind. cbn [negb]. rewrite clean_titles_strings.
  reflexivity.
Qed.

Lemma titles_after_save (value : string) (d : Database.db) (v : json) :
  value <> "" -> json_loads value = Ok v ->
  let d' := Database.save_setting App.JOB_TITLES_SETTING_KEY value d in
  get_job_titles json_loads d' = Ok (JObj [("titles", v)])
  /\ App.load_titles json_loads d' = v.
Proof.
  intros Hne Hl d'.
  assert (Hs : Database.get_setting App.JOB_TITLES_SETTING_KEY d' = Some value)
    by (unfold Database.get_setting, d', Database.save_setting; cbn;
        apply lookup_insert_eq).
  unfold get_job_titles, App.load_titles. rewrite Hs.
  destruct (String.eqb_spec value ""); [contradiction|]. cbn [negb]. rewrite Hl.
  split; reflexivity.
Qed.

(** X20. Saving a list of titles and reading it back.  The handler strips
    every title and drops those that are empty then; it answers with their
    number and the cleaned list, and stores the list under [job_titles]
    without touching any other table.  When [json.loads] undoes
    [json.dumps] on that list, [GET /api/job-titles] returns the cleaned
    list, and it is the list of targets the scanner loads.  Every stored
    title is non-empty and has no whitespace around it. *)
Theorem job_titles_round_trip (body : dict) (titles : list string) (d : Database.db) :
  lookup_key "titles" body = Some (JArr (map JStr titles)) ->
  json_dumps (cleaned titles) <> "" ->
  json_loads (json_dumps (cleaned titles)) = Ok (JArr (map JStr (cleaned titles))) ->
  exists d',
    save_job_titles json_dumps (JObj body) d
    = Ok ((JObj [("success", JBool true);
                 ("count", JNum (Z.of_nat (length (cleaned titles))));
                 ("titles", JArr (map JStr (cleaned titles)))], 200), d')
    /\ get_job_titles json_loads d' = Ok (JObj [("titles", JArr (map JStr (cleaned titles)))])
    /\ App.load_titles json_loads d' = JArr (map JStr (cleaned titles))
    /\ (Database.companies d' = Database.companies d
        /\ Database.jobs d' = Database.jobs d
        /\ Database.runs d' = Database.runs d
        /\ Database.resume d' = Database.resume d)
    /\ Forall (fun t => t <> "" /\ strip is_space t = t) (cleaned titles).
Proof.
  intros Hb Hne Hl. eexists. split; [apply save_job_titles_strings; exact Hb|].
  destruct (titles_after_save _ d _ Hne Hl) as [Hg Hs].
  split; [exact Hg|]. split; [exact Hs|]. split; [repeat split|].
  apply cleaned_stripped.
Qed.

Lemma cleaned_blank (titles : list string) :
  Forall (fun t => strip is_space t = "") titles -> cleaned titles = [].
Proof.
  unfold cleaned. induction 1 as [|t titles Ht Hall IH]; [reflexivity|].
  cbn. rewrite Ht. cbn. exact IH.
Qed.

(** X21. Saving an empty list, or a list of blank titles, does not restore the
    default titles: the stored list is empty, the scanner loads it as its
    targets, and with it no job is relevant, whatever its title. *)
Theorem blank_titles_match_nothing (body : dict) (titles : list string)
    (d : Database.db) :
  lookup_key "titles" body = Some (JArr (map JStr titles)) ->
  Forall (fun t => strip is_space t = "") titles ->
  json_dumps [] <> "" ->
  json_loads (json_dumps []) = Ok (JArr []) ->
  exists resp d',
    save_job_titles json_dumps (JObj body) d = Ok (resp, d')
    /\ App.load_titles json_loads d' = JArr []
    /\ forall job, Keywords.is_relevant_job job (App.load_titles json_loads d') <> Ok true.
Proof.
  intros Hb Hblank Hne Hl. eexists _, _.
  split; [apply save_job_titles_strings; exact Hb|].
  rewrite (cleaned_blank titles Hblank).
  destruct (titles_after_save _ d _ Hne Hl) as [_ Hs].
  split; [exact Hs|]. intros job. rewrite Hs.
  unfold Keywords.is_relevant_job.
  destruct (truthy (get_default job "title" (JStr ""))); cbn [negb]; [|discriminate].
  destruct (Keywords.extract_keywords_of _); cbn; discriminate.
Qed.

Lemma clean_titles_raises (items : list json) (t : json) :
  In t items -> (forall s, t <> JStr s) -> exists e, clean_titles items = Raise e.
Proof.
  intros Hin Hns. induction items as [|x items IH]; [contradiction|].
  cbn [clean_titles]. unfold mbind, result_bind, rbind.
  destruct (Usa.str_method (strip is_space) x) as [s|e] eqn:Ex; [|eauto].
  destruct Hin as [->|Hin].
  - destruct t; try discriminate. exfalso. eapply Hns. reflexivity.
  - destruct (IH Hin) as [e He]. rewrite He. eauto.
Qed.

(** X22. What the handler refuses.  A body that is empty or has no [titles]
    is answered with status 400, and so is a [titles] that is not a list;
    the database is left as it was.  A list with an item that is not a
    string makes the handler raise, and nothing is saved. *)
Theorem save_job_titles_rejects (d : Database.db) :
  (forall data, truthy data = false ->
      save_job_titles json_dumps data d
      = Ok ((JObj [("error", JStr "Missing 'titles' field")], 400), d))
  /\ (forall body, body <> [] -> lookup_key "titles" body = None ->
        save_job_titles json_dumps (JObj body) d
        = Ok ((JObj [("error", JStr "Missing 'titles' field")], 400), d))
  /\ (forall body v, lookup_key "titles" body = Some v ->
        (forall items, v <> JArr items) ->
        save_job_titles json_dumps (JObj body) d
        = Ok ((JObj [("error", JStr "'titles' must be a list")], 400), d))
  /\ (forall body items t, lookup_key "titles" body = Some (JArr items) ->
        In t items -> (forall s, t <> JStr s) ->
        exists e, save_job_titles json_dumps (JObj body) d = Raise e).
Proof.
  split; [|split; [|split]].
  - intros data H. unfold save_job_titles. rewrite H. reflexivity.
  - intros body Hne Hb. unfold save_job_titles.
    assert (Ht : truthy (JObj body) = true) by (destruct body; [contradiction|reflexivity]).
    rewrite Ht. cbn [negb py_in]. rewrite Hb. reflexivity.
  - intros body v Hb Hv. unfold save_job_titles.
    assert (Ht : truthy (JObj body) = true) by (destruct body; [discriminate|reflexivity]).
    rewrite Ht. cbn [negb py_in subscript]. unfold getitem. rewrite Hb.
    unfold mbind, result_bind, rbind. cbn [negb].
    destruct v; try reflexivity. exfalso. eapply Hv. reflexivity.
  - intros body items t Hb Hin Hns. unfold save_job_titles.
    assert (Ht : truthy (JObj body) = true) by (destruct body; [discriminate|reflexivity]).
    rewrite Ht. cbn [negb py_in subscript]. unfold getitem. rewrite Hb.
    unfold mbind, result_bind, rbind. cbn [negb].
    destruct (clean_titles_raises items t Hin Hns) as [e He]. rewrite He. eauto.
Qed.

End TitleFacts.

Example dumps_loads_simple :
  dumps_simple ["Data Scientist"; "NLP Engineer"]
  = String "[" (String quote ("Data Scientist" +:+ String quote (", " +:+ String quote
      ("NLP Engineer" +:+ String quote "]"))))
  /\ loads_simple (dumps_simple ["Data Scientist"; "NLP Engineer"])
     = Ok (JArr [JStr "Data Scientist"; JStr "NLP Engineer"])
  /\ loads_simple (dumps_simple []) = Ok (JArr [])
  /\ loads_simple "not json" = Raise (ValueError "Expecting value").
Proof. vm_compute. repeat split. Qed.

Lemma job_titles_round_trip_witness :
  cleaned ["  Data Scientist "; "   "; "NLP Engineer"] = ["Data Scientist"; "NLP Engineer"]
  /\ exists d',
       save_job_titles dumps_simple
         (JObj [("titles", JArr [JStr "  Data Scientist "; JStr "   ";
                                 JStr "NLP Engineer"])]) Database.empty_db
       = Ok ((JObj [("success", JBool true); ("count", JNum 2);
                    ("titles", JArr [JStr "Data Scientist"; JStr "NLP Engineer"])], 200),
             d')
       /\ App.load_titles loads_simple d'
          = JArr [JStr "Data Scientist"; JStr "NLP Engineer"].
Proof.
  split; [reflexivity|].
  destruct (job_titles_round_trip loads_simple dumps_simple
              [("titles", JArr [JStr "  Data Scientist "; JStr "   ";
                                JStr "NLP Engineer"])]
              ["  Data Scientist "; "   "; "NLP Engineer"] Database.empty_db eq_refl)
    as (d' & Hsave & _ & Hload & _).
  - discriminate.
  - reflexivity.
  - exists d'. split; [exact Hsave|exact Hload].
Defined.

Lemma blank_titles_match_nothing_witness :
  exists resp d',
    save_job_titles dumps_simple (JObj [("titles", JArr [JStr "   "])]) Database.empty_db
    = Ok (resp, d')
    /\ Keywords.is_relevant_job [("title", JStr "Machine Learning Engineer")]
         (App.load_titles loads_simple d') <> Ok true.
Proof.
  destruct (blank_titles_match_nothing loads_simple dumps_simple
              [("titles", JArr [JStr "   "])] ["   "] Database.empty_db eq_refl)
    as (resp & d' & Hsave & _ & Hnone).
  - repeat constructor.
  - discriminate.
  - reflexivity.
  - exists resp, d'. split; [exact Hsave|apply Hnone].
Defined.

Lemma save_job_titles_rejects_witness :
  save_job_titles dumps_simple (JObj [("titles", JStr "Data Scientist")])
    Database.empty_db
  = Ok ((JObj [("error", JStr "'titles' must be a list")], 400), Database.empty_db)
  /\ exists e,
       save_job_titles dumps_simple (JObj [("titles", JArr [JStr "Data Scientist"; JNum 7])])
         Database.empty_db = Raise e.
Proof.
  pose proof (save_job_titles_rejects dumps_simple Database.empty_db)
    as (_ & _ & H3 & H4).
  split.
  - apply (H3 [("titles", JStr "Data Scientist")] (JStr "Data Scientist") eq_refl).
    discriminate.
  - apply (H4 [("titles", JArr [JStr "Data Scientist"; JNum 7])]
              [JStr "Data Scientist"; JNum 7] (JNum 7) eq_refl).
    + right. left. reflexivity.
    + discriminate.
Defined.

End RoutesFacts.

(** ** Facts about the import of the employers *)

Module SpreadsheetFacts.
Import Workday Spreadsheet.

(** The characters of a company id. *)
Definition id_char (c : ascii) : bool := is_lower c || is_digit c || (c =? "_")%char.

Lemma sub_non_alnum_chars (s : string) : forall_chars id_char (sub_non_alnum s) = true.
Proof.
  induction s as [|c s IH]; [reflexivity|]. cbn. rewrite IH, andb_true_r.
  unfold id_char. destruct (is_lower c || is_digit c) eqn:E; [rewrite E|]; reflexivity.
Qed.

Lemma take_str_chars (p : ascii -> bool) (n : nat) (s : string) :
  forall_chars p s = true -> forall_chars p (take_str n s) = true.
Proof.
  unfold take_str. revert s. induction n as [|n IH]; intros [|c s]; cbn; try reflexivity.
  intros H. apply andb_true_iff in H as [Hc Hs]. rewrite Hc. cbn. apply IH, Hs.
Qed.

Lemma take_str_nonempty (n : nat) (s : string) :
  s <> "" -> take_str (S n) s <> "".
Proof. destruct s; [contradiction|]. discriminate. Qed.

Lemma company_id_shape (name : string) :
  name <> "" ->
  company_id_of name <> ""
  /\ (String.length (company_id_of name) <= 20)%nat
  /\ forall_chars id_char (company_id_of name) = true.
Proof.
  intros Hne. unfold company_id_of. split; [|split].
  - apply take_str_nonempty. destruct name; [contradiction|]. discriminate.
  - apply AppFacts.take_str_length.
  - apply take_str_chars, sub_non_alnum_chars.
Qed.

Section ImportFacts.

Variable str_of : json -> string.

(** Every value of a record is [None] or a stripped string. *)
Definition stored (record : dict) : Prop :=
  forall k v, lookup_key k record = Some v ->
    v = JNull \/ exists s, v = JStr s /\ strip is_space s = s.

Lemma stored_setitem (record : dict) (k : string) (v : json) :
  stored record ->
  (v = JNull \/ exists s, v = JStr s /\ strip is_space s = s) ->
  stored (setitem record k v).
Proof.
  intros Hr Hv k' v' Hl. destruct (String.eqb_spec k' k) as [->|Hne].
  - rewrite WorkdayFacts.lookup_setitem_eq in Hl. injection Hl as <-. exact Hv.
  - rewrite WorkdayFacts.lookup_setitem_ne in Hl by exact Hne. eapply Hr, Hl.
Qed.

Lemma fill_record_stored (headers : list (option string)) (row : list json) :
  forall record, stored record -> stored (fill_record str_of headers row record).
Proof.
  revert headers. induction row as [|val row IH]; intros headers record Hr.
  - destruct headers; exact Hr.
  - destruct headers as [|[h|] headers]; cbn [fill_record]; [exact Hr| |apply IH, Hr].
    apply IH, stored_setitem; [exact Hr|].
    destruct (truthy val); [right|left; reflexivity].
    eexists. split; [reflexivity|]. apply RoutesFacts.strip_idem.
Qed.

Lemma stored_truthy (record : dict) (k : string) :
  stored record -> truthy (get record k) = true ->
  exists s, lookup_key k record = Some (JStr s) /\ s <> "" /\ strip is_space s = s.
Proof.
  intros Hr Ht. unfold get, get_default in Ht.
  destruct (lookup_key k record) as [v|] eqn:E; [|discriminate].
  destruct (Hr k v E) as [->|(s & -> & Hs)]; [discriminate|].
  exists s. split; [reflexivity|]. split; [|exact Hs]. intros ->. discriminate.
Qed.

(** The shape of an imported record. *)
Definition imported (c : dict) : Prop :=
  exists name url,
    lookup_key "company_name" c = Some (JStr name)
    /\ name <> "" /\ strip is_space name = name
    /\ lookup_key "workday_url" c = Some (JStr url)
    /\ url <> "" /\ strip is_space url = url
    /\ lookup_key "company_id" c = Some (JStr (company_id_of name)).

Lemma import_row_cases (headers : list (option string)) (row : list json) :
  import_row str_of headers row = Ok None
  \/ exists c, import_row str_of headers row = Ok (Some c) /\ imported c.
Proof.
  unfold import_row. destruct (existsb truthy row); cbn [negb]; [|left; reflexivity].
  pose proof (fill_record_stored headers row [] (fun k v H => ltac:(discriminate)))
    as Hst.
  destruct (truthy (get _ "company_name")) eqn:En; [|left; reflexivity].
  destruct (truthy (get _ "workday_url")) eqn:Eu; [|left; reflexivity].
  cbn [andb]. right.
  destruct (stored_truthy _ _ Hst En) as (name & Hn & Hne & Hns).
  destruct (stored_truthy _ _ Hst Eu) as (url & Hu & Hue & Hus).
  unfold get, get_default at 1. rewrite Hn. cbn [Usa.str_method].
  unfold mbind, result_bind, rbind. eexists. split; [reflexivity|].
  exists name, url.
  rewrite !WorkdayFacts.lookup_setitem_ne by discriminate.
  rewrite WorkdayFacts.lookup_setitem_eq. repeat split; assumption.
Qed.

Lemma import_rows_cases (headers : list (option string)) (rows : list (list json)) :
  exists companies,
    import_rows str_of headers rows = Ok companies
    /\ Forall imported companies
    /\ (length companies <= length rows)%nat.
Proof.
  induction rows as [|row rows (companies & Hrun & Hall & Hlen)].
  - exists []. split; [reflexivity|]. split; [constructor|reflexivity].
  - cbn [import_rows]. unfold mbind, result_bind, rbind. rewrite Hrun.
    destruct (import_row_cases headers row) as [->|(c & -> & Hc)].
    + exists companies. split; [reflexivity|]. split; [exact Hall|]. cbn. lia.
    + exists (c :: companies). split; [reflexivity|].
      split; [constructor; assumption|]. cbn. lia.
Qed.

Lemma existsb_is_column (name : string) (headers : list (option string)) :
  existsb (is_column name) headers = true <-> In (Some name) headers.
Proof.
  rewrite existsb_exists. split.
  - intros ([c|] & Hin & Hc); [|discriminate]. apply String.eqb_eq in Hc. subst.
    exact Hin.
  - intros Hin. exists (Some name). split; [exact Hin|]. apply String.eqb_refl.
Qed.

(** X23. What the import returns.  Every record has a company name and a URL,
    both non-empty and without whitespace around them, and a company id
    made from the name: the name in lower case, every character other than
    a lower-case letter or a digit replaced by an underscore, cut to 20
    characters.  The id is not empty, has at most 20 characters, and holds
    only lower-case letters, digits and underscores. *)
Theorem import_companies_records (sheet : list (list json)) (companies : list dict) :
  import_companies str_of sheet = Ok companies ->
  Forall (fun c =>
            exists name url,
              lookup_key "company_name" c = Some (JStr name)
              /\ name <> "" /\ strip is_space name = name
              /\ lookup_key "workday_url" c = Some (JStr url)
              /\ url <> "" /\ strip is_space url = url
              /\ lookup_key "company_id" c = Some (JStr (company_id_of name))
              /\ company_id_of name <> ""
              /\ (String.length (company_id_of name) <= 20)%nat
              /\ forall_chars id_char (company_id_of name) = true)
         companies.
Proof.
  unfold import_companies.
  destruct (existsb (is_column "company_name") _); cbn [negb]; [|discriminate].
  destruct (existsb (is_column "workday_url") _); cbn [negb]; [|discriminate].
  destruct (import_rows_cases (map (header_of str_of) (hd [] sheet)) (tl sheet))
    as (cs & Hrun & Hall & _).
  rewrite Hrun. intros [= <-]. eapply Forall_impl; [exact Hall|].
  intros c (name & url & Hn & Hne & Hns & Hu & Hue & Hus & Hid).
  exists name, url. destruct (company_id_shape name Hne) as (H1 & H2 & H3).
  repeat split; assumption.
Qed.

(** X24. The headers decide whether a sheet is imported.  When a header maps
    to [company_name] and one to [workday_url], the import returns, with at
    most one record per data row: rows without a value, without a name or
    without a URL are skipped, and no cell value makes it raise.  Without
    a name column it raises [ValueError], and without a URL column it
    raises [ValueError] too, before any row is read. *)
Theorem import_companies_headers (header : list json) (rows : list (list json)) :
  let headers := map (header_of str_of) header in
  (In (Some "company_name") headers -> In (Some "workday_url") headers ->
   exists companies,
     import_companies str_of (header :: rows) = Ok companies
     /\ (length companies <= length rows)%nat)
  /\ (~ In (Some "company_name") headers ->
      import_companies str_of (header :: rows)
      = Raise (ValueError
                 "Spreadsheet must have a 'company_name' or 'Company name' column"))
  /\ (In (Some "company_name") headers -> ~ In (Some "workday_url") headers ->
      import_companies str_of (header :: rows)
      = Raise (ValueError
                 "Spreadsheet must have a 'workday_careers_url' or 'Careers site' column")).
Proof.
  intros headers. unfold import_companies. cbn [hd tl]. fold headers.
  split; [|split].
  - intros Hn Hu. apply existsb_is_column in Hn, Hu. rewrite Hn, Hu. cbn [negb].
    destruct (import_rows_cases headers rows) as (cs & Hrun & _ & Hlen).
    exists cs. split; assumption.
  - intros Hn. destruct (existsb (is_column "company_name") headers) eqn:E;
      [|reflexivity].
    apply existsb_is_column in E. contradiction.
  - intros Hn Hu. apply existsb_is_column in Hn. rewrite Hn. cbn [negb].
    destruct (existsb (is_column "workday_url") headers) eqn:E; [|reflexivity].
    apply existsb_is_column in E. contradiction.
Qed.

End ImportFacts.

Example sample_import :
  import_companies str_of_simple sample_sheet
  = Ok [[("company_name", JStr "Acme Corp."); ("note", JNull);
         ("workday_url", JStr "https://acme.wd5.myworkdayjobs.com/jobs");
         ("company_id", JStr "acme_corp_")]]
  /\ _match_column "  URL " = Some "workday_url"
  /\ _match_column "Region" = None
  /\ company_id_of "AT&T Inc." = company_id_of "at t inc "
  /\ company_id_of "International Business Machines Corporation"
     = "international_busine".
Proof. vm_compute. repeat split. Qed.

Lemma import_companies_records_witness :
  exists c,
    import_companies str_of_simple sample_sheet = Ok [c]
    /\ lookup_key "company_id" c = Some (JStr "acme_corp_").
Proof.
  eexists.
  assert (H : import_companies str_of_simple sample_sheet
              = Ok [[("company_name", JStr "Acme Corp."); ("note", JNull);
                     ("workday_url", JStr "https://acme.wd5.myworkdayjobs.com/jobs");
                     ("company_id", JStr "acme_corp_")]]) by reflexivity.
  split; [exact H|].
  pose proof (import_companies_records str_of_simple sample_sheet _ H) as Hall.
  apply Forall_inv in Hall. destruct Hall as (name & url & Hn & _ & _ & _ & _ & _ & Hid & _).
  cbn in Hn. injection Hn as <-. exact Hid.
Defined.

Lemma import_companies_headers_witness :
  (exists companies,
      import_companies str_of_simple sample_sheet = Ok companies
      /\ (length companies <= 3)%nat)
  /\ import_companies str_of_simple [[JStr "Employer"; JStr "URL"]; [JStr "Acme"; JStr "x"]]
     = Raise (ValueError "Spreadsheet must have a 'company_name' or 'Company name' column").
Proof.
  split.
  - apply (proj1 (import_companies_headers str_of_simple
                    [JStr " Company Name "; JStr "Notes"; JStr "Careers Site"; JStr "Region"]
                    (tl sample_sheet))).
    + left. reflexivity.
    + right. right. left. reflexivity.
  - apply (proj1 (proj2 (import_companies_headers str_of_simple
                           [JStr "Employer"; JStr "URL"] [[JStr "Acme"; JStr "x"]]))).
    intros [H|[H|[]]]; discriminate.
Defined.

End SpreadsheetFacts.

(** ** Facts about the scorer *)

Module ScorerFacts.
Import Scorer.

Section MatcherFacts.

Variable F : Type.
Variables (zero one weight_semantic weight_title weight_skills : F).
Variable true_div : nat -> nat -> F.
Variables (fmin fadd fmul : F -> F -> F).
Variable round4 : F -> F.
Variables (Model Emb : Type).
Variable load_model : nat -> result Model.
Variable encode : Model -> list string -> result (list Emb).
Variable norm : Emb -> F.
Variable similarity : Emb -> F -> Emb -> F.
Variable format_value : json -> string.
Variable list_of_set : list string -> list string.

Local Abbreviation state := (Scorer.state Model Emb).
Local Abbreviation title_score := (Scorer.title_score F zero one true_div fmin).
Local Abbreviation skill_overlap_score :=
  (Scorer.skill_overlap_score F zero one true_div fmin).
Local Abbreviation _build_result :=
  (Scorer._build_result F weight_semantic weight_title weight_skills fadd fmul round4
     list_of_set).
Local Abbreviation score_without_model :=
  (Scorer.score_without_model F zero one weight_semantic weight_title weight_skills
     true_div fmin fadd fmul round4 format_value list_of_set).
Local Abbreviation precompute :=
  (Scorer.precompute F zero one true_div fmin format_value).
Local Abbreviation encode_batches :=
  (Scorer.encode_batches F zero Model Emb encode similarity).
Local Abbreviation assemble :=
  (Scorer.assemble F zero weight_semantic weight_title weight_skills fadd fmul round4
     list_of_set).
Local Abbreviation encode_resume := (Scorer.encode_resume Model Emb load_model encode).
Local Abbreviation score_jobs_batch :=
  (Scorer.score_jobs_batch F zero one weight_semantic weight_title weight_skills
     true_div fmin fadd fmul round4 Model Emb load_model encode norm similarity
     format_value list_of_set).

Lemma title_score_string (title : string) :
  exists x, title_score (JStr title) = Ok (x, title_matches_of title).
Proof.
  unfold Scorer.title_score, title_matches_of. cbn [Usa.str_method].
  unfold mbind, result_bind, rbind.
  destruct (List.filter _ TITLE_KEYWORDS); eexists; reflexivity.
Qed.

Lemma skills_in_strings (skills : list string) (job_lower : string) :
  skills_in (map JStr skills) job_lower
  = Ok (List.filter (fun s => contains s job_lower) skills).
Proof.
  induction skills as [|s skills IH]; [reflexivity|].
  cbn [map skills_in List.filter]. rewrite IH. unfold mbind, result_bind, rbind.
  destruct (contains s job_lower); reflexivity.
Qed.

Lemma skill_overlap_score_list (resume_skills : json) (job_text : string) :
  skill_list resume_skills ->
  exists x matched,
    skill_overlap_score resume_skills job_text = Ok (x, matched)
    /\ (truthy resume_skills = false -> matched = []).
Proof.
  intros [Hf|[skills ->]]; unfold Scorer.skill_overlap_score.
  - rewrite Hf. eexists _, _. split; [reflexivity|]. reflexivity.
  - destruct (truthy (JArr (map JStr skills))) eqn:Et; cbn [negb].
    2:{ eexists _, _. split; [reflexivity|]. reflexivity. }
    cbn [Workday.iterate]. unfold mbind, result_bind, rbind.
    rewrite skills_in_strings.
    destruct (List.filter _ skills); eexists _, _; (split; [reflexivity|discriminate]).
Qed.

Lemma job_text_of_titled (job : dict) (title : string) :
  lookup_key "title" job = Some (JStr title) ->
  exists text, job_text_of format_value job = Ok text /\ getitem job "title" = Ok (JStr title).
Proof.
  intros H. unfold job_text_of, getitem. rewrite H. eexists. split; reflexivity.
Qed.

Lemma explained_build (resume_skills : json) (job : dict) (title : string)
    (x y z : F) (s_matches : list string) :
  lookup_key "title" job = Some (JStr title) ->
  (truthy resume_skills = false -> s_matches = []) ->
  explained resume_skills job
    (_build_result x (title_matches_of title) y s_matches z).
Proof. intros Ht Hs. exists title, s_matches. repeat split; assumption. Qed.

Lemma score_without_model_titled (jobs : list dict) (resume_skills : json) :
  Forall titled jobs -> skill_list resume_skills ->
  exists results,
    score_without_model jobs resume_skills = Ok results
    /\ Forall2 (explained resume_skills) jobs results.
Proof.
  intros Hall Hs. induction Hall as [|job jobs [title Ht] Hall (results & Hrun & Hex)].
  - exists []. split; [reflexivity|constructor].
  - cbn [Scorer.score_without_model]. unfold mbind, result_bind, rbind.
    destruct (job_text_of_titled job title Ht) as (text & Hjt & Hgi).
    rewrite Hjt, Hgi. cbn beta iota.
    destruct (title_score_string title) as [x Hx]. rewrite Hx. cbn beta iota.
    destruct (skill_overlap_score_list resume_skills text Hs) as (y & m & Hy & Hm).
    rewrite Hy. cbn beta iota. rewrite Hrun. eexists. split; [reflexivity|].
    constructor; [|exact Hex]. apply explained_build; assumption.
Qed.

(** The lists of the first loop, one entry per job. *)
Definition precomputed (resume_skills : json) (job : dict)
    (ts : (F * list string) * (F * list string)) : Prop :=
  exists title,
    lookup_key "title" job = Some (JStr title)
    /\ snd (fst ts) = title_matches_of title
    /\ (truthy resume_skills = false -> snd (snd ts) = []).

Lemma precompute_titled (jobs : list dict) (resume_skills : json) :
  Forall titled jobs -> skill_list resume_skills ->
  exists title_results skill_results job_texts,
    precompute jobs resume_skills = Ok (title_results, skill_results, job_texts)
    /\ Forall2 (precomputed resume_skills) jobs (zip title_results skill_results).
Proof.
  intros Hall Hs.
  induction Hall as [|job jobs [title Ht] Hall (tr & sr & texts & Hrun & Hex)].
  - exists [], [], []. split; [reflexivity|constructor].
  - cbn [Scorer.precompute]. unfold mbind, result_bind, rbind.
    destruct (job_text_of_titled job title Ht) as (text & Hjt & Hgi).
    rewrite Hjt, Hgi. cbn beta iota.
    destruct (title_score_string title) as [x Hx]. rewrite Hx. cbn beta iota.
    destruct (skill_overlap_score_list resume_skills text Hs) as (y & m & Hy & Hm).
    rewrite Hy. cbn beta iota. rewrite Hrun. eexists _, _, _.
    split; [reflexivity|]. cbn [zip_with]. constructor; [|exact Hex].
    exists title. repeat split; assumption.
Qed.

Lemma encode_batches_returns (model : Model) (e : Emb) (n : F) (bs : list (list string)) :
  forall (acc : list F) (st : state),
    exists sems st', encode_batches model e n bs acc st = (Ok sems, st').
Proof.
  induction bs as [|batch bs IH]; intros acc st; cbn [Scorer.encode_batches].
  - eexists _, _. reflexivity.
  - unfold model_encode. destruct (encode model batch); apply IH.
Qed.

Lemma assemble_explained (resume_skills : json) (jobs : list dict) :
  forall (pairs : list ((F * list string) * (F * list string))) (g : nat -> F),
    Forall2 (precomputed resume_skills) jobs pairs ->
    Forall2 (explained resume_skills) jobs
      (imap (fun idx ts =>
               let '(t, s) := ts in
               _build_result (fst t) (snd t) (fst s) (snd s) (g idx)) pairs).
Proof.
  induction jobs as [|job jobs IH]; intros pairs g H; inversion H; subst; cbn [imap].
  - constructor.
  - match goal with
    | Hp : precomputed _ _ ?y |- _ =>
        destruct y as [[x tm] [y sm]]; destruct Hp as (title & Ht & Htm & Hsm);
        cbn [fst snd] in *; subst tm
    end.
    constructor; [apply explained_build; assumption|].
    apply (IH _ (fun idx => g (Datatypes.S idx))). assumption.
Qed.

(** X25. For jobs that each have a string title, and resume skills that are
    empty or a list of strings, the batch scorer returns one result per
    job, in the order of the jobs, from any state of its globals and
    whatever the model does: a model that fails to load, a resume that
    fails to encode, or a batch that fails to encode changes semantic
    scores, never the number of results.  The title keywords of each
    result and its summary are those of its job's title and skills. *)
Theorem score_jobs_batch_one_per_job (jobs : list dict) (resume_text : string)
    (resume_skills : json) (st : state) :
  Forall titled jobs -> skill_list resume_skills ->
  exists results st',
    score_jobs_batch jobs resume_text resume_skills st = (Ok results, st')
    /\ length results = length jobs
    /\ Forall2 (explained resume_skills) jobs results.
Proof.
  intros Hall Hs. unfold Scorer.score_jobs_batch.
  destruct jobs as [|job jobs].
  { eexists _, _. split; [reflexivity|]. split; [reflexivity|constructor]. }
  set (js := job :: jobs) in *.
  match goal with
  | |- context [mbind ?k ?m st] => destruct (mbind k m st) as [[[[model e] n]|err] st1]
  end.
  - destruct (precompute_titled js resume_skills Hall Hs)
      as (tr & sr & texts & -> & Hpre).
    destruct (encode_batches_returns model e n (batches (length texts) texts) [] st1)
      as (sems & st2 & ->).
    eexists _, _. split; [reflexivity|].
    pose proof (assemble_explained resume_skills js (zip tr sr)
                  (fun idx => default zero (sems !! idx)) Hpre) as Hex.
    split; [|exact Hex]. symmetry. exact (Forall2_length _ _ _ Hex).
  - destruct (score_without_model_titled js resume_skills Hall Hs)
      as (results & -> & Hex).
    eexists _, _. split; [reflexivity|]. split; [|exact Hex].
    symmetry. exact (Forall2_length _ _ _ Hex).
Qed.

(** X26. The resume is encoded once per text: after [encode_resume] has
    returned an embedding, a call with a text that has the same first 2000
    characters returns that embedding from the cache; the model is neither
    loaded nor asked to encode, and the state is unchanged. *)
Theorem encode_resume_is_cached (text1 text2 : string) (st st1 : state) (e : Emb) :
  encode_resume text1 st = (Ok e, st1) ->
  take_str 2000 text1 = take_str 2000 text2 ->
  encode_resume text2 st1 = (Ok e, st1)
  /\ _resume_cache st1 = Some (take_str 2000 text1, e).
Proof.
  intros H Heq.
  assert (Hc : _resume_cache st1 = Some (take_str 2000 text1, e)).
  { unfold Scorer.encode_resume in H.
    assert (Hmiss : encode_and_cache Model Emb load_model encode
                      (take_str 2000 text1) st = (Ok e, st1) ->
                    _resume_cache st1 = Some (take_str 2000 text1, e)).
    { unfold encode_and_cache, _get_model, model_encode, mbind, S_bind, lift.
      destruct (_model st); [|destruct (load_model (loads st)); [|discriminate]];
        cbn [_model loads _resume_cache encoded];
        (match goal with
         | |- context [encode ?m ?l] => destruct (encode m l) as [[|e0 es]|err]
         end; try discriminate; intros [= <- <-]; reflexivity). }
    destruct (_resume_cache st) as [[text emb]|] eqn:Ec; [|exact (Hmiss H)].
    destruct (String.eqb_spec text (take_str 2000 text1)) as [->|Hne];
      [|exact (Hmiss H)].
    injection H as <- <-. exact Ec. }
  split; [|exact Hc]. unfold Scorer.encode_resume. rewrite Hc, <- Heq.
  rewrite String.eqb_refl. reflexivity.
Qed.

End MatcherFacts.

(** *** The theorems at a sample model *)

(** A model that never loads, over integer scores. *)
Definition no_model : nat -> result unit := fun _ => Raise (OtherError "no network").

Definition sample_score_jobs_batch :=
  score_jobs_batch Z 0 1 4 3 3 (fun a b => Z.of_nat a) Z.min Z.add Z.mul (fun x => x)
    unit unit no_model (fun _ texts => Ok (map (fun _ => tt) texts)) (fun _ => 1)
    (fun _ _ _ => 1) (fun _ => "") (fun l => l).

Lemma score_jobs_batch_one_per_job_witness :
  exists results st',
    sample_score_jobs_batch
      [[("title", JStr "Senior NLP Researcher"); ("jd_text", JStr "Python and PyTorch")];
       [("title", JStr "Accountant")]]
      "resume" (JArr [JStr "python"; JStr "sql"]) (fresh_state unit unit)
    = (Ok results, st')
    /\ length results = 2%nat.
Proof.
  destruct (score_jobs_batch_one_per_job Z 0 1 4 3 3 (fun a b => Z.of_nat a) Z.min Z.add
              Z.mul (fun x => x) unit unit no_model
              (fun _ texts => Ok (map (fun _ => tt) texts)) (fun _ => 1)
              (fun _ _ _ => 1) (fun _ => "") (fun l => l)
              [[("title", JStr "Senior NLP Researcher");
                ("jd_text", JStr "Python and PyTorch")];
               [("title", JStr "Accountant")]]
              "resume" (JArr [JStr "python"; JStr "sql"]) (fresh_state unit unit))
    as (results & st' & Hrun & Hlen & _).
  - repeat constructor; eexists; reflexivity.
  - right. exists ["python"; "sql"]. reflexivity.
  - exists results, st'. split; [exact Hrun|exact Hlen].
Defined.

Example sample_scores :
  map why (match fst (sample_score_jobs_batch
                 [[("title", JStr "Senior NLP Researcher");
                   ("jd_text", JStr "Python and PyTorch")];
                  [("title", JStr "Accountant")]]
                 "resume" (JArr [JStr "python"; JStr "sql"]) (fresh_state unit unit)) with
               | Ok results => results
               | Raise _ => []
               end)
  = ["title: researcher, nlp; skills: python"; "semantic similarity only"].
Proof. vm_compute. reflexivity. Qed.

Lemma encode_resume_is_cached_witness :
  let encode_one := fun (_ : unit) (texts : list string) => Ok (map String.length texts) in
  let st1 := snd (encode_resume unit nat (fun _ => Ok tt) encode_one "resume text"
                    (fresh_state unit nat)) in
  encode_resume unit nat (fun _ => Ok tt) encode_one "resume text" (fresh_state unit nat)
  = (Ok 11%nat, st1)
  /\ encode_resume unit nat (fun _ => Ok tt) encode_one "resume text" st1 = (Ok 11%nat, st1)
  /\ encoded st1 = [["resume text"]].
Proof.
  cbv zeta. split; [reflexivity|]. split; [|reflexivity].
  exact (proj1 (encode_resume_is_cached unit nat (fun _ => Ok tt)
                  (fun (_ : unit) (texts : list string) => Ok (map String.length texts))
                  "resume text" "resume text" (fresh_state unit nat) _ 11%nat
                  eq_refl eq_refl)).
Defined.

End ScorerFacts.

(** ** Facts about the resume parser *)

Module ResumeFacts.
Import Workday ResumeParser.

(** *** The skills *)

Lemma compare_refl (s : string) : String.compare s s = Eq.
Proof.
  pose proof (String.compare_antisym s s) as H.
  destruct (String.compare s s); [reflexivity|discriminate|discriminate].
Qed.

Lemma in_insert_sorted (s x : string) (l : list string) :
  In s (insert_sorted x l) <-> s = x \/ In s l.
Proof.
  induction l as [|y l IH]; cbn; [intuition congruence|].
  destruct (String.compare x y) eqn:E; cbn.
  - apply String.compare_eq_iff in E. subst. intuition congruence.
  - intuition congruence.
  - rewrite IH. intuition congruence.
Qed.

Lemma in_sorted_set (s : string) (found : list string) :
  In s (sorted_set found) <-> In s found.
Proof.
  induction found as [|x found IH]; cbn; [tauto|].
  rewrite in_insert_sorted, IH. intuition congruence.
Qed.

Lemma ascending_insert (x : string) (l : list string) :
  ascending l = true -> ascending (insert_sorted x l) = true.
Proof.
  induction l as [|y l IH]; intros H; [reflexivity|].
  cbn [insert_sorted]. destruct (String.compare x y) eqn:E.
  - exact H.
  - cbn [ascending]. rewrite E. exact H.
  - assert (Hyx : String.compare y x = Lt)
      by (rewrite String.compare_antisym, E; reflexivity).
    assert (Hl : ascending l = true).
    { destruct l as [|z l]; [reflexivity|]. cbn [ascending] in H.
      destruct (String.compare y z); try discriminate. exact H. }
    specialize (IH Hl). destruct l as [|z l].
    + cbn. rewrite Hyx. reflexivity.
    + cbn [insert_sorted] in *. destruct (String.compare x z) eqn:Ez.
      * exact H.
      * cbn [ascending]. rewrite Hyx. exact IH.
      * cbn [ascending] in H |- *. destruct (String.compare y z); try discriminate.
        exact IH.
Qed.

Lemma ascending_sorted_set (found : list string) : ascending (sorted_set found) = true.
Proof.
  induction found as [|x found IH]; [reflexivity|]. cbn. apply ascending_insert, IH.
Qed.

Lemma Ok_inj {X} (a b : X) : @Ok X a = Ok b -> a = b.
Proof. intros H. injection H as H. exact H. Qed.

(** X27. The skills found are the known skills that occur in the text that is
    searched, as substrings, in ascending order and each once.  The text
    searched is the [skills] section in lower case when the sections have
    one, and the whole resume in lower case otherwise: with a skills
    section, a skill named elsewhere in the resume is not found. *)
Theorem extract_skills_found (text : string) (sections : json) (found : list string) :
  extract_skills text sections = Ok found ->
  exists search_text,
    search_text_of text sections = Ok search_text
    /\ (forall s, In s found <-> In s KNOWN_SKILLS /\ contains s search_text = true)
    /\ ascending found = true
    /\ (forall d c, sections = JObj d -> lookup_key "skills" d = Some (JStr c) ->
          search_text = lower c)
    /\ (sections = JNull \/ (exists d, sections = JObj d /\ lookup_key "skills" d = None) ->
        search_text = lower text).
Proof.
  unfold extract_skills. unfold mbind at 1, result_bind, rbind.
  destruct (search_text_of text sections) as [search|e] eqn:Es; [|discriminate].
  intros H. apply Ok_inj in H. subst found.
  exists search. split; [reflexivity|]. split; [|split; [|split]].
  - intros s. rewrite in_sorted_set, filter_In. reflexivity.
  - apply ascending_sorted_set.
  - intros d c -> Hc. unfold search_text_of in Es.
    assert (Ht : truthy (JObj d) = true) by (destruct d; [discriminate|reflexivity]).
    rewrite Ht in Es. cbn [py_in subscript] in Es. unfold getitem in Es.
    rewrite Hc in Es. cbn in Es. congruence.
  - intros [->|(d & -> & Hd)]; unfold search_text_of in Es.
    + cbn in Es. congruence.
    + destruct (truthy (JObj d)); [|congruence]. cbn [py_in] in Es. rewrite Hd in Es.
      congruence.
Qed.

(** *** The sections *)

Lemma section_of_named (lower : string) : In (section_of lower section_names) SECTIONS.
Proof.
  unfold section_names. cbn [section_of].
  repeat (destruct (String.prefix _ lower); [cbn; tauto|]). cbn. tauto.
Qed.

(** Every section has one of the nine names, and a content that is not
    empty and has no whitespace around it. *)
Definition well_formed (sections : dict) : Prop :=
  forall k v, lookup_key k sections = Some v ->
    In k SECTIONS /\ exists c, v = JStr c /\ c <> "" /\ strip is_space c = c.

Lemma save_section_well_formed (sections : dict) (name : string) (lines : list string) :
  well_formed sections -> In name SECTIONS ->
  well_formed (save_section sections name lines).
Proof.
  intros Hw Hn. unfold save_section. destruct lines as [|l lines]; [exact Hw|].
  destruct (String.eqb_spec (strip is_space (String.concat newline (l :: lines))) "")
    as [|Hne]; [exact Hw|].
  intros k v Hl. destruct (String.eqb_spec k name) as [->|Hk].
  - rewrite WorkdayFacts.lookup_setitem_eq in Hl. injection Hl as <-.
    split; [exact Hn|]. eexists. split; [reflexivity|]. split; [exact Hne|].
    apply RoutesFacts.strip_idem.
  - rewrite WorkdayFacts.lookup_setitem_ne in Hl by exact Hk. apply Hw, Hl.
Qed.

Lemma scan_lines_well_formed (lines : list string) :
  forall (sections : dict) (name : string) (current : list string),
    well_formed sections -> In name SECTIONS ->
    well_formed (scan_lines lines sections name current).
Proof.
  induction lines as [|line lines IH]; intros sections name current Hw Hn;
    cbn [scan_lines].
  - apply save_section_well_formed; assumption.
  - destruct (String.eqb (strip is_space line) ""); [apply IH; assumption|].
    destruct (is_heading (strip is_space line)); [|apply IH; assumption].
    apply IH; [apply save_section_well_formed; assumption|apply section_of_named].
Qed.

Lemma scan_lines_plain (lines : list string) :
  forall (sections : dict) (name : string) (current : list string),
    Forall (fun line => is_heading (strip is_space line) = false) lines ->
    scan_lines lines sections name current
    = save_section sections name (current ++ map (strip is_space) lines).
Proof.
  induction lines as [|line lines IH]; intros sections name current Hall;
    cbn [scan_lines map].
  - rewrite app_nil_r. reflexivity.
  - inversion Hall as [|? ? Hline Hall']; subst. rewrite Hline.
    destruct (String.eqb_spec (strip is_space line) "") as [E|_].
    + rewrite IH by assumption. rewrite E, <- app_assoc. reflexivity.
    + rewrite IH by assumption. rewrite <- app_assoc. reflexivity.
Qed.

(** X28. The sections of a resume.  Every section the parser returns has one
    of nine names ([header], [skills], [experience], [education],
    [projects], [certifications], [publications], [summary], [other]) and a
    content that is not empty and has no whitespace around it.  A resume
    none of whose lines starts like a heading has at most the section
    [header]: its lines, each stripped, when they are not all blank. *)
Theorem parse_sections_shape (text : string) :
  (forall k v, lookup_key k (parse_sections text) = Some v ->
     In k SECTIONS /\ exists c, v = JStr c /\ c <> "" /\ strip is_space c = c)
  /\ (Forall (fun line => is_heading (strip is_space line) = false) (split LF text) ->
      let content :=
        strip is_space (String.concat newline (map (strip is_space) (split LF text))) in
      parse_sections text
      = if String.eqb content "" then [] else [("header", JStr content)]).
Proof.
  split.
  - apply scan_lines_well_formed; [intros k v H; discriminate|left; reflexivity].
  - intros Hall content. unfold parse_sections.
    rewrite scan_lines_plain by assumption. cbn [app]. unfold save_section.
    fold content. destruct (map (strip is_space) (split LF text)) eqn:E; [|reflexivity].
    subst content. reflexivity.
Qed.

(** X29. The skills the upload handler stores, [extract_skills(text,
    parse_sections(text))]: the call never raises, and when the resume has
    a skills section with content, only that section is searched. *)
Theorem extract_skills_of_parsed (text : string) :
  let sections := parse_sections text in
  exists found search_text,
    extract_skills text (JObj sections) = Ok found
    /\ search_text_of text (JObj sections) = Ok search_text
    /\ (forall s, In s found <-> In s KNOWN_SKILLS /\ contains s search_text = true)
    /\ search_text = match lookup_key "skills" sections with
                     | Some (JStr c) => lower c
                     | _ => lower text
                     end.
Proof.
  intros sections.
  assert (Hw : well_formed sections)
    by (apply scan_lines_well_formed; [intros k v H; discriminate|left; reflexivity]).
  assert (Hs : search_text_of text (JObj sections)
               = Ok match lookup_key "skills" sections with
                    | Some (JStr c) => lower c
                    | _ => lower text
                    end).
  { unfold search_text_of. destruct (truthy (JObj sections)) eqn:Et.
    - cbn [py_in subscript]. unfold getitem.
      destruct (lookup_key "skills" sections) as [v|] eqn:E; [|reflexivity].
      destruct (Hw _ _ E) as (_ & c & -> & _). reflexivity.
    - destruct sections; [reflexivity|discriminate]. }
  unfold extract_skills. rewrite Hs. unfold mbind, result_bind, rbind.
  eexists _, _. split; [reflexivity|]. split; [reflexivity|]. split; [|reflexivity].
  intros s. rewrite in_sorted_set, filter_In. reflexivity.
Qed.

Example sample_resume_parsed :
  parse_sections sample_resume
  = [("header", JStr (String.concat newline ["Jane Doe"; "jane@example.org"]));
     ("skills", JStr (String.concat newline ["Python, PyTorch"; "SQL"]));
     ("experience", JStr "Built REST services in Java")]
  /\ extract_skills sample_resume (JObj (parse_sections sample_resume))
     = Ok ["python"; "pytorch"; "r"; "sql"]
  /\ extract_skills sample_resume JNull
     = Ok ["java"; "python"; "pytorch"; "r"; "rest"; "sql"]
  /\ is_heading "Experienced in Python" = true
  /\ section_of "core  competencies" section_names = "other".
Proof. vm_compute. repeat split. Qed.

Lemma parse_sections_shape_witness :
  parse_sections (String.concat newline ["Jane Doe"; "  ML person "])
  = [("header", JStr (String.concat newline ["Jane Doe"; "ML person"]))].
Proof.
  apply (proj2 (parse_sections_shape (String.concat newline ["Jane Doe"; "  ML person "]))).
  repeat constructor.
Defined.

Lemma extract_skills_found_witness :
  extract_skills sample_resume JNull = Ok ["java"; "python"; "pytorch"; "r"; "rest"; "sql"]
  /\ ascending ["java"; "python"; "pytorch"; "r"; "rest"; "sql"] = true.
Proof.
  assert (H : extract_skills sample_resume JNull
              = Ok ["java"; "python"; "pytorch"; "r"; "rest"; "sql"])
    by (vm_compute; reflexivity).
  split; [exact H|].
  destruct (extract_skills_found sample_resume JNull _ H) as (search & _ & _ & Ha & _).
  exact Ha.
Defined.

End ResumeFacts.
